(** * Skeinforge: the hop and export stages

    A shallow embedding of [skeinforge_tools/hop.py] and
    [skeinforge_tools/export.py].  Python strings are [string]s, Python
    floats are binary64 primitive floats, [cStringIO] outputs are the text
    written so far, and an uncaught Python exception is the [Raise] branch
    of [result]. *)

From Stdlib Require Import ZArith List String Ascii Bool Lia.
From Stdlib Require Import Floats Uint63.
Import ListNotations.

Set Warnings "-inexact-float".

Local Open Scope string_scope.
Local Open Scope Z_scope.

(** ** Python values and built-ins *)

Module Py.

(** The exceptions the two stages can let escape. *)
Inductive exn : Type :=
| ValueError
| IndexError
| ZeroDivisionError
| AttributeError.

(** A call either returns or raises. *)
Inductive result (A : Type) : Type :=
| OK (a : A)
| Raise (e : exn).

Arguments OK {A} a.
Arguments Raise {A} e.

Definition bind {A B : Type} (m : result A) (k : A -> result B) : result B :=
  match m with
  | OK a => k a
  | Raise e => Raise e
  end.

Definition returns {A : Type} (m : result A) : bool :=
  match m with
  | OK _ => true
  | Raise _ => false
  end.

(** [len(s)] *)
Definition len (s : string) : Z := Z.of_nat (String.length s).

Fixpoint take (n : nat) (s : string) : string :=
  match n, s with
  | S n', String c s' => String c (take n' s')
  | _, _ => EmptyString
  end.

Fixpoint drop (n : nat) (s : string) : string :=
  match n, s with
  | S n', String _ s' => drop n' s'
  | _, _ => s
  end.

(** A slice bound as Python normalises it: a negative index counts from
    the end, and every index is clamped to [0 .. len(s)]. *)
Definition bound (s : string) (i : Z) : nat :=
  Z.to_nat (if i <? 0 then Z.max 0 (i + len s) else Z.min i (len s)).

(** [s[ a : b ]], [s[ : b ]] and [s[ a : ]] *)
Definition slice (s : string) (a b : Z) : string :=
  take (bound s b - bound s a) (drop (bound s a) s).

Definition slice_to (s : string) (b : Z) : string := take (bound s b) s.

Definition slice_from (s : string) (a : Z) : string := drop (bound s a) s.

(** Position of the first [c] in [s], if any. *)
Fixpoint position (c : ascii) (s : string) : option nat :=
  match s with
  | EmptyString => None
  | String d s' =>
      if Ascii.eqb d c then Some O
      else match position c s' with
           | Some k => Some (S k)
           | None => None
           end
  end.

(** [s.find( c, start )] for a one-character [c]: the lowest index at or
    after [start] where [c] stands, or [-1]. *)
Definition find (s : string) (c : ascii) (start : Z) : Z :=
  match position c (drop (bound s start) s) with
  | Some k => Z.of_nat (bound s start + k)
  | None => -1
  end.

(** Cut [s] at every character satisfying [p]; empty fields are kept, so
    the result has one more field than [s] has separators. *)
Fixpoint fields (p : ascii -> bool) (s : string) : list string :=
  match s with
  | EmptyString => [EmptyString]
  | String c s' =>
      if p c then EmptyString :: fields p s'
      else match fields p s' with
           | w :: ws => String c w :: ws
           | [] => [String c EmptyString]
           end
  end.

(** [s.split( ' ' )]: split at every single space. *)
Definition split_on (sep : ascii) (s : string) : list string :=
  fields (Ascii.eqb sep) s.

(** The characters [str.split()] and [str.isspace()] treat as blanks. *)
Definition isspace (c : ascii) : bool :=
  let n := nat_of_ascii c in
  ((9 <=? n) && (n <=? 13))%nat || (n =? 32)%nat.

Definition nonempty (s : string) : bool :=
  match s with
  | EmptyString => false
  | String _ _ => true
  end.

(** [s.split()]: split at runs of blanks, no empty word in the result. *)
Definition split (s : string) : list string :=
  filter nonempty (fields isspace s).

(** Every character of [s] satisfies [p]. *)
Fixpoint all_chars (p : ascii -> bool) (s : string) : bool :=
  match s with
  | EmptyString => true
  | String c s' => p c && all_chars p s'
  end.

(** [l[ i ]] on a list *)
Definition item {A : Type} (l : list A) (i : nat) : result A :=
  match nth_error l i with
  | Some a => OK a
  | None => Raise IndexError
  end.

(** [s[ 0 ]] on a string *)
Definition first_char (s : string) : result ascii :=
  match s with
  | String c _ => OK c
  | EmptyString => Raise IndexError
  end.

(** Float division: Python raises on a zero divisor, of either sign. *)
Definition fdiv (a b : float) : result float :=
  if PrimFloat.eqb b 0%float then Raise ZeroDivisionError
  else OK (PrimFloat.div a b).

(** [min( a, b )] on floats: the first argument unless the second is
    strictly smaller. *)
Definition fmin (a b : float) : float :=
  if PrimFloat.ltb b a then b else a.

End Py.

Import Py.

Notation "x <- m ;; k" := (Py.bind m (fun x => k))
  (at level 61, m at next level, right associativity).

Definition newline : string := String "010"%char EmptyString.

(** ** Locations *)

(** Modelled from the spec: the Vec3 class of skeinforge_utilities is not
    among the sources.  A Location is a point [(x, y, z)] with a
    Euclidean distance and the scaling and sum that make up a linear
    blend. *)
Record Vec3 : Type := mkVec3 { x : float; y : float; z : float }.

(** Modelled from the spec: the operations of Vec3 that [hop.py] calls,
    [times] and [plus] componentwise (together the spec's blend) and the
    Euclidean [distance]. *)
Module Vec3Ops.

Definition times (v : Vec3) (k : float) : Vec3 :=
  mkVec3 (x v * k) (y v * k) (z v * k).

Definition plus (v w : Vec3) : Vec3 :=
  mkVec3 (x v + x w) (y v + y w) (z v + z w).

Definition distance (v w : Vec3) : float :=
  let dx := (x v - x w)%float in
  let dy := (y v - y w)%float in
  let dz := (z v - z w)%float in
  PrimFloat.sqrt (dx * dx + dy * dy + dz * dz).

(** [blend(a, b, t) = a*(1-t) + b*t], as the spec writes it. *)
Definition blend (a b : Vec3) (t : float) : Vec3 :=
  plus (times a (1 - t)) (times b t).

End Vec3Ops.

(** ** What the stages import *)

(** The built-ins that parse numbers and the helpers of [gcodec] and
    [euclidean] that [hop.py] and [export.py] call.  Their code is not
    among the sources, so the stages are stated over any implementation of
    them; a parse that fails raises. *)
Class Imports : Type := {
  (** [float( s )] *)
  py_float : string -> result float;
  (** [int( s )] *)
  py_int : string -> result Z;
  (** [math.tan( math.radians( a ) )] *)
  tan_radians : float -> float;
  (** [gcodec.isProcedureDone( gcodeText, procedure )] *)
  isProcedureDone : string -> string -> bool;
  (** [gcodec.getTextLines( text )] *)
  getTextLines : string -> list string;
  (** [gcodec.indexOfStartingWithSecond( letter, splitLine )] *)
  indexOfStartingWithSecond : string -> list string -> Z;
  (** [gcodec.getLocationFromSplitLine( oldLocation, splitLine )] *)
  getLocationFromSplitLine : option Vec3 -> list string -> result Vec3;
  (** ['%s' % euclidean.getRoundedToDecimalPlaces( places, number )] *)
  getRoundedToDecimalPlaces : Z -> float -> string;
  (** [euclidean.getRoundedToDecimalPlacesString( places, number )] *)
  getRoundedToDecimalPlacesString : Z -> float -> string
}.

(** ** More built-ins: replacing and searching from the right *)

Module PyText.

(** [s.startswith( prefix )] *)
Fixpoint startswith (prefix s : string) : bool :=
  match prefix, s with
  | EmptyString, _ => true
  | String a prefix', String b s' => Ascii.eqb a b && startswith prefix' s'
  | String _ _, EmptyString => false
  end.

(** [old in s] *)
Fixpoint contains (old s : string) : bool :=
  startswith old s
  || match s with
     | EmptyString => false
     | String _ s' => contains old s'
     end.

(** The scan of [s.replace( old, new )] for a non-empty [old]: left to
    right, every occurrence found is replaced and stepped over ([skip]
    counts the characters of it still to step over), so occurrences do
    not overlap. *)
Fixpoint replace_from (old new : string) (skip : nat) (s : string) : string :=
  match s with
  | EmptyString => EmptyString
  | String c s' =>
      match skip with
      | S skip' => replace_from old new skip' s'
      | O =>
          if startswith old s
          then new ++ replace_from old new (String.length old - 1) s'
          else String c (replace_from old new 0 s')
      end
  end.

(** [new] in front of every character and at the end: what replacing the
    empty string gives. *)
Fixpoint interleave (new s : string) : string :=
  match s with
  | EmptyString => new
  | String c s' => new ++ String c (interleave new s')
  end.

(** [s.replace( old, new )] *)
Definition replace (s old new : string) : string :=
  if (old =? "")%string then interleave new s else replace_from old new 0 s.

(** [s.replace( a, b )] for one-character [a] and [b]. *)
Fixpoint replace_char (s : string) (a b : ascii) : string :=
  match s with
  | EmptyString => EmptyString
  | String c s' =>
      String (if Ascii.eqb c a then b else c) (replace_char s' a b)
  end.

(** Position of the last [c] in [s], if any. *)
Fixpoint last_position (c : ascii) (s : string) : option nat :=
  match s with
  | EmptyString => None
  | String d s' =>
      match last_position c s' with
      | Some k => Some (S k)
      | None => if Ascii.eqb d c then Some O else None
      end
  end.

(** [s.rfind( c )] for a one-character [c]: the highest index where [c]
    stands, or [-1]. *)
Definition rfind (s : string) (c : ascii) : Z :=
  match last_position c s with
  | Some k => Z.of_nat k
  | None => -1
  end.

End PyText.

Import PyText.

(** ** What a stage does to the world around it *)

Module Effects.

(** The calls that write: [print], [gcodec.writeFileText],
    [analyze.writeOutput], an export plugin's [writeOutput] and the
    [print >>] into the secondary sink. *)
Inductive event : Type :=
| Print (text : string)
| PrintFloat (number : float)
| WriteFile (name text : string)
| Analyze (name text : string)
| PluginWrite (plugin name text : string)
| SendTo (sink text : string).

(** A run: what it wrote, in order, and how it ended. *)
Definition io (A : Type) : Type := (list event * result A)%type.

Definition ret {A : Type} (a : A) : io A := ([], OK a).

Definition emit (e : event) : io unit := ([e], OK tt).

Definition lift {A : Type} (r : result A) : io A := ([], r).

Definition then_ {A B : Type} (m : io A) (k : A -> io B) : io B :=
  match snd m with
  | OK a => (fst m ++ fst (k a), snd (k a))%list
  | Raise e => (fst m, Raise e)
  end.

End Effects.

Import Effects.

Notation "x <~ m ;; k" := (Effects.then_ m (fun x => k))
  (at level 61, m at next level, right associativity).

(** An export plugin module, as [export.py] uses one. *)
Record Plugin : Type := {
  moduleName : string;
  (** [isReplacable()] *)
  isReplacable : bool;
  (** [getOutput( text )] *)
  getOutput : string -> string
}.

(** The collaborators of [writeOutput], [getHopChainGcode],
    [getReplaced] and [getSelectedPlugin]: the other stages, the file
    system, the plugin loader and the clock.  Their code is not among the
    sources; the functions that call them are stated over any of them. *)
Class Outside : Type := {
  (** [stretch.getStretchChainGcode( gcodeText )] *)
  getStretchChainGcode : string -> result string;
  (** [unpause.getUnpauseChainGcode( fileName, gcodeText )] *)
  getUnpauseChainGcode : string -> string -> result string;
  (** [gcodec.getGNUGcode()] *)
  getGNUGcode : list string;
  (** [gcodec.getFileText( filename )] *)
  getFileText : string -> string;
  (** [gcodec.getGcodeFileText( fileName, gcodeText )] *)
  getGcodeFileText : string -> string -> string;
  (** [gcodec.getSummarizedFilename( filename )] *)
  getSummarizedFilename : string -> string;
  (** [interpret.getFirstTranslatorFileNameUnmodified( fileName )] *)
  getFirstTranslatorFileNameUnmodified : string -> string;
  (** [gcodec.getModule( name, 'export_plugins', __file__ )] *)
  getModule : string -> option Plugin;
  (** [preferences.getFileInGivenPreferencesDirectory( ..., 'Replace.csv' )] *)
  replaceText : string;
  (** [os.path.abspath( __file__ ) == '/home/enrique/...export.py'] *)
  onAuthorsComputer : bool;
  (** [gcodec.getVersionFileName()] *)
  versionFileName : string;
  (** [date.today().isoformat()] *)
  today : string;
  (** [str( int( round( time.time() - startTime ) ) )] *)
  elapsedSeconds : string
}.

(** ** export.py *)

Module export.

Record ExportPreferences : Type := {
  activateExport : bool;
  deleteComments : bool
}.

Record ExportSkein : Type := mkExportSkein {
  decimalPlacesExported : Z;
  output : string
}.

(** [ExportSkein.__init__] *)
Definition init : ExportSkein := mkExportSkein 2 "".

Definition procedureDoneLine : string :=
  "(<procedureDone> export </procedureDone>)".

Definition isMotion (firstWord : string) : bool :=
  (firstWord =? "G1")%string || (firstWord =? "G2")%string
  || (firstWord =? "G3")%string.

Section Engine.

Context {imports : Imports}.

(** What [preferences.readPreferences] leaves in a fresh
    [ExportPreferences()]. *)
Variable storedPreferences : ExportPreferences.

Definition addLine (self : ExportSkein) (line : string) : ExportSkein :=
  if (line =? "")%string then self
  else mkExportSkein (decimalPlacesExported self)
         (output self ++ line ++ newline).

Definition getLineWithTruncatedNumber (self : ExportSkein)
    (character : ascii) (line : string) : result string :=
  let indexOfCharacter := find line character 0 in
  if indexOfCharacter <? 0 then OK line
  else
    let indexOfNumberEnd := find line " "%char indexOfCharacter in
    let indexOfNumberEnd :=
      if indexOfNumberEnd <? 0 then len line else indexOfNumberEnd in
    let indexOfNumberStart := indexOfCharacter + 1 in
    let numberString := slice line indexOfNumberStart indexOfNumberEnd in
    if (numberString =? "")%string then OK line
    else
      number <- py_float numberString ;;
      let roundedNumberString :=
        getRoundedToDecimalPlacesString (decimalPlacesExported self) number in
      OK (slice_to line indexOfNumberStart ++ roundedNumberString
          ++ slice_from line indexOfNumberEnd).

Definition truncateAll (self : ExportSkein) (line : string) : result string :=
  line <- getLineWithTruncatedNumber self "X" line ;;
  line <- getLineWithTruncatedNumber self "Y" line ;;
  line <- getLineWithTruncatedNumber self "Z" line ;;
  line <- getLineWithTruncatedNumber self "I" line ;;
  line <- getLineWithTruncatedNumber self "J" line ;;
  getLineWithTruncatedNumber self "R" line.

Definition parseLine (exportPreferences : ExportPreferences)
    (self : ExportSkein) (line : string) : result ExportSkein :=
  let splitLine := split line in
  if Z.of_nat (List.length splitLine) <? 1 then OK self
  else
    firstWord <- item splitLine 0 ;;
    self <- (if (firstWord =? "(<decimalPlacesCarried>")%string
             then
               word <- item splitLine 1 ;;
               places <- py_int word ;;
               OK (mkExportSkein (Z.max 1 (places - 1)) (output self))
             else OK self) ;;
    c <- first_char firstWord ;;
    if Ascii.eqb c "("%char && deleteComments exportPreferences then OK self
    else
      let self :=
        if (firstWord =? "(</extruderInitialization>)")%string
        then addLine self procedureDoneLine else self in
      if negb (isMotion firstWord) then OK (addLine self line)
      else
        line <- truncateAll self line ;;
        OK (addLine self line).

Fixpoint parseLines (exportPreferences : ExportPreferences)
    (self : ExportSkein) (lines : list string) : result ExportSkein :=
  match lines with
  | [] => OK self
  | line :: rest =>
      self <- parseLine exportPreferences self line ;;
      parseLines exportPreferences self rest
  end.

Definition parseGcode (exportPreferences : ExportPreferences)
    (self : ExportSkein) (gcodeText : string) : result ExportSkein :=
  parseLines exportPreferences self (getTextLines gcodeText).

Definition getGcode (gcodeText : string)
    (exportPreferences : option ExportPreferences) : result string :=
  if (gcodeText =? "")%string then OK ""
  else if isProcedureDone gcodeText "export" then OK gcodeText
  else
    let exportPreferences :=
      match exportPreferences with
      | None => storedPreferences
      | Some p => p
      end in
    if negb (activateExport exportPreferences) then OK gcodeText
    else
      skein <- parseGcode exportPreferences init gcodeText ;;
      OK (output skein).

End Engine.

(** The attributes of [ExportPreferences] that only [writeOutput] and
    [getSelectedPlugin] read, around those the skein reads. *)
Record ExportDialog : Type := {
  preferences : ExportPreferences;
  alsoSendOutputTo : string;
  fileExtension : string;
  (** name and value of each radio button of [exportPlugins], in order *)
  exportPlugins : list (string * bool)
}.

Section Files.

Context {imports : Imports} {outside : Outside}.

(** What [preferences.readPreferences] leaves in a fresh
    [ExportPreferences()]. *)
Variable storedDialog : ExportDialog.

(** The loop of [getDistanceGcode] over the lines left. *)
Fixpoint getDistanceLoop (oldLocation : option Vec3) (lines : list string)
  : io unit :=
  match lines with
  | [] => ret tt
  | line :: rest =>
      let splitLine := split line in
      let firstWord : option string :=
        if 0 <? Z.of_nat (List.length splitLine)
        then Some (nth 0 splitLine "") else None in
      let isMove :=
        match firstWord with
        | Some word => (word =? "G1")%string
        | None => false
        end in
      if isMove
      then
        location <~ lift (getLocationFromSplitLine oldLocation splitLine) ;;
        _ <~ match oldLocation with
             | Some old => emit (PrintFloat (Vec3Ops.distance location old))
             | None => ret tt
             end ;;
        getDistanceLoop (Some location) rest
      else getDistanceLoop oldLocation rest
  end.

Definition getDistanceGcode (exportText : string) : io string :=
  let lines := getTextLines exportText in
  _ <~ getDistanceLoop None lines ;;
  ret exportText.

(** The loop of [getReplaced] over the lines of the table. *)
Fixpoint getReplacedLoop (lines : list string) (exportText : string)
  : string :=
  match lines with
  | [] => exportText
  | line :: rest =>
      let replacedLine := replace_char line "," " " in
      let replacedLine := replace_char replacedLine "009" " " in
      let splitLine := split replacedLine in
      let exportText :=
        if 1 <? Z.of_nat (List.length splitLine)
        then replace exportText (nth 0 splitLine "") (nth 1 splitLine "")
        else exportText in
      getReplacedLoop rest exportText
  end.

Definition getReplaced (exportText : string) : string :=
  if (replaceText =? "")%string then exportText
  else getReplacedLoop (getTextLines replaceText) exportText.

(** The loop of [getSelectedPlugin] over the radio buttons. *)
Fixpoint getSelectedPluginLoop (plugins : list (string * bool))
  : option Plugin :=
  match plugins with
  | [] => None
  | plugin :: rest =>
      if snd plugin then getModule (fst plugin)
      else getSelectedPluginLoop rest
  end.

Definition getSelectedPlugin (exportPreferences : ExportDialog)
  : option Plugin :=
  getSelectedPluginLoop (exportPlugins exportPreferences).

Definition writeOutput (fileName : string) : io unit :=
  _ <~ (if onAuthorsComputer then emit (WriteFile versionFileName today)
        else ret tt) ;;
  let fileName := getFirstTranslatorFileNameUnmodified fileName in
  if (fileName =? "")%string then ret tt
  else
    let exportPreferences := storedDialog in
    _ <~ emit (Print ("File " ++ getSummarizedFilename fileName
                      ++ " is being chain exported.")) ;;
    let suffixFilename :=
      slice_to fileName (rfind fileName ".") ++ "_export."
      ++ fileExtension exportPreferences in
    let gcodeText := getGcodeFileText fileName "" in
    gcodeText <~ lift (if negb (isProcedureDone gcodeText "unpause")
                       then getUnpauseChainGcode fileName gcodeText
                       else OK gcodeText) ;;
    if (gcodeText =? "")%string then ret tt
    else
      _ <~ emit (Analyze suffixFilename gcodeText) ;;
      exportChainGcode <~ lift (getGcode (preferences storedDialog) gcodeText
                                  (Some (preferences exportPreferences))) ;;
      let selectedPluginModule := getSelectedPlugin exportPreferences in
      replacable <~ match selectedPluginModule with
                    | None => ret (Some exportChainGcode)
                    | Some module =>
                        if isReplacable module
                        then ret (Some (getOutput module exportChainGcode))
                        else
                          _ <~ emit (PluginWrite (moduleName module)
                                       suffixFilename exportChainGcode) ;;
                          ret None
                    end ;;
      replacable <~ match replacable with
                    | Some text =>
                        let text := getReplaced text in
                        _ <~ emit (WriteFile suffixFilename text) ;;
                        _ <~ emit (Print ("The exported file is saved as "
                                          ++ getSummarizedFilename
                                               suffixFilename)) ;;
                        ret (Some text)
                    | None => ret None
                    end ;;
      _ <~ (if negb (alsoSendOutputTo exportPreferences =? "")%string
            then
              text <~ match replacable, selectedPluginModule with
                      | Some text, _ => ret text
                      | None, Some module =>
                          ret (getOutput module exportChainGcode)
                      | None, None => lift (Raise AttributeError)
                      end ;;
              emit (SendTo (alsoSendOutputTo exportPreferences) text)
            else ret tt) ;;
      emit (Print ("It took " ++ elapsedSeconds
                   ++ " seconds to export the file.")).

End Files.

End export.

(** ** hop.py *)

Module hop.

Record HopPreferences : Type := {
  activateHop : bool;
  hopOverExtrusionHeight : float;
  minimumHopAngle : float
}.

(** The attributes of a [HopSkein].  [minimumSlope] does not exist until
    [parseGcode] assigns it; [lines] is [None] until then and is modelled
    by the empty list, since [parseGcode] assigns it before any read. *)
Record HopSkein : Type := mkHopSkein {
  bridgeExtrusionWidthOverSolid : float;
  decimalPlacesCarried : Z;
  extruderActive : bool;
  feedrateString : string;
  hopHeight : float;
  layerHopDistance : float;
  layerHopHeight : float;
  justDeactivated : bool;
  lineIndex : nat;
  lines : list string;
  oldLocation : option Vec3;
  output : string;
  minimumSlope : option float
}.

(** [HopSkein.__init__] *)
Definition init : HopSkein :=
  mkHopSkein 1.0 3 false "" 0.4 0.4 0.4 false 0 [] None "" None.

Definition set_bridgeExtrusionWidthOverSolid (v : float) (s : HopSkein) :=
  mkHopSkein v (decimalPlacesCarried s) (extruderActive s) (feedrateString s)
    (hopHeight s) (layerHopDistance s) (layerHopHeight s) (justDeactivated s)
    (lineIndex s) (lines s) (oldLocation s) (output s) (minimumSlope s).

Definition set_decimalPlacesCarried (v : Z) (s : HopSkein) :=
  mkHopSkein (bridgeExtrusionWidthOverSolid s) v (extruderActive s)
    (feedrateString s) (hopHeight s) (layerHopDistance s) (layerHopHeight s)
    (justDeactivated s) (lineIndex s) (lines s) (oldLocation s) (output s)
    (minimumSlope s).

Definition set_extruderActive (v : bool) (s : HopSkein) :=
  mkHopSkein (bridgeExtrusionWidthOverSolid s) (decimalPlacesCarried s) v
    (feedrateString s) (hopHeight s) (layerHopDistance s) (layerHopHeight s)
    (justDeactivated s) (lineIndex s) (lines s) (oldLocation s) (output s)
    (minimumSlope s).

Definition set_feedrateString (v : string) (s : HopSkein) :=
  mkHopSkein (bridgeExtrusionWidthOverSolid s) (decimalPlacesCarried s)
    (extruderActive s) v (hopHeight s) (layerHopDistance s) (layerHopHeight s)
    (justDeactivated s) (lineIndex s) (lines s) (oldLocation s) (output s)
    (minimumSlope s).

Definition set_hopHeight (v : float) (s : HopSkein) :=
  mkHopSkein (bridgeExtrusionWidthOverSolid s) (decimalPlacesCarried s)
    (extruderActive s) (feedrateString s) v (layerHopDistance s)
    (layerHopHeight s) (justDeactivated s) (lineIndex s) (lines s)
    (oldLocation s) (output s) (minimumSlope s).

Definition set_layerHop (height distance : float) (s : HopSkein) :=
  mkHopSkein (bridgeExtrusionWidthOverSolid s) (decimalPlacesCarried s)
    (extruderActive s) (feedrateString s) (hopHeight s) distance height
    (justDeactivated s) (lineIndex s) (lines s) (oldLocation s) (output s)
    (minimumSlope s).

Definition set_justDeactivated (v : bool) (s : HopSkein) :=
  mkHopSkein (bridgeExtrusionWidthOverSolid s) (decimalPlacesCarried s)
    (extruderActive s) (feedrateString s) (hopHeight s) (layerHopDistance s)
    (layerHopHeight s) v (lineIndex s) (lines s) (oldLocation s) (output s)
    (minimumSlope s).

Definition set_lineIndex (v : nat) (s : HopSkein) :=
  mkHopSkein (bridgeExtrusionWidthOverSolid s) (decimalPlacesCarried s)
    (extruderActive s) (feedrateString s) (hopHeight s) (layerHopDistance s)
    (layerHopHeight s) (justDeactivated s) v (lines s) (oldLocation s)
    (output s) (minimumSlope s).

Definition set_lines (v : list string) (s : HopSkein) :=
  mkHopSkein (bridgeExtrusionWidthOverSolid s) (decimalPlacesCarried s)
    (extruderActive s) (feedrateString s) (hopHeight s) (layerHopDistance s)
    (layerHopHeight s) (justDeactivated s) (lineIndex s) v (oldLocation s)
    (output s) (minimumSlope s).

Definition set_oldLocation (v : option Vec3) (s : HopSkein) :=
  mkHopSkein (bridgeExtrusionWidthOverSolid s) (decimalPlacesCarried s)
    (extruderActive s) (feedrateString s) (hopHeight s) (layerHopDistance s)
    (layerHopHeight s) (justDeactivated s) (lineIndex s) (lines s) v
    (output s) (minimumSlope s).

Definition set_output (v : string) (s : HopSkein) :=
  mkHopSkein (bridgeExtrusionWidthOverSolid s) (decimalPlacesCarried s)
    (extruderActive s) (feedrateString s) (hopHeight s) (layerHopDistance s)
    (layerHopHeight s) (justDeactivated s) (lineIndex s) (lines s)
    (oldLocation s) v (minimumSlope s).

Definition set_minimumSlope (v : option float) (s : HopSkein) :=
  mkHopSkein (bridgeExtrusionWidthOverSolid s) (decimalPlacesCarried s)
    (extruderActive s) (feedrateString s) (hopHeight s) (layerHopDistance s)
    (layerHopHeight s) (justDeactivated s) (lineIndex s) (lines s)
    (oldLocation s) (output s) v.

(** Reading an attribute that holds [None] (or was never assigned) and
    using it as an object raises. *)
Definition attr {A : Type} (v : option A) : result A :=
  match v with
  | Some a => OK a
  | None => Raise AttributeError
  end.

(** [range( a, b )] *)
Definition range (a b : nat) : list nat := seq a (b - a).

(** [firstWord = ''; if len( splitLine ) > 0: firstWord = splitLine[ 0 ]] *)
Definition firstWordOf (splitLine : list string) : string :=
  match splitLine with
  | w :: _ => w
  | [] => ""
  end.

Definition procedureDoneLine : string := "(<procedureDone> hop )".

(** The cap on [alongRatio]. *)
Definition alongCap : float := 0.41666666%float.

Section Engine.

Context {imports : Imports}.

(** What [preferences.readPreferences] leaves in a fresh
    [HopPreferences()]. *)
Variable storedPreferences : HopPreferences.

Definition addLine (self : HopSkein) (line : string) : HopSkein :=
  set_output (output self ++ line ++ newline) self.

Definition getRounded (self : HopSkein) (number : float) : string :=
  getRoundedToDecimalPlaces (decimalPlacesCarried self) number.

Definition getMovementLineWithHop (self : HopSkein) (location : Vec3)
  : string :=
  let movementLine :=
    "G1 X" ++ getRounded self (x location)
    ++ " Y" ++ getRounded self (y location)
    ++ " Z" ++ getRounded self (z location + layerHopHeight self) in
  if negb (feedrateString self =? "")%string
  then movementLine ++ " " ++ feedrateString self
  else movementLine.

(** The body of the loop of [isNextTravel], over the indices left. *)
Fixpoint isNextTravelLoop (self : HopSkein) (indices : list nat) : bool :=
  match indices with
  | [] => false
  | afterIndex :: rest =>
      let line := nth afterIndex (lines self) "" in
      let splitLine := split_on " " line in
      let firstWord := firstWordOf splitLine in
      if (firstWord =? "G1")%string then true
      else if (firstWord =? "M101")%string then false
      else isNextTravelLoop self rest
  end.

Definition isNextTravel (self : HopSkein) : bool :=
  isNextTravelLoop self
    (range (lineIndex self + 1) (List.length (lines self))).

(** The first lines of [getHopLine]: a feedrate token on the line
    replaces the one kept in [feedrateString]. *)
Definition noteFeedrate (self : HopSkein) (splitLine : list string)
  : result HopSkein :=
  let indexOfF := indexOfStartingWithSecond "F" splitLine in
  if indexOfF >? 0
  then
    word <- item splitLine (Z.to_nat indexOfF) ;;
    OK (set_feedrateString word self)
  else OK self.

Definition getHopLine (self : HopSkein) (line : string)
  : result (string * HopSkein) :=
  let splitLine := split_on " " line in
  self <- noteFeedrate self splitLine ;;
  if extruderActive self then OK (line, self)
  else
    location <- getLocationFromSplitLine (oldLocation self) splitLine ;;
    if isNextTravel self then OK (getMovementLineWithHop self location, self)
    else if justDeactivated self
    then
      old <- attr (oldLocation self) ;;
      let distance := Vec3Ops.distance location old in
      ratio <- fdiv (layerHopDistance self) distance ;;
      let alongRatio := fmin alongCap ratio in
      let oneMinusAlong := (1.0 - alongRatio)%float in
      let closeLocation :=
        Vec3Ops.plus (Vec3Ops.times old oneMinusAlong)
          (Vec3Ops.times location alongRatio) in
      let self := addLine self (getMovementLineWithHop self closeLocation) in
      let farLocation :=
        Vec3Ops.plus (Vec3Ops.times old alongRatio)
          (Vec3Ops.times location oneMinusAlong) in
      let self := addLine self (getMovementLineWithHop self farLocation) in
      OK (line, self)
    else OK (line, self).

(** The block of [parseLine] under [if firstWord == 'G1']. *)
Definition parseMove (self : HopSkein) (line : string)
    (splitLine : list string) : result (string * HopSkein) :=
  hopped <- getHopLine self line ;;
  location <- getLocationFromSplitLine (oldLocation (snd hopped)) splitLine ;;
  OK (fst hopped,
      set_justDeactivated false
        (set_oldLocation (Some location) (snd hopped))).

(** The blocks of [parseLine] for [M101], [M103] and the layer marks. *)
Definition parseCommand (self : HopSkein) (firstWord : string)
  : result HopSkein :=
  let self :=
    if (firstWord =? "M101")%string then set_extruderActive true self
    else self in
  if (firstWord =? "M103")%string
  then OK (set_justDeactivated true (set_extruderActive false self))
  else if (firstWord =? "(<layerStart>")%string
  then
    slope <- attr (minimumSlope self) ;;
    distance <- fdiv (hopHeight self) slope ;;
    OK (set_layerHop (hopHeight self) distance self)
  else if (firstWord =? "(<bridgeLayer>")%string
  then
    let height :=
      (hopHeight self * bridgeExtrusionWidthOverSolid self)%float in
    slope <- attr (minimumSlope self) ;;
    distance <- fdiv height slope ;;
    OK (set_layerHop height distance self)
  else OK self.

Definition parseLine (self : HopSkein) (line : string) : result HopSkein :=
  let splitLine := split_on " " line in
  if (Z.of_nat (List.length splitLine) <? 1) || (len line <? 1) then OK self
  else
    firstWord <- item splitLine 0 ;;
    hopped <- (if (firstWord =? "G1")%string
               then parseMove self line splitLine
               else OK (line, self)) ;;
    self <- parseCommand (snd hopped) firstWord ;;
    OK (addLine self (fst hopped)).

(** One turn of the loop of [parseInitialization]; the flag says that the
    turn ended in [return]. *)
Definition parseInitializationLine (hopPreferences : HopPreferences)
    (self : HopSkein) (line : string) : result (bool * HopSkein) :=
  let splitLine := split_on " " line in
  let firstWord := firstWordOf splitLine in
  if (firstWord =? "(<extrusionHeight>")%string
  then
    word <- item splitLine 1 ;;
    extrusionHeight <- py_float word ;;
    OK (false,
        addLine (set_hopHeight
                   (hopOverExtrusionHeight hopPreferences * extrusionHeight)
                   self) line)
  else if (firstWord =? "(<bridgeExtrusionWidthOverSolid>")%string
  then
    word <- item splitLine 1 ;;
    width <- py_float word ;;
    OK (false, addLine (set_bridgeExtrusionWidthOverSolid width self) line)
  else if (firstWord =? "(<decimalPlacesCarried>")%string
  then
    word <- item splitLine 1 ;;
    places <- py_int word ;;
    OK (false, addLine (set_decimalPlacesCarried places self) line)
  else if (firstWord =? "(<extrusionStart>")%string
  then OK (true, addLine self procedureDoneLine)
  else OK (false, addLine self line).

Fixpoint parseInitializationLoop (hopPreferences : HopPreferences)
    (self : HopSkein) (indices : list nat) : result HopSkein :=
  match indices with
  | [] => OK self
  | index :: rest =>
      let self := set_lineIndex index self in
      line <- item (lines self) index ;;
      turn <- parseInitializationLine hopPreferences self line ;;
      if fst turn then OK (snd turn)
      else parseInitializationLoop hopPreferences (snd turn) rest
  end.

Definition parseInitialization (hopPreferences : HopPreferences)
    (self : HopSkein) : result HopSkein :=
  parseInitializationLoop hopPreferences self
    (range 0 (List.length (lines self))).

Fixpoint parseGcodeLoop (self : HopSkein) (indices : list nat)
  : result HopSkein :=
  match indices with
  | [] => OK self
  | index :: rest =>
      let self := set_lineIndex index self in
      line <- item (lines self) index ;;
      self <- parseLine self line ;;
      parseGcodeLoop self rest
  end.

Definition parseGcode (self : HopSkein) (gcodeText : string)
    (hopPreferences : HopPreferences) : result HopSkein :=
  let self := set_lines (getTextLines gcodeText) self in
  let self :=
    set_minimumSlope (Some (tan_radians (minimumHopAngle hopPreferences)))
      self in
  self <- parseInitialization hopPreferences self ;;
  parseGcodeLoop self (range (lineIndex self) (List.length (lines self))).

Definition getHopGcode (gcodeText : string)
    (hopPreferences : option HopPreferences) : result string :=
  if (gcodeText =? "")%string then OK ""
  else if isProcedureDone gcodeText "hop" then OK gcodeText
  else
    let hopPreferences :=
      match hopPreferences with
      | None => storedPreferences
      | Some p => p
      end in
    if negb (activateHop hopPreferences) then OK gcodeText
    else
      skein <- parseGcode init gcodeText hopPreferences ;;
      OK (output skein).

End Engine.

Section Files.

Context {imports : Imports} {outside : Outside}.

(** What [preferences.readPreferences] leaves in a fresh
    [HopPreferences()]. *)
Variable storedPreferences : HopPreferences.

Definition getHopChainGcode (gcodeText : string)
    (hopPreferences : option HopPreferences) : result string :=
  gcodeText <- (if negb (isProcedureDone gcodeText "stretch")
                then getStretchChainGcode gcodeText
                else OK gcodeText) ;;
  getHopGcode storedPreferences gcodeText hopPreferences.

(** [writeOutput] once the file name is known. *)
Definition writeNamed (filename : string) : io unit :=
  let hopPreferences := storedPreferences in
  _ <~ emit (Print ("File " ++ getSummarizedFilename filename
                    ++ " is being chain hopped.")) ;;
  let gcodeText := getFileText filename in
  if (gcodeText =? "")%string then ret tt
  else
    let suffixFilename :=
      slice_to filename (rfind filename ".") ++ "_hop.gcode" in
    hopGcode <~ lift (getHopChainGcode gcodeText (Some hopPreferences)) ;;
    _ <~ emit (WriteFile suffixFilename hopGcode) ;;
    _ <~ emit (Print ("The hopped file is saved as "
                      ++ getSummarizedFilename suffixFilename)) ;;
    _ <~ emit (Analyze suffixFilename hopGcode) ;;
    emit (Print ("It took " ++ elapsedSeconds
                 ++ " seconds to hop the file.")).

Definition writeOutput (filename : string) : io unit :=
  if (filename =? "")%string
  then
    let unmodified := getGNUGcode in
    if Z.of_nat (List.length unmodified) =? 0
    then emit (Print "There are no unmodified gcode files in this folder.")
    else writeNamed (nth 0 unmodified "")
  else writeNamed filename.

End Files.

End hop.

(** ** A reference implementation of the imports

    Used to run the stages on concrete texts. *)

Module reference.

Definition digit (c : ascii) : option Z :=
  let n := nat_of_ascii c in
  if ((48 <=? n) && (n <=? 57))%nat then Some (Z.of_nat n - 48) else None.

(** The value of a run of decimal digits ([None] on any other character),
    continuing from [acc]. *)
Fixpoint digits (acc : Z) (s : string) : option Z :=
  match s with
  | EmptyString => Some acc
  | String c s' =>
      match digit c with
      | Some d => digits (10 * acc + d) s'
      | None => None
      end
  end.

(** An optional sign, then the rest. *)
Definition signed (s : string) : bool * string :=
  match s with
  | String "-" s' => (true, s')
  | String "+" s' => (false, s')
  | _ => (false, s)
  end.

(** [s.lstrip()] and [s.rstrip()]: the blanks in front and at the end
    dropped. *)
Fixpoint lstrip (s : string) : string :=
  match s with
  | String c s' => if isspace c then lstrip s' else s
  | EmptyString => EmptyString
  end.

Fixpoint rstrip (s : string) : string :=
  match s with
  | EmptyString => EmptyString
  | String c s' =>
      match rstrip s' with
      | EmptyString => if isspace c then EmptyString else String c EmptyString
      | rest => String c rest
      end
  end.

(** Modelled from the spec: [float( s )] on the plain decimal literals
    the spec's lines carry (sign, digits, at most one point), the blanks
    around them dropped as [float] drops them; any other text raises
    [ValueError].  It is narrower than Python's [float] elsewhere:
    exponent notation, [inf] and [nan] are refused, and the digits of a
    literal have to fit 63 bits. *)
Definition py_float (s : string) : result float :=
  let (negative, body) := signed (lstrip (rstrip s)) in
  let parts := split_on "." body in
  let whole := nth 0 parts "" in
  let fraction := nth 1 parts "" in
  if (2 <? Z.of_nat (List.length parts)) || (len whole + len fraction <? 1)
  then Raise ValueError
  else
    match digits 0 (whole ++ fraction) with
    | None => Raise ValueError
    | Some mantissa =>
        let value :=
          (PrimFloat.of_uint63 (Uint63.of_Z mantissa)
           / PrimFloat.of_uint63 (Uint63.of_Z (10 ^ len fraction)))%float in
        OK (if negative then (- value)%float else value)
    end.

(** [int( s )] on an optionally signed run of digits. *)
Definition py_int (s : string) : result Z :=
  let (negative, body) := signed s in
  if len body <? 1 then Raise ValueError
  else
    match digits 0 body with
    | None => Raise ValueError
    | Some n => OK (if negative then - n else n)
    end.

(** The decimal digits of [n >= 0], most significant first, in front of
    [acc]. *)
Fixpoint numeral (fuel : nat) (n : Z) (acc : string) : string :=
  let acc := String (ascii_of_nat (48 + Z.to_nat (n mod 10))) acc in
  match fuel with
  | O => acc
  | S fuel' => if n / 10 =? 0 then acc else numeral fuel' (n / 10) acc
  end.

Definition natural (n : Z) : string := numeral (Z.to_nat (Z.log2 n)) n "".

(** [places] digits of [n], zero-padded on the left. *)
Fixpoint padded (places : nat) (n : Z) (acc : string) : string :=
  match places with
  | O => acc
  | S places' =>
      padded places' (n / 10)
        (String (ascii_of_nat (48 + Z.to_nat (n mod 10))) acc)
  end.

(** Drop the zeros that end a digit string, keeping its first digit. *)
Fixpoint stripped (s : string) : string :=
  match s with
  | EmptyString => EmptyString
  | String c s' =>
      match stripped s' with
      | EmptyString => String c EmptyString
      | String "0" EmptyString => String c EmptyString
      | rest => String c rest
      end
  end.

(** The integer nearest to [m * 2^e * 10^places], halves away from zero. *)
Definition scaled (m : positive) (e places : Z) : Z :=
  let numerator := Z.pos m * 10 ^ places in
  if 0 <=? e then numerator * 2 ^ e
  else (2 * numerator + 2 ^ (- e)) / (2 * 2 ^ (- e)).

(** Modelled from the spec: [euclidean.getRoundedToDecimalPlacesString],
    which is not among the sources.  The number rounded to
    [max( 1, decimalPlaces )] decimal digits and written the way the
    spec's scenario shows: sign kept, at least one digit after the point,
    no further trailing zero ([1.23456 -> 1.23], [-0.00001 -> -0.0],
    [0.4 -> 0.4]). *)
Definition getRoundedToDecimalPlacesString (decimalPlaces : Z)
    (number : float) : string :=
  let places := Z.max 1 decimalPlaces in
  let text (negative : bool) (n : Z) :=
    (if negative then "-" else "")
    ++ natural (n / 10 ^ places) ++ "."
    ++ stripped (padded (Z.to_nat places) (n mod 10 ^ places) "") in
  match Prim2SF number with
  | S754_zero negative => text negative 0
  | S754_finite negative m e => text negative (scaled m e places)
  | S754_infinity negative => if negative then "-inf" else "inf"
  | S754_nan => "nan"
  end.

(** The words of [splitLine] from the second on, searched for one that
    starts with [letter]; [index] is the position of the first of them. *)
Fixpoint indexFrom (letter : string) (words : list string) (index : Z) : Z :=
  match words with
  | [] => -1
  | word :: rest =>
      if (take 1 word =? letter)%string then index
      else indexFrom letter rest (index + 1)
  end.

(** Modelled from the spec: [gcodec.indexOfStartingWithSecond].  The index
    of the first parameter token (a word after the command token) that
    starts with [letter], or [-1]. *)
Definition indexOfStartingWithSecond (letter : string)
    (splitLine : list string) : Z :=
  indexFrom letter (tl splitLine) 1.

(** The value of the axis [letter] on the line, or [carried] when the line
    does not give it. *)
Definition axis (letter : string) (splitLine : list string) (carried : float)
  : result float :=
  let index := indexOfStartingWithSecond letter splitLine in
  if index <? 0 then OK carried
  else py_float (drop 1 (nth (Z.to_nat index) splitLine "")).

(** Modelled from the spec: [gcodec.getLocationFromSplitLine].  A location
    update carries forward any axis not present in the line's parameters;
    before any location is known the axes read zero. *)
Definition getLocationFromSplitLine (oldLocation : option Vec3)
    (splitLine : list string) : result Vec3 :=
  let old :=
    match oldLocation with
    | Some v => v
    | None => mkVec3 0 0 0
    end in
  px <- axis "X" splitLine (x old) ;;
  py <- axis "Y" splitLine (y old) ;;
  pz <- axis "Z" splitLine (z old) ;;
  OK (mkVec3 px py pz).

Definition carriageReturnToNewline (c : ascii) : ascii :=
  if Ascii.eqb c "013"%char then "010"%char else c.

Fixpoint mapString (f : ascii -> ascii) (s : string) : string :=
  match s with
  | EmptyString => EmptyString
  | String c s' => String (f c) (mapString f s')
  end.

(** Modelled from the spec: [gcodec.getTextLines].  A document is the
    ordered sequence of its text lines. *)
Definition getTextLines (text : string) : list string :=
  split_on "010"%char (mapString carriageReturnToNewline text).

(** Modelled from the spec: [gcodec.isProcedureDone].  A stage has run
    over the text when a line of it is the procedure-done marker with
    exactly that stage's name. *)
Definition isProcedureDone (gcodeText procedure : string) : bool :=
  existsb
    (fun line =>
       let splitLine := split_on " " line in
       (nth 0 splitLine "" =? "(<procedureDone>")%string
       && (nth 1 splitLine "" =? procedure)%string)
    (getTextLines gcodeText).

(** Sine and cosine by their Taylor polynomials, enough for the angles of
    a hop (a few units in the last place within a quarter turn).  The
    quotient below stands for [math.tan( math.radians( a ) )] on angles
    inside a quarter turn only: at 90 and at 180 degrees it gives an
    infinity and a zero where Python's rounding of pi gives a large and a
    tiny number. *)
Fixpoint series (terms : nat) (k : float) (term x2 : float) : float :=
  match terms with
  | O => 0
  | S terms' =>
      (term
       + series terms' (k + 2) (- term * x2 / ((k + 1) * (k + 2))) x2)%float
  end.

Definition tan_radians (degrees : float) : float :=
  let a := (degrees * 3.141592653589793 / 180)%float in
  (series 14 1 a (a * a) / series 14 0 1 (a * a))%float.

(** Modelled from the spec: [euclidean.getRoundedToDecimalPlaces] as
    ['%s'] writes its result, the same rounding to carried places. *)
Definition getRoundedToDecimalPlaces (decimalPlaces : Z) (number : float)
  : string :=
  getRoundedToDecimalPlacesString decimalPlaces number.

Definition imports : Imports :=
  Build_Imports py_float py_int tan_radians isProcedureDone getTextLines
    indexOfStartingWithSecond getLocationFromSplitLine
    getRoundedToDecimalPlaces getRoundedToDecimalPlacesString.

End reference.

(** ** Tokens of a line *)

(** The parameter letters whose numbers export truncates. *)
Definition parameterLetters : list ascii := ["X"; "Y"; "Z"; "I"; "J"; "R"]%char.

Definition mentions (c : ascii) (token : string) : bool :=
  match position c token with
  | Some _ => true
  | None => false
  end.

Definition mentionsParameter (token : string) : bool :=
  existsb (fun c => mentions c token) parameterLetters.

(** How truncation may relate a token to the token at the same place of
    the truncated line: left as it is, or, for a token that holds a
    parameter letter, replaced by another token. *)
Definition retouched (token token' : string) : Prop :=
  token = token'
  \/ (mentionsParameter token = true /\ nonempty token' = true).

(** The only blanks of the line are spaces. *)
Definition onlySpaces (line : string) : bool :=
  all_chars (fun c => Bool.eqb (isspace c) (Ascii.eqb " " c)) line.

(** The text holds no blank. *)
Definition blankFree (text : string) : bool :=
  all_chars (fun c => negb (isspace c)) text.

(** The truncations for [letters], one after the other from [line]; an
    exception ends the run. *)
Definition truncateLetters {imports : Imports} (self : export.ExportSkein)
    (letters : list ascii) (line : string) : result string :=
  fold_left
    (fun truncated c =>
       line <- truncated ;; export.getLineWithTruncatedNumber self c line)
    letters (OK line).

(** The tokens joined by single spaces: what [' '.join( tokens )]
    gives, and the line itself when the tokens are those of
    [line.split( ' ' )]. *)
Fixpoint spaced (tokens : list string) : string :=
  match tokens with
  | [] => ""
  | token :: rest =>
      match rest with
      | [] => token
      | _ :: _ => token ++ " " ++ spaced rest
      end
  end.

(** The text holds none of the parameter letters. *)
Definition letterFree (text : string) : bool :=
  all_chars (fun c => negb (existsb (Ascii.eqb c) parameterLetters)) text.

(** The token starts with [c]. *)
Definition headedBy (c : ascii) (token : string) : bool :=
  match token with
  | String d _ => Ascii.eqb d c
  | EmptyString => false
  end.

Definition headIn (letters : list ascii) (token : string) : bool :=
  existsb (fun c => headedBy c token) letters.

(** A token as a motion line carries them: no space in it, and no
    parameter letter after its first character. *)
Definition tidyToken (token : string) : bool :=
  negb (mentions " " token)
  && match token with
     | String _ body => letterFree body
     | EmptyString => true
     end.

(** The tokens of a well-formed motion line: each of them tidy, and no
    two of them headed by the same parameter letter. *)
Definition tidy (tokens : list string) : bool :=
  forallb tidyToken tokens
  && forallb
       (fun c => (List.length (filter (headedBy c) tokens) <=? 1)%nat)
       parameterLetters.

(** The tokens of [tokens'] under the heads of [letters], those of
    [tokens] elsewhere. *)
Fixpoint mix (letters : list ascii) (tokens tokens' : list string)
  : list string :=
  match tokens, tokens' with
  | token :: rest, token' :: rest' =>
      (if headIn letters token then token' else token)
      :: mix letters rest rest'
  | _, _ => []
  end.

Section TokenNotions.

Context {imports : Imports}.

(** A token with its number rounded: the text after a parameter letter
    that heads the token goes through [float] and the rounding helper;
    any other token, and a letter on its own, stays as it is. *)
Definition truncatedToken (self : export.ExportSkein) (token : string)
  : result string :=
  match token with
  | EmptyString => OK EmptyString
  | String d body =>
      if headIn parameterLetters token && nonempty body
      then
        value <- py_float body ;;
        OK (String d
              (getRoundedToDecimalPlacesString
                 (export.decimalPlacesExported self) value))
      else OK token
  end.

Fixpoint truncatedTokens (self : export.ExportSkein) (tokens : list string)
  : result (list string) :=
  match tokens with
  | [] => OK []
  | token :: rest =>
      token' <- truncatedToken self token ;;
      rest' <- truncatedTokens self rest ;;
      OK (token' :: rest')
  end.

(** What one truncation does to the tokens: the first token headed by
    the letter has its number rounded. *)
Fixpoint truncatedFirst (self : export.ExportSkein) (c : ascii)
    (tokens : list string) : result (list string) :=
  match tokens with
  | [] => OK []
  | token :: rest =>
      if headedBy c token
      then
        if (drop 1 token =? "")%string then OK tokens
        else
          value <- py_float (drop 1 token) ;;
          OK (String c
                (getRoundedToDecimalPlacesString
                   (export.decimalPlacesExported self) value)
              :: rest)
      else
        rest' <- truncatedFirst self c rest ;;
        OK (token :: rest')
  end.

End TokenNotions.

(** ** The lookahead of the hop stage, as a scan of the lines left *)

(** Whether a linear move comes before the next extruder activation in
    the lines after the current one. *)
Fixpoint travelAhead (rest : list string) : bool :=
  match rest with
  | [] => false
  | line :: rest' =>
      let firstWord := hop.firstWordOf (split_on " " line) in
      if (firstWord =? "G1")%string then true
      else if (firstWord =? "M101")%string then false
      else travelAhead rest'
  end.

(** The line is no linear move. *)
Definition notTravel (line : string) : Prop :=
  hop.firstWordOf (split_on " " line) <> "G1".

(** Nothing is left, or the next line switches the extruder on. *)
Definition endsOrActivates (tail : list string) : Prop :=
  match tail with
  | [] => True
  | line :: _ => hop.firstWordOf (split_on " " line) = "M101"
  end.

(** Every line followed by a newline. *)
Fixpoint unlines (lines : list string) : string :=
  match lines with
  | [] => ""
  | line :: rest => line ++ newline ++ unlines rest
  end.

(** The line does not open the extrusion. *)
Definition notExtrusionStart (line : string) : Prop :=
  hop.firstWordOf (split_on " " line) <> "(<extrusionStart>".

(** ** Notions the properties of the hop stage are stated with *)

Section HopNotions.

Context {imports : Imports}.

(** The feedrate token [getHopLine] keeps after reading a line. *)
Definition feedrateAfter (self : hop.HopSkein) (splitLine : list string)
  : string :=
  if indexOfStartingWithSecond "F" splitLine >? 0
  then nth (Z.to_nat (indexOfStartingWithSecond "F" splitLine)) splitLine ""
  else hop.feedrateString self.

(** The text of a move to [location] raised by [height], with the
    feedrate token [feed] appended when there is one. *)
Definition elevatedMove (places : Z) (location : Vec3) (height : float)
    (feed : string) : string :=
  ("G1 X" ++ getRoundedToDecimalPlaces places (x location)
   ++ " Y" ++ getRoundedToDecimalPlaces places (y location)
   ++ " Z" ++ getRoundedToDecimalPlaces places (z location + height))
  ++ (if (feed =? "")%string then "" else " " ++ feed).

(** The values the initialization pass reads off a line parse: a line
    that sets the extrusion height, the bridge width or the carried
    places has a second word that [float] or [int] accepts. *)
Definition metadataParses (line : string) : bool :=
  let splitLine := split_on " " line in
  let firstWord := hop.firstWordOf splitLine in
  if (firstWord =? "(<extrusionHeight>")%string
     || (firstWord =? "(<bridgeExtrusionWidthOverSolid>")%string
  then returns (word <- item splitLine 1 ;; py_float word)
  else if (firstWord =? "(<decimalPlacesCarried>")%string
  then returns (word <- item splitLine 1 ;; py_int word)
  else true.

(** What the main pass needs of the one line it reads after an
    initialization that consumed them all: a linear move gives a
    location, a layer mark finds a non-zero slope. *)
Definition finalLineParses (hopPreferences : hop.HopPreferences)
    (line : string) : bool :=
  let splitLine := split_on " " line in
  let firstWord := hop.firstWordOf splitLine in
  if (firstWord =? "G1")%string
  then returns (getLocationFromSplitLine None splitLine)
  else if (firstWord =? "(<layerStart>")%string
          || (firstWord =? "(<bridgeLayer>")%string
  then negb (PrimFloat.eqb
               (tan_radians (hop.minimumHopAngle hopPreferences)) 0)
  else true.

(** The attributes the initialization pass leaves alone. *)
Definition sameControl (s s' : hop.HopSkein) : Prop :=
  hop.lines s' = hop.lines s
  /\ hop.oldLocation s' = hop.oldLocation s
  /\ hop.extruderActive s' = hop.extruderActive s
  /\ hop.justDeactivated s' = hop.justDeactivated s
  /\ hop.minimumSlope s' = hop.minimumSlope s.

End HopNotions.

(** ** States and texts for concrete runs *)

Module runs.

Definition hopPreferences : hop.HopPreferences :=
  {| hop.activateHop := true;
     hop.hopOverExtrusionHeight := 1;
     hop.minimumHopAngle := 20 |}.

Definition deleting : export.ExportPreferences :=
  {| export.activateExport := true; export.deleteComments := true |}.

Definition keeping : export.ExportPreferences :=
  {| export.activateExport := true; export.deleteComments := false |}.

(** The lines joined by newlines, none after the last. *)
Fixpoint joined (lines : list string) : string :=
  match lines with
  | [] => ""
  | [line] => line
  | line :: rest => line ++ newline ++ joined rest
  end.

(** The hop stage over a text, with the reference imports. *)
Definition hopped (text : string) : result string :=
  @hop.getHopGcode reference.imports hopPreferences text None.

(** The export stage over a text, with the reference imports. *)
Definition exported (prefs : export.ExportPreferences) (text : string)
  : result string :=
  @export.getGcode reference.imports prefs text None.

(** A skein of the main pass standing on line [index] of [lines]. *)
Definition standing (lines : list string) (index : nat) (active just : bool)
    (old : option Vec3) (feed : string) (hopDistance : float) : hop.HopSkein :=
  hop.mkHopSkein 1 3 active feed 0.4 hopDistance 0.4 just index lines old ""
    (Some (reference.tan_radians 20)).

(** A text that holds both markers and a number no parser accepts. *)
Definition marked : string :=
  joined ["(<procedureDone> hop )";
          "(<procedureDone> export </procedureDone>)";
          "G1 Xabc"].

End runs.

Module hopRuns.

(** Extruder on, about to read a move. *)
Definition extruding : hop.HopSkein :=
  runs.standing ["G1 X1 Y2 Z3 F600"] 0 true false None "" 0.4.

(** Extruder off, on the last move before [M101]. *)
Definition beforeActivation : hop.HopSkein :=
  runs.standing ["G1 X10 Y0 Z0"; "M101"] 0 false false None "" 0.4.

(** Extruder off, on a move that another move follows. *)
Definition travelling : hop.HopSkein :=
  runs.standing ["G1 X10 Y0 Z0 F600"; "G1 X12 Y0 Z0"] 0 false false None ""
    0.4.

(** Just switched off at (8, 0, 0), on the only move before the end,
    with a hop distance of 0.5. *)
Definition rampStart : hop.HopSkein :=
  runs.standing ["G1 X10 Y0 Z0"] 0 false true (Some (mkVec3 8 0 0)) "F600"
    0.5.

(** Just switched off at (8, 0, 0), on a move that another move
    follows. *)
Definition justOff : hop.HopSkein :=
  runs.standing ["G1 X10 Y0 Z0"; "G1 X12 Y0 Z0"; "M101"] 0 false true
    (Some (mkVec3 8 0 0)) "" 0.4.

End hopRuns.

(** ** Notions the further properties are stated with *)

(** The first character of the line that is not a blank. *)
Fixpoint firstVisible (line : string) : option ascii :=
  match line with
  | EmptyString => None
  | String c line' => if isspace c then firstVisible line' else Some c
  end.

(** The line starts, after blanks, with an opening parenthesis. *)
Definition isComment (line : string) : bool :=
  match firstVisible line with
  | Some c => Ascii.eqb c "("
  | None => false
  end.

(** The lines the export stage copies as they are: not blank, no motion
    command and, when comments are deleted, no comment; when comments are
    kept, not one of the two comments the stage acts on. *)
Definition copiedByExport (prefs : export.ExportPreferences) (line : string)
  : bool :=
  match split line with
  | [] => false
  | firstWord :: _ =>
      negb (export.isMotion firstWord)
      && (if isComment line
          then negb (export.deleteComments prefs)
               && negb (firstWord =? "(<decimalPlacesCarried>")%string
               && negb (firstWord =? "(</extruderInitialization>)")%string
          else true)
  end.

(** How many of the lines are linear moves, as [line.split()] reads
    them. *)
Fixpoint countMoves (lines : list string) : nat :=
  match lines with
  | [] => 0
  | line :: rest =>
      (if (nth 0 (split line) "" =? "G1")%string then 1 else 0)
      + countMoves rest
  end.

(** The words of a row of the replacement table. *)
Definition rowWords (line : string) : list string :=
  split (replace_char (replace_char line "," " ") "009" " ").

(** The row does nothing to the text: it has fewer than two words, or
    its first word does not occur in the text. *)
Definition rowIdle (text line : string) : bool :=
  negb (1 <? Z.of_nat (List.length (rowWords line)))
  || negb (contains (nth 0 (rowWords line) "") text).

(** The file name an event writes to, if it writes a file. *)
Definition writtenFile (e : event) : option string :=
  match e with
  | WriteFile name _ => Some name
  | _ => None
  end.

(** What the main pass of the hop stage writes for a line it copies. *)
Definition copiedLine (line : string) : string :=
  if (line =? "")%string then "" else line ++ newline.

Fixpoint copiedLines (lines : list string) : string :=
  match lines with
  | [] => ""
  | line :: rest => copiedLine line ++ copiedLines rest
  end.

(** The attributes that only the layer marks of the main pass set, and
    the feedrate token. *)
Definition sameHop (s s' : hop.HopSkein) : Prop :=
  hop.layerHopHeight s' = hop.layerHopHeight s
  /\ hop.layerHopDistance s' = hop.layerHopDistance s
  /\ hop.feedrateString s' = hop.feedrateString s.

(** A line the lookahead of [isNextTravel] passes over: neither a linear
    move nor an extruder activation. *)
Definition passedOver (line : string) : Prop :=
  hop.firstWordOf (split_on " " line) <> "G1"
  /\ hop.firstWordOf (split_on " " line) <> "M101".

Section FileNotions.

Context {imports : Imports} {outside : Outside}.

(** What [writeOutput] writes before anything else. *)
Definition versionEvents : list event :=
  if onAuthorsComputer then [WriteFile versionFileName today] else [].

(** The text [writeOutput] exports: the file's, unpaused if it was not. *)
Definition unpausedText (fileName : string) : result string :=
  if negb (isProcedureDone (getGcodeFileText fileName "") "unpause")
  then getUnpauseChainGcode fileName (getGcodeFileText fileName "")
  else OK (getGcodeFileText fileName "").

End FileNotions.

(** A small world to run the file functions in: stretch and unpause put
    their marker in front of the text, one file [part.gcode] holds two
    lines, one plugin [binary] is installed and writes its own file. *)
Module world.

Definition stretched (gcodeText : string) : result string :=
  OK ("(<procedureDone> stretch )" ++ newline ++ gcodeText).

Definition unpaused (fileName gcodeText : string) : result string :=
  OK ("(<procedureDone> unpause )" ++ newline ++ gcodeText).

Definition fileText (name : string) : string :=
  if (name =? "part.gcode")%string
  then "(<extrusionStart>" ++ newline ++ "M103"
  else "".

Definition binary : Plugin :=
  {| moduleName := "binary";
     isReplacable := false;
     getOutput := fun text => "binary:" ++ text |}.

Definition loaded (name : string) : option Plugin :=
  if (name =? "binary")%string then Some binary else None.

Definition outside : Outside :=
  {| getStretchChainGcode := stretched;
     getUnpauseChainGcode := unpaused;
     getGNUGcode := ["part.gcode"];
     getFileText := fileText;
     getGcodeFileText := fun name _ => fileText name;
     getSummarizedFilename := fun name => name;
     getFirstTranslatorFileNameUnmodified := fun name => name;
     getModule := loaded;
     replaceText := "M103,M5" ++ newline ++ "lonely";
     onAuthorsComputer := false;
     versionFileName := "version.txt";
     today := "2008-05-08";
     elapsedSeconds := "0" |}.

(** The same world with the two lines under every file name. *)
Definition anywhere : Outside :=
  {| getStretchChainGcode := stretched;
     getUnpauseChainGcode := unpaused;
     getGNUGcode := ["part"];
     getFileText := fun _ => fileText "part.gcode";
     getGcodeFileText := fun _ _ => fileText "part.gcode";
     getSummarizedFilename := fun name => name;
     getFirstTranslatorFileNameUnmodified := fun name => name;
     getModule := loaded;
     replaceText := "";
     onAuthorsComputer := true;
     versionFileName := "version.txt";
     today := "2008-05-08";
     elapsedSeconds := "0" |}.

Definition dialog (plugins : list (string * bool)) (sink : string)
  : export.ExportDialog :=
  {| export.preferences :=
       {| export.activateExport := true; export.deleteComments := true |};
     export.alsoSendOutputTo := sink;
     export.fileExtension := "gcode";
     export.exportPlugins := plugins |}.

End world.

(** ** Facts about the string built-ins *)

Module PyFacts.

Lemma append_assoc (a b c : string) : (a ++ b) ++ c = a ++ b ++ c.
Proof. induction a as [|ch a IH]; simpl; [reflexivity | now rewrite IH]. Qed.

Lemma append_empty_r (a : string) : a ++ "" = a.
Proof. induction a as [|ch a IH]; simpl; [reflexivity | now rewrite IH]. Qed.

Lemma length_append (a b : string) :
  String.length (a ++ b) = (String.length a + String.length b)%nat.
Proof. induction a as [|ch a IH]; simpl; [reflexivity | now rewrite IH]. Qed.

Lemma take_length_append (a b : string) : take (String.length a) (a ++ b) = a.
Proof. induction a as [|ch a IH]; simpl; [now destruct b | now rewrite IH]. Qed.

Lemma drop_length_append (a b : string) : drop (String.length a) (a ++ b) = b.
Proof. induction a as [|ch a IH]; simpl; [now destruct b | exact IH]. Qed.

Lemma take_all (a : string) : take (String.length a) a = a.
Proof. induction a as [|ch a IH]; simpl; [reflexivity | now rewrite IH]. Qed.

Lemma drop_zero (a : string) : drop 0 a = a.
Proof. now destruct a. Qed.

Lemma bound_inside (s : string) (i : nat) :
  (i <= String.length s)%nat -> bound s (Z.of_nat i) = i.
Proof.
  intros Hi. unfold bound, len.
  destruct (Z.ltb_spec (Z.of_nat i) 0) as [Hneg | _]; [lia |].
  rewrite Z.min_l by lia. apply Nat2Z.id.
Qed.

Lemma position_bound (c : ascii) (s : string) (k : nat) :
  position c s = Some k -> (k < String.length s)%nat.
Proof.
  revert k. induction s as [|d s IH]; simpl; intros k H; [discriminate |].
  destruct (Ascii.eqb d c).
  - injection H as <-. lia.
  - destruct (position c s) as [j|]; [| discriminate].
    injection H as <-. specialize (IH j eq_refl). lia.
Qed.

Lemma position_append_absent (c : ascii) (a b : string) :
  position c a = None ->
  position c (a ++ b) = option_map (Nat.add (String.length a)) (position c b).
Proof.
  induction a as [|d a IH]; simpl; intros H.
  - now destruct (position c b).
  - destruct (Ascii.eqb d c); [discriminate |].
    destruct (position c a); [discriminate |].
    rewrite (IH eq_refl). now destruct (position c b).
Qed.

(** Every found character splits the string around its first place. *)
Lemma position_split (c : ascii) (s : string) (k : nat) :
  position c s = Some k ->
  exists a b, s = a ++ String c b /\ position c a = None
              /\ String.length a = k.
Proof.
  revert k. induction s as [|d s IH]; simpl; intros k H; [discriminate |].
  destruct (Ascii.eqb_spec d c) as [-> | Hd].
  - injection H as <-. now exists "", s.
  - destruct (position c s) as [j|] eqn:Hj; [| discriminate].
    injection H as <-. destruct (IH j eq_refl) as (a & b & -> & Ha & Hl).
    exists (String d a), b. simpl. rewrite Ha, Hl.
    destruct (Ascii.eqb_spec d c); [contradiction | now idtac].
Qed.

(** A string is a space-free head, then nothing or a space and the rest. *)
Lemma space_split (s : string) :
  exists number post,
    s = number ++ post /\ position " "%char number = None
    /\ (post = "" \/ exists rest, post = String " " rest).
Proof.
  destruct (position " "%char s) as [k|] eqn:Hk.
  - destruct (position_split _ _ _ Hk) as (a & b & -> & Ha & _).
    exists a, (String " " b). repeat split; [assumption | right; now exists b].
  - exists s, "". rewrite append_empty_r. repeat split; [assumption | now left].
Qed.

Lemma eqb_empty (s : string) : (s =? "")%string = negb (nonempty s).
Proof. now destruct s. Qed.

Lemma fields_nonempty (p : ascii -> bool) (s : string) : fields p s <> [].
Proof.
  destruct s as [|c s]; simpl; [discriminate |].
  destruct (p c); [discriminate |]. now destruct (fields p s).
Qed.

(** A head free of separators stays in the first field. *)
Lemma fields_free_head (p : ascii -> bool) (m post : string) :
  all_chars (fun c => negb (p c)) m = true ->
  fields p (m ++ post)
  = (m ++ hd "" (fields p post)) :: tl (fields p post).
Proof.
  induction m as [|c m IH]; simpl; intros H.
  - pose proof (fields_nonempty p post). now destruct (fields p post).
  - apply andb_prop in H as [Hc Hm]. apply negb_true_iff in Hc.
    rewrite Hc, (IH Hm). reflexivity.
Qed.

(** Two separators that agree on every character of [s] cut it alike. *)
Lemma fields_ext (p q : ascii -> bool) (s : string) :
  all_chars (fun c => Bool.eqb (p c) (q c)) s = true ->
  fields p s = fields q s.
Proof.
  induction s as [|c s IH]; simpl; intros H; [reflexivity |].
  apply andb_prop in H as [Hc Hs]. apply Bool.eqb_prop in Hc.
  now rewrite Hc, (IH Hs).
Qed.

Lemma all_chars_append (p : ascii -> bool) (a b : string) :
  all_chars p (a ++ b) = all_chars p a && all_chars p b.
Proof.
  induction a as [|c a IH]; simpl; [reflexivity |].
  now rewrite IH, andb_assoc.
Qed.

Lemma space_free_chars (s : string) :
  position " "%char s = None ->
  all_chars (fun c => negb (Ascii.eqb " " c)) s = true.
Proof.
  induction s as [|c s IH]; cbn [position all_chars]; [reflexivity |].
  rewrite (Ascii.eqb_sym " "%char c).
  destruct (Ascii.eqb c " "); [discriminate |].
  destruct (position " "%char s); [discriminate |]. intros _. now apply IH.
Qed.

Lemma Forall2_same {A : Type} (R : A -> A -> Prop) (l : list A) :
  (forall a, R a a) -> Forall2 R l l.
Proof. intros HR. induction l; constructor; auto. Qed.

Lemma Forall2_chain {A : Type} (R : A -> A -> Prop) :
  (forall a b c, R a b -> R b c -> R a c) ->
  forall l1 l2 l3, Forall2 R l1 l2 -> Forall2 R l2 l3 -> Forall2 R l1 l3.
Proof.
  intros HR l1 l2 l3 H12. revert l3.
  induction H12 as [|a b l1 l2 Hab _ IH]; intros l3 H23;
    inversion H23; subst; constructor; eauto.
Qed.

Lemma Forall2_filter {A : Type} (R : A -> A -> Prop) (f : A -> bool)
    (l1 l2 : list A) :
  (forall a b, R a b -> f a = f b) ->
  Forall2 R l1 l2 -> Forall2 R (filter f l1) (filter f l2).
Proof.
  intros Hf H. induction H as [|a b l1 l2 Hab _ IH]; simpl; [constructor |].
  rewrite <- (Hf a b Hab). destruct (f a); [constructor |]; assumption.
Qed.

End PyFacts.

(** ** Properties of the export stage *)

Section ExportProperties.

Context {imports : Imports}.

Import PyFacts.

Lemma find_first (c : ascii) (pre rest : string) :
  position c pre = None ->
  find (pre ++ String c rest) c 0 = Z.of_nat (String.length pre).
Proof.
  intros Hpre. unfold find.
  change 0 with (Z.of_nat 0). rewrite bound_inside by lia.
  rewrite drop_zero, (position_append_absent _ _ _ Hpre). simpl.
  rewrite Ascii.eqb_refl. simpl. f_equal. lia.
Qed.

Lemma find_absent (c : ascii) (s : string) :
  position c s = None -> find s c 0 = -1.
Proof.
  intros H. unfold find. change 0 with (Z.of_nat 0).
  rewrite bound_inside by lia. now rewrite drop_zero, H.
Qed.

(** The end of the number that follows the letter at [pre]'s end. *)
Lemma find_number_end (c : ascii) (pre number post : string) :
  c <> " "%char ->
  position " "%char number = None ->
  post = "" \/ (exists rest, post = String " " rest) ->
  let line := pre ++ String c (number ++ post) in
  (if find line " "%char (Z.of_nat (String.length pre)) <? 0
   then len line
   else find line " "%char (Z.of_nat (String.length pre)))
  = Z.of_nat (String.length pre + 1 + String.length number).
Proof.
  intros Hc Hnumber Hpost line. unfold find.
  assert (Hlen : String.length line
                 = (String.length pre + 1 + String.length number
                    + String.length post)%nat).
  { unfold line. rewrite length_append. simpl. rewrite length_append. lia. }
  rewrite bound_inside by lia.
  assert (Hdrop : drop (String.length pre) line = String c (number ++ post))
    by apply drop_length_append.
  rewrite Hdrop. simpl.
  destruct (Ascii.eqb_spec c " "%char) as [E | _]; [contradiction |].
  rewrite (position_append_absent _ _ _ Hnumber).
  destruct Hpost as [-> | [rest ->]]; simpl.
  - unfold len. rewrite Hlen. simpl. f_equal. lia.
  - destruct (Z.ltb_spec
                (Z.of_nat (String.length pre
                           + S (String.length number + 0))) 0); [lia |].
    f_equal. lia.
Qed.

(** What [getLineWithTruncatedNumber] does to a line, read off the place
    of the letter: the text between the letter and the next space is the
    number; an empty number is left alone, any other goes through
    [float] and is replaced by its rounded text. *)
Lemma truncated_number_at (self : export.ExportSkein) (c : ascii)
    (pre number post : string) :
  c <> " "%char ->
  position c pre = None ->
  position " "%char number = None ->
  post = "" \/ (exists rest, post = String " " rest) ->
  export.getLineWithTruncatedNumber self c (pre ++ String c (number ++ post))
  = if (number =? "")%string then OK (pre ++ String c (number ++ post))
    else
      value <- py_float number ;;
      OK (pre ++ String c
            (getRoundedToDecimalPlacesString
               (export.decimalPlacesExported self) value ++ post)).
Proof.
  intros Hc Hpre Hnumber Hpost.
  unfold export.getLineWithTruncatedNumber.
  rewrite (find_first _ _ _ Hpre).
  destruct (Z.ltb_spec (Z.of_nat (String.length pre)) 0) as [Hneg | _];
    [lia |].
  pose proof (find_number_end c pre number post Hc Hnumber Hpost) as Hend.
  cbv zeta in Hend. rewrite Hend. clear Hend.
  set (line := pre ++ String c (number ++ post)).
  assert (Hlen : String.length line
                 = (String.length pre + 1 + String.length number
                    + String.length post)%nat).
  { unfold line. rewrite length_append. simpl. rewrite length_append. lia. }
  assert (Hstart : bound line (Z.of_nat (String.length pre) + 1)
                   = (String.length pre + 1)%nat).
  { replace (Z.of_nat (String.length pre) + 1)
      with (Z.of_nat (String.length pre + 1)) by lia.
    apply bound_inside. lia. }
  assert (Hdrop : drop (String.length pre + 1) line = number ++ post).
  { unfold line. replace (pre ++ String c (number ++ post))
      with ((pre ++ String c "") ++ number ++ post)
      by (now rewrite append_assoc).
    replace (String.length pre + 1)%nat
      with (String.length (pre ++ String c ""))
      by (rewrite length_append; reflexivity).
    apply drop_length_append. }
  assert (Hnum : slice line (Z.of_nat (String.length pre) + 1)
                   (Z.of_nat (String.length pre + 1 + String.length number))
                 = number).
  { unfold slice. rewrite Hstart, bound_inside by lia. rewrite Hdrop.
    replace (String.length pre + 1 + String.length number
             - (String.length pre + 1))%nat
      with (String.length number) by lia.
    apply take_length_append. }
  rewrite Hnum.
  destruct (number =? "")%string; [reflexivity |].
  destruct (py_float number) as [value | e]; simpl; [| reflexivity].
  f_equal. unfold slice_to, slice_from. rewrite Hstart.
  rewrite bound_inside by lia.
  replace (take (String.length pre + 1) line) with (pre ++ String c "").
  - replace (drop (String.length pre + 1 + String.length number) line)
      with post.
    + now rewrite append_assoc.
    + unfold line. replace (pre ++ String c (number ++ post))
        with ((pre ++ String c number) ++ post).
      * replace (String.length pre + 1 + String.length number)%nat
          with (String.length (pre ++ String c number))
          by (rewrite length_append; simpl; lia).
        now rewrite drop_length_append.
      * rewrite append_assoc. reflexivity.
  - unfold line. replace (pre ++ String c (number ++ post))
      with ((pre ++ String c "") ++ number ++ post)
      by (now rewrite append_assoc).
    replace (String.length pre + 1)%nat
      with (String.length (pre ++ String c ""))
      by (rewrite length_append; reflexivity).
    now rewrite take_length_append.
Qed.

Lemma split_blank (line : string) :
  all_chars isspace line = true -> split line = [].
Proof.
  unfold split. induction line as [|c line IH]; simpl; intros H.
  - reflexivity.
  - apply andb_prop in H as [Hc Hrest]. rewrite Hc. simpl. now apply IH.
Qed.

Lemma at_least_one_word {A : Type} (a : A) (l : list A) :
  (Z.of_nat (List.length (a :: l)) <? 1) = false.
Proof. apply Z.ltb_ge. simpl List.length. lia. Qed.

Lemma export_parseLine_no_word (prefs : export.ExportPreferences)
    (self : export.ExportSkein) (line : string) :
  split line = [] -> export.parseLine prefs self line = OK self.
Proof. intros H. unfold export.parseLine. now rewrite H. Qed.

Lemma isMotion_cases (firstWord : string) :
  export.isMotion firstWord = true ->
  firstWord = "G1" \/ firstWord = "G2" \/ firstWord = "G3".
Proof.
  unfold export.isMotion. intros H.
  apply orb_prop in H as [H | H]; [apply orb_prop in H as [H | H] |];
    apply String.eqb_eq in H; auto.
Qed.

(** On a motion line [parseLine] is the six truncations, then the write. *)
Lemma export_parseLine_motion (prefs : export.ExportPreferences)
    (self : export.ExportSkein) (line firstWord : string)
    (rest : list string) :
  split line = firstWord :: rest ->
  export.isMotion firstWord = true ->
  export.parseLine prefs self line
  = (truncated <- export.truncateAll self line ;;
     OK (export.addLine self truncated)).
Proof.
  intros Hsplit Hmotion. unfold export.parseLine.
  rewrite Hsplit, at_least_one_word.
  destruct (isMotion_cases _ Hmotion) as [-> | [-> | ->]]; reflexivity.
Qed.

Lemma export_parseLines_raise (prefs : export.ExportPreferences)
    (before after : list string) (line : string)
    (self self1 : export.ExportSkein) (e : exn) :
  export.parseLines prefs self before = OK self1 ->
  export.parseLine prefs self1 line = Raise e ->
  export.parseLines prefs self (before ++ line :: after)%list = Raise e.
Proof.
  revert self. induction before as [|l before IH]; simpl; intros self H1 H2.
  - injection H1 as ->. now rewrite H2.
  - destruct (export.parseLine prefs self l) as [s | e']; simpl in *;
      [now apply IH | discriminate].
Qed.

Lemma split_empty_line (line : string) (word : string) (rest : list string) :
  split line = word :: rest -> (line =? "")%string = false.
Proof. destruct line; [discriminate | reflexivity]. Qed.

(** C2 (amended).  A comment line is a line whose first word starts with
    an opening parenthesis.  With deleteComments on, [parseLine] writes
    nothing for it, the line [(</extruderInitialization>)] included: no
    procedure-done marker is written then.  It returns the skein as it
    was unless the line carries the decimal places, which are then
    stored (one less, at least one) before the line is dropped.  With
    deleteComments off, the line [(</extruderInitialization>)] makes it
    write the marker [(<procedureDone> export </procedureDone>)] and
    then the line. *)
Theorem export_comment_line (prefs : export.ExportPreferences)
    (self : export.ExportSkein) (line w : string) (rest : list string) :
  split line = String "(" w :: rest ->
  (export.deleteComments prefs = true ->
   (String "(" w <> "(<decimalPlacesCarried>" ->
    export.parseLine prefs self line = OK self)
   /\ (forall self', export.parseLine prefs self line = OK self' ->
       export.output self' = export.output self)
   /\ (forall word places,
       String "(" w = "(<decimalPlacesCarried>" ->
       item (String "(" w :: rest) 1 = OK word -> py_int word = OK places ->
       export.parseLine prefs self line
       = OK (export.mkExportSkein (Z.max 1 (places - 1))
               (export.output self))))
  /\ (export.deleteComments prefs = false ->
      String "(" w = "(</extruderInitialization>)" ->
      export.parseLine prefs self line
      = OK (export.addLine (export.addLine self export.procedureDoneLine)
              line)
      /\ export.output
           (export.addLine (export.addLine self export.procedureDoneLine)
              line)
         = export.output self ++ export.procedureDoneLine ++ newline
           ++ line ++ newline).
Proof.
  intros Hsplit. split.
  - intros Hdelete. unfold export.parseLine.
    rewrite Hsplit, at_least_one_word. cbn [item nth_error bind].
    destruct (String "(" w =? "(<decimalPlacesCarried>")%string eqn:Hcarried.
    + split; [| split].
      * intros Hneq. apply String.eqb_eq in Hcarried. contradiction.
      * intros self'. destruct (item (String "(" w :: rest) 1) as [word|];
          cbn [bind]; [| discriminate].
        destruct (py_int word) as [places|]; cbn [bind first_char];
          [| discriminate].
        rewrite Ascii.eqb_refl, Hdelete. cbn [andb].
        intros H. injection H as <-. reflexivity.
      * intros word places _ Hword Hplaces. rewrite Hword. cbn [bind].
        rewrite Hplaces. cbn [bind first_char].
        now rewrite Ascii.eqb_refl, Hdelete.
    + cbn [bind first_char]. rewrite Ascii.eqb_refl, Hdelete. cbn [andb].
      split; [reflexivity |]. split.
      * intros self' H. injection H as <-. reflexivity.
      * intros word places Hword. apply String.eqb_neq in Hcarried.
        contradiction.
  - intros Hkeep Hword. rewrite Hword in Hsplit. split.
    + unfold export.parseLine. rewrite Hsplit, at_least_one_word, Hkeep.
      reflexivity.
    + unfold export.addLine at 1. rewrite (split_empty_line _ _ _ Hsplit).
      cbn [export.output export.decimalPlacesExported].
      unfold export.addLine, export.procedureDoneLine.
      cbn [String.eqb Ascii.eqb Bool.eqb export.output].
      now rewrite append_assoc.
Qed.

Lemma truncateLetters_raise (self : export.ExportSkein) (letters : list ascii)
    (e : exn) :
  fold_left
    (fun truncated c =>
       line <- truncated ;; export.getLineWithTruncatedNumber self c line)
    letters (Raise e)
  = Raise e.
Proof. induction letters as [|c letters IH]; [reflexivity | exact IH]. Qed.

(** [truncateAll] is the run of the truncations over the six letters. *)
Lemma truncateAll_letters (self : export.ExportSkein) (line : string) :
  export.truncateAll self line = truncateLetters self parameterLetters line.
Proof.
  unfold export.truncateAll, truncateLetters, parameterLetters.
  cbn [fold_left bind].
  repeat match goal with
         | |- context [bind (export.getLineWithTruncatedNumber ?s ?c ?l) _] =>
             destruct (export.getLineWithTruncatedNumber s c l);
             cbn [bind]; try reflexivity
         end.
Qed.

(** A truncation that raises after the earlier ones returned makes
    [truncateAll] raise. *)
Lemma truncateAll_raise (self : export.ExportSkein) (before after : list ascii)
    (c : ascii) (line reached : string) (e : exn) :
  parameterLetters = (before ++ c :: after)%list ->
  truncateLetters self before line = OK reached ->
  export.getLineWithTruncatedNumber self c reached = Raise e ->
  export.truncateAll self line = Raise e.
Proof.
  intros Hletters Hbefore Hraise.
  rewrite truncateAll_letters, Hletters. unfold truncateLetters in *.
  rewrite fold_left_app, Hbefore. cbn [fold_left bind]. rewrite Hraise.
  apply truncateLetters_raise.
Qed.

(** The first word of a line starts with the first visible character. *)
Lemma split_first_visible (line : string) :
  match split line with
  | [] => firstVisible line = None
  | firstWord :: _ =>
      exists c w, firstWord = String c w /\ firstVisible line = Some c
  end.
Proof.
  unfold split. induction line as [|c line IH]; cbn [fields firstVisible filter
                                                    nonempty];
    [reflexivity |].
  destruct (isspace c); cbn [filter nonempty]; [exact IH |].
  pose proof (fields_nonempty isspace line) as Hne.
  destruct (fields isspace line) as [|w ws]; [contradiction |].
  cbn [filter nonempty]. now exists c, w.
Qed.

Lemma first_char_visible (line firstWord : string) (rest : list string) :
  split line = firstWord :: rest ->
  exists c, first_char firstWord = OK c /\ firstVisible line = Some c.
Proof.
  intros Hsplit. pose proof (split_first_visible line) as H.
  rewrite Hsplit in H. destruct H as (c & w & -> & Hvisible).
  now exists c.
Qed.

(** A line that is copied: the skein appends it and a newline, whatever
    the line holds after its first word. *)
Lemma export_parseLine_copied (prefs : export.ExportPreferences)
    (self : export.ExportSkein) (line : string) :
  copiedByExport prefs line = true ->
  export.parseLine prefs self line
  = OK (export.mkExportSkein (export.decimalPlacesExported self)
          (export.output self ++ line ++ newline)).
Proof.
  unfold copiedByExport, export.parseLine. intros Hcopied.
  destruct (split line) as [|firstWord rest] eqn:Hsplit; [discriminate |].
  rewrite at_least_one_word. cbn [item nth_error bind].
  destruct (first_char_visible _ _ _ Hsplit) as (c & Hc & Hvisible).
  apply andb_prop in Hcopied as [Hmotion Hcomment]. rewrite Hmotion.
  unfold isComment in Hcomment. rewrite Hvisible in Hcomment.
  assert (Hadd : export.addLine self line
                 = export.mkExportSkein (export.decimalPlacesExported self)
                     (export.output self ++ line ++ newline)).
  { unfold export.addLine. now rewrite (split_empty_line _ _ _ Hsplit). }
  destruct (Ascii.eqb c "(") eqn:Hparen.
  - apply andb_prop in Hcomment as [Hcomment Hmark].
    apply andb_prop in Hcomment as [Hkeep Hcarried].
    apply negb_true_iff in Hkeep, Hcarried, Hmark.
    rewrite Hcarried, Hmark. cbn [bind]. rewrite Hc. cbn [bind].
    rewrite Hparen, Hkeep. cbn [andb]. now rewrite Hadd.
  - assert (Hcarried : (firstWord =? "(<decimalPlacesCarried>")%string = false).
    { apply String.eqb_neq. intros ->. injection Hc as <-. discriminate. }
    assert (Hmark : (firstWord =? "(</extruderInitialization>)")%string
                    = false).
    { apply String.eqb_neq. intros ->. injection Hc as <-. discriminate. }
    rewrite Hcarried, Hmark. cbn [bind]. rewrite Hc. cbn [bind].
    rewrite Hparen. cbn [andb]. now rewrite Hadd.
Qed.

(** Where a run of truncations raises: at one letter, on the line the
    letters before it left. *)
Lemma truncateLetters_raised (self : export.ExportSkein) (line : string)
    (e : exn) (letters : list ascii) :
  truncateLetters self letters line = Raise e ->
  exists before c after reached,
    letters = (before ++ c :: after)%list
    /\ truncateLetters self before line = OK reached
    /\ export.getLineWithTruncatedNumber self c reached = Raise e.
Proof.
  induction letters as [|c letters IH] using rev_ind;
    unfold truncateLetters in *; [discriminate |].
  rewrite fold_left_app. cbn [fold_left].
  destruct (fold_left _ letters (OK line)) as [reached|e'] eqn:Hrun;
    cbn [bind]; intros Hraise.
  - exists letters, c, [], reached. now repeat split.
  - injection Hraise as ->.
    destruct (IH eq_refl) as (before & d & after & reached & -> & Hb & Hd).
    exists before, d, (after ++ [c])%list, reached.
    repeat split; [now rewrite <- app_assoc | assumption | assumption].
Qed.

(** C7 (amended).  A number that [float] cannot parse makes the stage
    abort, and only where the stage parses one.  The truncation for a
    letter looks at the first place of the letter on the line and at the
    text from there to the next space: it raises exactly when that text
    is non-empty and [float] raises on it, with [float]'s exception; it
    returns the line as it is when the letter is absent or that text is
    empty, and what follows that first number is never parsed.  The six
    truncations raise exactly when one of them does on the line the
    earlier ones left; a motion line on which they raise makes
    [parseLine] raise, a raising line makes the loop over the lines
    raise, and [getGcode] then raises instead of returning a text.  A
    line that is copied (no motion command, no comment acted on) is
    written as it is whatever tokens it holds: no number of it is
    parsed. *)
Theorem export_unparseable_number_raises :
  (forall self c pre number post e,
      c <> " "%char -> position c pre = None ->
      position " "%char number = None ->
      post = "" \/ (exists rest, post = String " " rest) ->
      number <> "" -> py_float number = Raise e ->
      export.getLineWithTruncatedNumber self c
        (pre ++ String c (number ++ post)) = Raise e)
  /\ (forall self before after c line reached e,
      parameterLetters = (before ++ c :: after)%list ->
      truncateLetters self before line = OK reached ->
      export.getLineWithTruncatedNumber self c reached = Raise e ->
      export.truncateAll self line = Raise e)
  /\ (forall prefs self line firstWord rest e,
      split line = firstWord :: rest -> export.isMotion firstWord = true ->
      export.truncateAll self line = Raise e ->
      export.parseLine prefs self line = Raise e)
  /\ (forall prefs self before line after self1 e,
      export.parseLines prefs self before = OK self1 ->
      export.parseLine prefs self1 line = Raise e ->
      export.parseLines prefs self (before ++ line :: after)%list = Raise e)
  /\ (forall stored text prefs e,
      text <> "" -> isProcedureDone text "export" = false ->
      export.activateExport prefs = true ->
      export.parseGcode prefs export.init text = Raise e ->
      export.getGcode stored text (Some prefs) = Raise e)
  /\ (forall self c line,
      position c line = None ->
      export.getLineWithTruncatedNumber self c line = OK line)
  /\ (forall self c pre post,
      c <> " "%char -> position c pre = None ->
      post = "" \/ (exists rest, post = String " " rest) ->
      export.getLineWithTruncatedNumber self c (pre ++ String c post)
      = OK (pre ++ String c post))
  /\ (forall self c line e,
      c <> " "%char ->
      export.getLineWithTruncatedNumber self c line = Raise e ->
      exists pre number post,
        line = pre ++ String c (number ++ post)
        /\ position c pre = None
        /\ position " "%char number = None
        /\ (post = "" \/ (exists rest, post = String " " rest))
        /\ number <> "" /\ py_float number = Raise e)
  /\ (forall self line e,
      export.truncateAll self line = Raise e ->
      exists before c after reached,
        parameterLetters = (before ++ c :: after)%list
        /\ truncateLetters self before line = OK reached
        /\ export.getLineWithTruncatedNumber self c reached = Raise e)
  /\ (forall prefs self line firstWord rest,
      split line = firstWord :: rest -> export.isMotion firstWord = true ->
      export.parseLine prefs self line
      = (line' <- export.truncateAll self line ;;
         OK (export.addLine self line')))
  /\ (forall self c pre number post value,
      c <> " "%char -> position c pre = None ->
      position " "%char number = None ->
      post = "" \/ (exists rest, post = String " " rest) ->
      number <> "" -> py_float number = OK value ->
      export.getLineWithTruncatedNumber self c
        (pre ++ String c (number ++ post))
      = OK (pre ++ String c
              (getRoundedToDecimalPlacesString
                 (export.decimalPlacesExported self) value ++ post)))
  /\ (forall prefs self line,
      copiedByExport prefs line = true ->
      export.parseLine prefs self line
      = OK (export.mkExportSkein (export.decimalPlacesExported self)
              (export.output self ++ line ++ newline))).
Proof.
  repeat apply conj.
  - intros self c pre number post e Hc Hpre Hnumber Hpost Hne Hfloat.
    rewrite truncated_number_at by assumption.
    destruct (String.eqb_spec number ""); [contradiction |].
    now rewrite Hfloat.
  - intros. eapply truncateAll_raise; eassumption.
  - intros prefs self line firstWord rest e Hsplit Hmotion Hraise.
    rewrite (export_parseLine_motion _ _ _ _ _ Hsplit Hmotion).
    now rewrite Hraise.
  - intros. eapply export_parseLines_raise; eassumption.
  - intros stored text prefs e Htext Hdone Hactive Hraise.
    unfold export.getGcode.
    destruct (String.eqb_spec text ""); [contradiction |].
    now rewrite Hdone, Hactive, Hraise.
  - intros self c line Habsent. unfold export.getLineWithTruncatedNumber.
    now rewrite (find_absent _ _ Habsent).
  - intros self c pre post Hc Hpre Hpost.
    exact (truncated_number_at self c pre "" post Hc Hpre eq_refl Hpost).
  - intros self c line e Hc Hraise.
    destruct (position c line) as [k|] eqn:Hk.
    + destruct (position_split _ _ _ Hk) as (pre & tail & -> & Hpre & _).
      destruct (space_split tail) as (number & post & -> & Hnumber & Hpost).
      rewrite (truncated_number_at self c pre number post Hc Hpre Hnumber
                 Hpost) in Hraise.
      exists pre, number, post.
      destruct (String.eqb_spec number "") as [-> | Hne]; [discriminate |].
      destruct (py_float number) as [value|e'] eqn:Hfloat;
        cbn [bind] in Hraise; [discriminate |].
      injection Hraise as ->. now repeat split.
    + unfold export.getLineWithTruncatedNumber in Hraise.
      rewrite (find_absent _ _ Hk) in Hraise. discriminate.
  - intros self line e Hraise. rewrite truncateAll_letters in Hraise.
    exact (truncateLetters_raised _ _ _ _ Hraise).
  - intros prefs self line firstWord rest Hsplit Hmotion.
    exact (export_parseLine_motion _ _ _ _ _ Hsplit Hmotion).
  - intros self c pre number post value Hc Hpre Hnumber Hpost Hne Hvalue.
    rewrite truncated_number_at by assumption.
    destruct (String.eqb_spec number ""); [contradiction |].
    now rewrite Hvalue.
  - intros prefs self line. apply export_parseLine_copied.
Qed.

Lemma mentions_cons (c ch : ascii) (token : string) :
  mentions c token = true -> mentions c (String ch token) = true.
Proof.
  unfold mentions. cbn [position]. destruct (Ascii.eqb ch c); [reflexivity |].
  now destruct (position c token).
Qed.

Lemma mentionsParameter_cons (ch : ascii) (token : string) :
  mentionsParameter token = true ->
  mentionsParameter (String ch token) = true.
Proof.
  unfold mentionsParameter. rewrite !existsb_exists.
  intros (c & Hin & Hc). exists c. split; [assumption |].
  now apply mentions_cons.
Qed.

Lemma mentionsParameter_nonempty (token : string) :
  mentionsParameter token = true -> nonempty token = true.
Proof. destruct token; [discriminate | reflexivity]. Qed.

Lemma retouched_cons (ch : ascii) (token token' : string) :
  retouched token token' -> retouched (String ch token) (String ch token').
Proof.
  intros [-> | [H _]]; [now left | right].
  split; [now apply mentionsParameter_cons | reflexivity].
Qed.

Lemma retouched_trans (a b c : string) :
  retouched a b -> retouched b c -> retouched a c.
Proof.
  intros [-> | [Ha Hb]] Hbc; [assumption |].
  destruct Hbc as [<- | [_ Hc]]; right; split; assumption.
Qed.

Lemma retouched_nonempty (a b : string) :
  retouched a b -> nonempty a = nonempty b.
Proof.
  intros [-> | [Ha Hb]]; [reflexivity |].
  now rewrite Hb, (mentionsParameter_nonempty _ Ha).
Qed.

Lemma parameterLetter_not_blank (c : ascii) :
  In c parameterLetters -> isspace c = false /\ Ascii.eqb " " c = false.
Proof.
  intros H. repeat (destruct H as [<- | H]; [split; reflexivity |]).
  destruct H.
Qed.

(** Replacing separator-free text right after a parameter letter leaves
    every field where it was and retouches the one that holds the
    letter. *)
Lemma fields_truncated (c : ascii) (pre m1 m2 post : string) :
  In c parameterLetters ->
  position " "%char m1 = None -> position " "%char m2 = None ->
  Forall2 retouched
    (split_on " " (pre ++ String c (m1 ++ post)))
    (split_on " " (pre ++ String c (m2 ++ post))).
Proof.
  intros Hc H1 H2. unfold split_on.
  destruct (parameterLetter_not_blank c Hc) as [_ Hsep].
  induction pre as [|ch pre IH]; cbn [append fields].
  - rewrite Hsep.
    rewrite !fields_free_head by now apply space_free_chars.
    constructor.
    + right. split; [| reflexivity].
      unfold mentionsParameter. apply existsb_exists. exists c.
      split; [assumption |]. unfold mentions. cbn [position].
      now rewrite Ascii.eqb_refl.
    + apply Forall2_same. now left.
  - destruct (Ascii.eqb " " ch).
    + constructor; [now left | exact IH].
    + inversion IH as [| w w' ws ws' Hw Hws Hl Hr].
      * apply Forall2_same. now left.
      * constructor; [now apply retouched_cons | assumption].
Qed.

(** The rounding helper writes a number without blanks. *)
Hypothesis rounded_blank_free :
  forall places number,
    blankFree (getRoundedToDecimalPlacesString places number) = true.

Lemma blankFree_space_free (text : string) :
  blankFree text = true -> position " "%char text = None.
Proof.
  unfold blankFree. induction text as [|c text IH]; cbn [all_chars position];
    [reflexivity |].
  intros H. apply andb_prop in H as [Hc Htext].
  destruct (Ascii.eqb_spec c " "%char) as [-> | _]; [discriminate |].
  now rewrite (IH Htext).
Qed.

Lemma blankFree_onlySpaces (text : string) :
  blankFree text = true -> onlySpaces text = true.
Proof.
  unfold blankFree, onlySpaces.
  induction text as [|c text IH]; cbn [all_chars]; [reflexivity |].
  intros H. apply andb_prop in H as [Hc Htext]. rewrite (IH Htext).
  apply negb_true_iff in Hc. rewrite Hc.
  destruct (Ascii.eqb_spec " "%char c) as [<- | _]; [discriminate |].
  reflexivity.
Qed.

(** One truncation keeps the tokens in place. *)
Lemma truncation_step (self : export.ExportSkein) (c : ascii)
    (line line' : string) :
  In c parameterLetters ->
  export.getLineWithTruncatedNumber self c line = OK line' ->
  Forall2 retouched (split_on " " line) (split_on " " line')
  /\ (onlySpaces line = true -> onlySpaces line' = true).
Proof.
  intros Hc Hrun.
  destruct (parameterLetter_not_blank c Hc) as [_ Hsep].
  assert (Hne : c <> " "%char).
  { intros ->. discriminate. }
  destruct (position c line) as [k|] eqn:Hk.
  - destruct (position_split _ _ _ Hk) as (pre & tail & -> & Hpre & _).
    destruct (space_split tail) as (number & post & -> & Hnumber & Hpost).
    rewrite (truncated_number_at self c pre number post Hne Hpre Hnumber Hpost)
      in Hrun.
    destruct (number =? "")%string.
    + injection Hrun as <-. split; [| auto].
      apply Forall2_same. now left.
    + destruct (py_float number) as [value|]; [| discriminate].
      cbn [bind] in Hrun. injection Hrun as <-.
      pose proof (rounded_blank_free (export.decimalPlacesExported self) value)
        as Hfree.
      split.
      * apply fields_truncated;
          [assumption | assumption | now apply blankFree_space_free].
      * unfold onlySpaces. rewrite !all_chars_append. cbn [all_chars].
        rewrite !all_chars_append. intros H.
        apply andb_prop in H as [Ha H]. apply andb_prop in H as [Hb H].
        apply andb_prop in H as [_ Hd]. rewrite Ha, Hb, Hd.
        apply blankFree_onlySpaces in Hfree. unfold onlySpaces in Hfree.
        now rewrite Hfree.
  - assert (Hsame : export.getLineWithTruncatedNumber self c line = OK line).
    { unfold export.getLineWithTruncatedNumber.
      now rewrite (find_absent _ _ Hk). }
    rewrite Hsame in Hrun. injection Hrun as <-. split; [| auto].
    apply Forall2_same. now left.
Qed.

Lemma truncation_steps (self : export.ExportSkein) (line line' : string) :
  export.truncateAll self line = OK line' ->
  Forall2 retouched (split_on " " line) (split_on " " line')
  /\ (onlySpaces line = true -> onlySpaces line' = true).
Proof.
  unfold export.truncateAll. intros H.
  destruct (export.getLineWithTruncatedNumber self "X" line) as [l1|] eqn:E1;
    [| discriminate]; cbn [bind] in H.
  destruct (export.getLineWithTruncatedNumber self "Y" l1) as [l2|] eqn:E2;
    [| discriminate]; cbn [bind] in H.
  destruct (export.getLineWithTruncatedNumber self "Z" l2) as [l3|] eqn:E3;
    [| discriminate]; cbn [bind] in H.
  destruct (export.getLineWithTruncatedNumber self "I" l3) as [l4|] eqn:E4;
    [| discriminate]; cbn [bind] in H.
  destruct (export.getLineWithTruncatedNumber self "J" l4) as [l5|] eqn:E5;
    [| discriminate]; cbn [bind] in H.
  apply truncation_step in E1 as [F1 S1]; [| cbn; tauto].
  apply truncation_step in E2 as [F2 S2]; [| cbn; tauto].
  apply truncation_step in E3 as [F3 S3]; [| cbn; tauto].
  apply truncation_step in E4 as [F4 S4]; [| cbn; tauto].
  apply truncation_step in E5 as [F5 S5]; [| cbn; tauto].
  apply truncation_step in H as [F6 S6]; [| cbn; tauto].
  split; [| intros H0; apply S6, S5, S4, S3, S2, S1, H0].
  pose proof (Forall2_chain retouched retouched_trans) as chain.
  eapply chain; [| exact F6]. eapply chain; [| exact F5].
  eapply chain; [| exact F4]. eapply chain; [| exact F3].
  eapply chain; [exact F1 | exact F2].
Qed.

(** Truncating a line keeps its tokens: as many as before, in the same
    order, each one unchanged unless it holds a parameter letter.  This
    holds of the fields between single spaces and, on a line whose only
    blanks are spaces, of the words of [line.split()]. *)
Lemma truncateAll_keeps_tokens (self : export.ExportSkein)
    (line line' : string) :
  export.truncateAll self line = OK line' ->
  Forall2 retouched (split_on " " line) (split_on " " line')
  /\ List.length (split_on " " line') = List.length (split_on " " line)
  /\ (onlySpaces line = true ->
      Forall2 retouched (split line) (split line')
      /\ List.length (split line') = List.length (split line)).
Proof.
  intros H. apply truncation_steps in H as [Hfields Hspaces].
  split; [assumption |]. split.
  - symmetry. eapply Forall2_length. eassumption.
  - intros Hline. pose proof (Hspaces Hline) as Hline'.
    assert (Hwords : Forall2 retouched (split line) (split line')).
    { unfold split. rewrite (fields_ext isspace (Ascii.eqb " ") line Hline).
      rewrite (fields_ext isspace (Ascii.eqb " ") line' Hline').
      apply Forall2_filter; [apply retouched_nonempty | exact Hfields]. }
    split; [assumption |]. symmetry. eapply Forall2_length. eassumption.
Qed.

(** *** Truncation, token by token *)

Lemma spaced_fields (line : string) : spaced (split_on " " line) = line.
Proof.
  unfold split_on. induction line as [|c line IH]; [reflexivity |].
  cbn [fields]. pose proof (fields_nonempty (Ascii.eqb " ") line) as Hne.
  destruct (fields (Ascii.eqb " ") line) as [|w ws] eqn:Hfields;
    [contradiction |].
  destruct (Ascii.eqb_spec " "%char c) as [<- | _].
  - change (spaced ("" :: w :: ws)) with ("" ++ " " ++ spaced (w :: ws)).
    now rewrite IH.
  - destruct ws as [|next ws].
    + cbn [spaced] in *. now rewrite IH.
    + change (spaced (String c w :: next :: ws))
        with (String c (w ++ " " ++ spaced (next :: ws))).
      change (spaced (w :: next :: ws))
        with (w ++ " " ++ spaced (next :: ws)) in IH.
      now rewrite IH.
Qed.

Lemma fields_spaced (tokens : list string) :
  tokens <> [] ->
  Forall (fun token => position " "%char token = None) tokens ->
  split_on " " (spaced tokens) = tokens.
Proof.
  unfold split_on. intros Hne Hfree.
  induction Hfree as [|token rest Htoken _ IH]; [contradiction |].
  destruct rest as [|next rest].
  - cbn [spaced]. rewrite <- (append_empty_r token) at 1.
    rewrite fields_free_head by now apply space_free_chars.
    cbn [fields hd tl]. now rewrite append_empty_r.
  - change (spaced (token :: next :: rest))
      with (token ++ String " " (spaced (next :: rest))).
    rewrite fields_free_head by now apply space_free_chars.
    cbn [fields Ascii.eqb Bool.eqb hd tl].
    rewrite IH by discriminate. now rewrite append_empty_r.
Qed.

Lemma letterFree_absent (c : ascii) (text : string) :
  In c parameterLetters -> letterFree text = true -> position c text = None.
Proof.
  intros Hc. unfold letterFree.
  induction text as [|d text IH]; cbn [all_chars position]; [reflexivity |].
  intros H. apply andb_prop in H as [Hd Htext].
  rewrite (IH Htext).
  destruct (Ascii.eqb_spec d c) as [-> | _]; [| reflexivity].
  apply negb_true_iff in Hd.
  assert (Hin : existsb (Ascii.eqb c) parameterLetters = true).
  { apply existsb_exists. exists c. split; [assumption |].
    apply Ascii.eqb_refl. }
  congruence.
Qed.

Lemma mentions_absent (c : ascii) (text : string) :
  mentions c text = false -> position c text = None.
Proof. unfold mentions. now destruct (position c text). Qed.

Lemma tidyToken_space_free (token : string) :
  tidyToken token = true -> position " "%char token = None.
Proof.
  unfold tidyToken. intros H. apply andb_prop in H as [H _].
  apply negb_true_iff in H. now apply mentions_absent.
Qed.

Lemma tidyToken_absent (c : ascii) (token : string) :
  In c parameterLetters -> tidyToken token = true ->
  headedBy c token = false -> position c token = None.
Proof.
  intros Hc Htidy Hhead. destruct token as [|d body]; [reflexivity |].
  unfold tidyToken in Htidy. apply andb_prop in Htidy as [_ Hbody].
  cbn [headedBy] in Hhead. cbn [position]. rewrite Hhead.
  now rewrite (letterFree_absent c body Hc Hbody).
Qed.

(** A truncation passes over a front that does not hold the letter. *)
Lemma truncation_after_prefix (self : export.ExportSkein) (c : ascii)
    (front line : string) :
  c <> " "%char -> position c front = None ->
  export.getLineWithTruncatedNumber self c (front ++ line)
  = (line' <- export.getLineWithTruncatedNumber self c line ;;
     OK (front ++ line')).
Proof.
  intros Hc Hfront. destruct (position c line) as [k|] eqn:Hk.
  - destruct (position_split _ _ _ Hk) as (pre & tail & -> & Hpre & _).
    destruct (space_split tail) as (number & post & -> & Hnumber & Hpost).
    assert (Hboth : position c (front ++ pre) = None).
    { rewrite (position_append_absent _ _ _ Hfront). now rewrite Hpre. }
    rewrite <- append_assoc.
    rewrite (truncated_number_at self c (front ++ pre) number post Hc Hboth
               Hnumber Hpost).
    rewrite (truncated_number_at self c pre number post Hc Hpre Hnumber
               Hpost).
    destruct (number =? "")%string; cbn [bind];
      [now rewrite append_assoc |].
    destruct (py_float number); cbn [bind]; [| reflexivity].
    now rewrite append_assoc.
  - assert (Hboth : position c (front ++ line) = None).
    { rewrite (position_append_absent _ _ _ Hfront). now rewrite Hk. }
    unfold export.getLineWithTruncatedNumber.
    now rewrite (find_absent _ _ Hboth), (find_absent _ _ Hk).
Qed.

Lemma truncatedFirst_length (self : export.ExportSkein) (c : ascii)
    (tokens : list string) :
  forall tokens', truncatedFirst self c tokens = OK tokens' ->
    List.length tokens' = List.length tokens.
Proof.
  induction tokens as [|token rest IH]; cbn [truncatedFirst];
    intros tokens' H.
  - now injection H as <-.
  - destruct (headedBy c token).
    + destruct (drop 1 token =? "")%string; [now injection H as <- |].
      destruct (py_float _); cbn [bind] in H; [| discriminate].
      now injection H as <-.
    + destruct (truncatedFirst self c rest) as [rest'|]; cbn [bind] in H;
        [| discriminate].
      injection H as <-. cbn [List.length]. now rewrite (IH rest' eq_refl).
Qed.

(** One truncation, read on the tokens of the line. *)
Lemma truncation_tokens (self : export.ExportSkein) (c : ascii)
    (tokens : list string) :
  In c parameterLetters ->
  Forall (fun token => tidyToken token = true) tokens ->
  export.getLineWithTruncatedNumber self c (spaced tokens)
  = (tokens' <- truncatedFirst self c tokens ;; OK (spaced tokens')).
Proof.
  intros Hc Htidy.
  destruct (parameterLetter_not_blank c Hc) as [_ Hsep].
  assert (Hne : c <> " "%char).
  { intros ->. now rewrite Ascii.eqb_refl in Hsep. }
  induction Htidy as [|token rest Htoken _ IH].
  - cbn [spaced truncatedFirst bind].
    unfold export.getLineWithTruncatedNumber.
    now rewrite (find_absent c "" eq_refl).
  - cbn [truncatedFirst]. destruct (headedBy c token) eqn:Hhead.
    + destruct token as [|d body]; [discriminate |].
      cbn [headedBy] in Hhead. apply Ascii.eqb_eq in Hhead. subst d.
      cbn [drop].
      assert (Hbody : position " "%char body = None).
      { pose proof (tidyToken_space_free _ Htoken) as H.
        cbn [position] in H.
        destruct (Ascii.eqb c " "); [discriminate |].
        now destruct (position " "%char body). }
      assert (Hline : exists post,
                 spaced (String c body :: rest) = "" ++ String c (body ++ post)
                 /\ (post = "" \/ exists tail, post = String " " tail)
                 /\ forall number,
                     spaced (String c number :: rest)
                     = String c (number ++ post)).
      { destruct rest as [|next rest].
        - exists "". cbn [spaced append]. rewrite append_empty_r.
          repeat split; [now left |]. intros number.
          now rewrite append_empty_r.
        - exists (String " " (spaced (next :: rest))).
          repeat split. right. now eexists. }
      destruct Hline as (post & -> & Hpost & Hspaced).
      rewrite (truncated_number_at self c "" body post Hne eq_refl Hbody
                 Hpost).
      cbn [append]. destruct (body =? "")%string; cbn [bind].
      * now rewrite Hspaced.
      * destruct (py_float body); cbn [bind]; [| reflexivity].
        now rewrite Hspaced.
    + pose proof (tidyToken_absent c token Hc Htoken Hhead) as Habsent.
      destruct rest as [|next rest].
      * cbn [spaced truncatedFirst bind].
        unfold export.getLineWithTruncatedNumber.
        now rewrite (find_absent _ _ Habsent).
      * change (spaced (token :: next :: rest))
          with (token ++ String " " (spaced (next :: rest))).
        replace (token ++ String " " (spaced (next :: rest)))
          with ((token ++ " ") ++ spaced (next :: rest))
          by (now rewrite append_assoc).
        rewrite truncation_after_prefix; [| exact Hne |].
        -- rewrite IH.
           destruct (truncatedFirst self c (next :: rest)) as [rest'|] eqn:Hrun;
             cbn [bind]; [| reflexivity].
           pose proof (truncatedFirst_length _ _ _ _ Hrun) as Hlen.
           destruct rest' as [|next' rest']; [discriminate |].
           change (spaced (token :: next' :: rest'))
             with (token ++ String " " (spaced (next' :: rest'))).
           now rewrite append_assoc.
        -- rewrite (position_append_absent _ _ _ Habsent).
           cbn [position]. now rewrite Hsep.
Qed.

(** The rounding helper writes none of the parameter letters. *)
Hypothesis rounded_letter_free :
  forall places number,
    letterFree (getRoundedToDecimalPlacesString places number) = true.

Lemma truncatedTokens_each (self : export.ExportSkein)
    (tokens : list string) :
  forall tokens', truncatedTokens self tokens = OK tokens' ->
    Forall2 (fun token token' => truncatedToken self token = OK token')
      tokens tokens'.
Proof.
  induction tokens as [|token rest IH]; cbn [truncatedTokens];
    intros tokens' H.
  - injection H as <-. constructor.
  - destruct (truncatedToken self token) as [token'|] eqn:Htoken;
      cbn [bind] in H; [| discriminate].
    destruct (truncatedTokens self rest) as [rest'|]; cbn [bind] in H;
      [| discriminate].
    injection H as <-. constructor; [exact Htoken | now apply IH].
Qed.

Lemma truncatedToken_head (self : export.ExportSkein) (token token' : string)
    (c : ascii) :
  truncatedToken self token = OK token' ->
  headedBy c token' = headedBy c token.
Proof.
  destruct token as [|d body]; cbn [truncatedToken].
  - now intros H; injection H as <-.
  - destruct (headIn parameterLetters (String d body) && nonempty body).
    + destruct (py_float body); cbn [bind]; [| discriminate].
      now intros H; injection H as <-.
    + now intros H; injection H as <-.
Qed.

Lemma truncatedToken_other (self : export.ExportSkein)
    (token token' : string) :
  headIn parameterLetters token = false ->
  truncatedToken self token = OK token' -> token' = token.
Proof.
  intros Hhead. destruct token as [|d body]; cbn [truncatedToken].
  - now intros H; injection H as <-.
  - rewrite Hhead. cbn [andb]. now intros H; injection H as <-.
Qed.

Lemma truncatedToken_tidy (self : export.ExportSkein)
    (token token' : string) :
  tidyToken token = true -> truncatedToken self token = OK token' ->
  tidyToken token' = true.
Proof.
  intros Htidy. destruct token as [|d body]; cbn [truncatedToken].
  - now intros H; injection H as <-.
  - destruct (headIn parameterLetters (String d body) && nonempty body);
      [| now intros H; injection H as <-].
    destruct (py_float body) as [value|]; cbn [bind]; [| discriminate].
    intros H. injection H as <-.
    pose proof (tidyToken_space_free _ Htidy) as Hfree.
    cbn [position] in Hfree.
    unfold tidyToken, mentions. cbn [position].
    destruct (Ascii.eqb d " "); [discriminate |].
    rewrite (blankFree_space_free _ (rounded_blank_free _ value)).
    cbn [negb andb]. apply rounded_letter_free.
Qed.

Lemma headIn_snoc (letters : list ascii) (c : ascii) (token : string) :
  headIn (letters ++ [c]) token = headIn letters token || headedBy c token.
Proof.
  unfold headIn. rewrite existsb_app. cbn [existsb].
  now rewrite orb_false_r.
Qed.

Lemma headIn_other (letters : list ascii) (c : ascii) (token : string) :
  ~ In c letters -> headedBy c token = true -> headIn letters token = false.
Proof.
  intros Hout Hhead. destruct token as [|d body]; [discriminate |].
  cbn [headedBy] in Hhead. apply Ascii.eqb_eq in Hhead. subst d.
  unfold headIn. destruct (existsb _ letters) eqn:H; [| reflexivity].
  apply existsb_exists in H as (c' & Hin & Hc').
  cbn [headedBy] in Hc'. apply Ascii.eqb_eq in Hc'. now subst c'.
Qed.

Lemma headIn_member (letters : list ascii) (c : ascii) (token : string) :
  In c letters -> headedBy c token = true -> headIn letters token = true.
Proof.
  intros Hin Hhead. unfold headIn. apply existsb_exists. now exists c.
Qed.

Lemma mix_nil (tokens tokens' : list string) :
  List.length tokens = List.length tokens' -> mix [] tokens tokens' = tokens.
Proof.
  revert tokens'. induction tokens as [|token rest IH];
    intros [|token' rest'] H; try reflexivity; try discriminate.
  cbn [mix headIn existsb]. f_equal. apply IH. now injection H.
Qed.

Lemma mix_all (self : export.ExportSkein) (tokens tokens' : list string) :
  Forall2 (fun token token' => truncatedToken self token = OK token')
    tokens tokens' ->
  mix parameterLetters tokens tokens' = tokens'.
Proof.
  induction 1 as [|token token' rest rest' Htoken _ IH]; [reflexivity |].
  cbn [mix]. rewrite IH. f_equal.
  destruct (headIn parameterLetters token) eqn:Hhead; [reflexivity |].
  symmetry. exact (truncatedToken_other _ _ _ Hhead Htoken).
Qed.

Lemma mix_tidy (self : export.ExportSkein) (letters : list ascii)
    (tokens tokens' : list string) :
  Forall (fun token => tidyToken token = true) tokens ->
  Forall2 (fun token token' => truncatedToken self token = OK token')
    tokens tokens' ->
  Forall (fun token => tidyToken token = true) (mix letters tokens tokens').
Proof.
  intros Htidy Heach. revert Htidy.
  induction Heach as [|token token' rest rest' Htoken _ IH]; intros Htidy;
    [constructor |].
  inversion Htidy as [|? ? Hhead Hrest]; subst. cbn [mix].
  constructor; [| now apply IH].
  destruct (headIn letters token); [| exact Hhead].
  exact (truncatedToken_tidy _ _ _ Hhead Htoken).
Qed.

Lemma mix_snoc_unheaded (letters : list ascii) (c : ascii)
    (tokens : list string) :
  Forall (fun token => headedBy c token = false) tokens ->
  forall tokens',
    mix (letters ++ [c]) tokens tokens' = mix letters tokens tokens'.
Proof.
  induction 1 as [|token rest Htoken _ IH]; intros [|token' rest'];
    try reflexivity.
  cbn [mix]. rewrite headIn_snoc, Htoken, orb_false_r. now rewrite IH.
Qed.

Lemma none_headed (c : ascii) (tokens : list string) :
  List.length (filter (headedBy c) tokens) = 0%nat ->
  Forall (fun token => headedBy c token = false) tokens.
Proof.
  induction tokens as [|token rest IH]; cbn [filter]; [constructor |].
  destruct (headedBy c token) eqn:Hhead; [discriminate |].
  intros H. constructor; [exact Hhead | now apply IH].
Qed.

(** One truncation takes the tokens mixed for the letters so far to those
    mixed for one letter more. *)
Lemma truncatedFirst_mix (self : export.ExportSkein) (letters : list ascii)
    (c : ascii) (tokens tokens' : list string) :
  In c parameterLetters -> ~ In c letters ->
  Forall2 (fun token token' => truncatedToken self token = OK token')
    tokens tokens' ->
  (List.length (filter (headedBy c) tokens) <= 1)%nat ->
  truncatedFirst self c (mix letters tokens tokens')
  = OK (mix (letters ++ [c]) tokens tokens').
Proof.
  intros Hc Hout Heach.
  induction Heach as [|token token' rest rest' Htoken _ IH]; intros Hone;
    [reflexivity |].
  cbn [mix truncatedFirst]. rewrite headIn_snoc.
  cbn [filter] in Hone.
  destruct (headedBy c token) eqn:Hhead.
  - rewrite (headIn_other _ _ _ Hout Hhead), Hhead. cbn [orb].
    cbn [List.length] in Hone.
    assert (Hrest : Forall (fun t => headedBy c t = false) rest)
      by (apply none_headed; lia).
    rewrite (mix_snoc_unheaded letters c rest Hrest rest').
    destruct token as [|d body]; [discriminate |].
    cbn [headedBy] in Hhead. apply Ascii.eqb_eq in Hhead. subst d.
    cbn [drop]. cbn [truncatedToken] in Htoken.
    rewrite (headIn_member parameterLetters c (String c body) Hc)
      in Htoken by (cbn [headedBy]; apply Ascii.eqb_refl).
    rewrite eqb_empty. destruct (nonempty body); cbn [andb negb] in *.
    + destruct (py_float body) as [value|]; cbn [bind] in *;
        [| discriminate].
      now injection Htoken as <-.
    + now injection Htoken as <-.
  - rewrite orb_false_r.
    assert (Hcurrent :
      headedBy c (if headIn letters token then token' else token) = false).
    { destruct (headIn letters token); [| exact Hhead].
      now rewrite (truncatedToken_head _ _ _ c Htoken). }
    rewrite Hcurrent, (IH Hone). reflexivity.
Qed.

(** The truncations for some of the letters, read on the tokens. *)
Lemma truncateLetters_mix (self : export.ExportSkein)
    (tokens tokens' : list string) :
  Forall (fun token => tidyToken token = true) tokens ->
  Forall2 (fun token token' => truncatedToken self token = OK token')
    tokens tokens' ->
  (forall c, In c parameterLetters ->
             (List.length (filter (headedBy c) tokens) <= 1)%nat) ->
  forall letters,
    NoDup letters -> incl letters parameterLetters ->
    truncateLetters self letters (spaced tokens)
    = OK (spaced (mix letters tokens tokens')).
Proof.
  intros Htidy Heach Hone letters.
  induction letters as [|c letters IH] using rev_ind; intros Hdup Hincl.
  - unfold truncateLetters. cbn [fold_left].
    rewrite mix_nil; [reflexivity |]. exact (Forall2_length Heach).
  - assert (Hc : In c parameterLetters).
    { apply Hincl, in_or_app. right. now left. }
    assert (Hout : ~ In c letters).
    { pose proof (NoDup_remove_2 _ _ _ Hdup) as H.
      now rewrite app_nil_r in H. }
    assert (Hrest : NoDup letters).
    { pose proof (NoDup_remove_1 _ _ _ Hdup) as H.
      now rewrite app_nil_r in H. }
    unfold truncateLetters in *. rewrite fold_left_app. cbn [fold_left].
    rewrite IH; [| exact Hrest |].
    + cbn [bind].
      rewrite (truncation_tokens self c _ Hc
                 (mix_tidy self letters _ _ Htidy Heach)).
      now rewrite (truncatedFirst_mix self letters c _ _ Hc Hout Heach
                     (Hone c Hc)).
    + intros d Hd. apply Hincl, in_or_app. now left.
Qed.

Lemma tidy_tokens (tokens : list string) :
  tidy tokens = true ->
  Forall (fun token => tidyToken token = true) tokens
  /\ (forall c, In c parameterLetters ->
                (List.length (filter (headedBy c) tokens) <= 1)%nat).
Proof.
  unfold tidy. intros H. apply andb_prop in H as [Heach Hone]. split.
  - now apply Forall_forall, forallb_forall.
  - intros c Hc. rewrite forallb_forall in Hone.
    now apply Nat.leb_le, Hone.
Qed.

(** The six truncations round the number of every token that a parameter
    letter heads, and leave the other tokens as they are. *)
Lemma truncateAll_tokens (self : export.ExportSkein)
    (tokens tokens' : list string) :
  tidy tokens = true ->
  truncatedTokens self tokens = OK tokens' ->
  export.truncateAll self (spaced tokens) = OK (spaced tokens')
  /\ Forall (fun token => tidyToken token = true) tokens'
  /\ List.length tokens' = List.length tokens.
Proof.
  intros Htidy Hrun. destruct (tidy_tokens _ Htidy) as [Heach Hone].
  pose proof (truncatedTokens_each _ _ _ Hrun) as Hpairs.
  assert (Hletters : NoDup parameterLetters).
  { unfold parameterLetters.
    repeat (constructor; [cbn [In]; intuition discriminate |]).
    constructor. }
  split; [| split].
  - rewrite truncateAll_letters.
    rewrite (truncateLetters_mix self tokens tokens' Heach Hpairs Hone
               parameterLetters Hletters (incl_refl _)).
    now rewrite (mix_all self _ _ Hpairs).
  - rewrite <- (mix_all self _ _ Hpairs).
    exact (mix_tidy self parameterLetters _ _ Heach Hpairs).
  - symmetry. exact (Forall2_length Hpairs).
Qed.

End ExportProperties.

(** ** Properties of the hop stage *)

Section HopProperties.

Context {imports : Imports}.

Import PyFacts.

Lemma skipn_nth {A : Type} (d : A) (l : list A) (a : nat) :
  (a < List.length l)%nat -> skipn a l = nth a l d :: skipn (S a) l.
Proof.
  revert a. induction l as [|h l IH]; intros a Ha; simpl in Ha; [lia |].
  destruct a as [|a]; [reflexivity |]. simpl. apply IH. lia.
Qed.

Lemma isNextTravelLoop_scan (self : hop.HopSkein) (n a : nat) :
  (a + n = List.length (hop.lines self))%nat ->
  hop.isNextTravelLoop self (seq a n) = travelAhead (skipn a (hop.lines self)).
Proof.
  revert a. induction n as [|n IH]; intros a Hlen.
  - rewrite skipn_all2 by lia. reflexivity.
  - rewrite (skipn_nth "" (hop.lines self) a) by lia.
    cbn [seq hop.isNextTravelLoop travelAhead].
    rewrite IH by lia. reflexivity.
Qed.

(** [isNextTravel] is the scan of the lines after the current one. *)
Lemma isNextTravel_scan (self : hop.HopSkein) :
  hop.isNextTravel self
  = travelAhead (skipn (hop.lineIndex self + 1) (hop.lines self)).
Proof.
  unfold hop.isNextTravel, hop.range.
  destruct (Nat.le_gt_cases (hop.lineIndex self + 1)
              (List.length (hop.lines self))) as [Hin | Hout].
  - apply isNextTravelLoop_scan. lia.
  - replace (List.length (hop.lines self) - (hop.lineIndex self + 1))%nat
      with 0%nat by lia.
    rewrite skipn_all2 by lia. reflexivity.
Qed.

Lemma travelAhead_none (pre tail : list string) :
  Forall notTravel pre -> endsOrActivates tail ->
  travelAhead (pre ++ tail)%list = false.
Proof.
  intros Hpre Htail. induction Hpre as [|line pre Hline _ IH].
  - destruct tail as [|line tail]; [reflexivity |].
    cbn in Htail |- *. now rewrite Htail.
  - cbn [List.app travelAhead]. unfold notTravel in Hline.
    destruct (String.eqb_spec (hop.firstWordOf (split_on " " line)) "G1");
      [contradiction |].
    now destruct (hop.firstWordOf (split_on " " line) =? "M101")%string.
Qed.

(** The scan finds a move exactly when the lines left are not of that
    shape. *)
Lemma travelAhead_false_shape (rest : list string) :
  travelAhead rest = false ->
  exists pre tail, rest = (pre ++ tail)%list /\ Forall notTravel pre
                   /\ endsOrActivates tail.
Proof.
  induction rest as [|line rest IH]; cbn [travelAhead]; intros H.
  - exists [], []. repeat split. constructor.
  - destruct (String.eqb_spec (hop.firstWordOf (split_on " " line)) "G1")
      as [| Hg1]; [discriminate |].
    destruct (String.eqb_spec (hop.firstWordOf (split_on " " line)) "M101")
      as [Hm | _].
    + exists [], (line :: rest). repeat split; [constructor | exact Hm].
    + destruct (IH H) as (pre & tail & -> & Hpre & Htail).
      exists (line :: pre), tail. repeat split; [| assumption].
      constructor; assumption.
Qed.

(** The index helper answers with a place of the split line, or below
    it. *)
Hypothesis index_in_line :
  forall letter splitLine,
    indexOfStartingWithSecond letter splitLine
    < Z.of_nat (List.length splitLine).

Lemma set_feedrateString_same (self : hop.HopSkein) :
  hop.set_feedrateString (hop.feedrateString self) self = self.
Proof. now destruct self. Qed.

Lemma noteFeedrate_returns (self : hop.HopSkein) (splitLine : list string) :
  hop.noteFeedrate self splitLine
  = OK (hop.set_feedrateString (feedrateAfter self splitLine) self).
Proof.
  unfold hop.noteFeedrate, feedrateAfter.
  pose proof (index_in_line "F" splitLine) as Hrange.
  destruct (Z.gtb_spec (indexOfStartingWithSecond "F" splitLine) 0)
    as [Hpos | _].
  - unfold item.
    destruct (nth_error splitLine
                (Z.to_nat (indexOfStartingWithSecond "F" splitLine)))
      as [word|] eqn:Hnth.
    + cbn [bind]. now rewrite (nth_error_nth _ _ _ Hnth).
    + apply nth_error_None in Hnth. lia.
  - now rewrite set_feedrateString_same.
Qed.

(** [getHopLine] with the feedrate step resolved. *)
Lemma getHopLine_unfold (self : hop.HopSkein) (line : string) :
  hop.getHopLine self line
  = let splitLine := split_on " " line in
    let noted :=
      hop.set_feedrateString (feedrateAfter self splitLine) self in
    if hop.extruderActive self then OK (line, noted)
    else
      location <- getLocationFromSplitLine (hop.oldLocation self) splitLine ;;
      if hop.isNextTravel self
      then OK (hop.getMovementLineWithHop noted location, noted)
      else if hop.justDeactivated self
      then
        old <- hop.attr (hop.oldLocation self) ;;
        ratio <- fdiv (hop.layerHopDistance self)
                   (Vec3Ops.distance location old) ;;
        let alongRatio := fmin hop.alongCap ratio in
        let closeLocation :=
          Vec3Ops.plus (Vec3Ops.times old (1 - alongRatio))
            (Vec3Ops.times location alongRatio) in
        let farLocation :=
          Vec3Ops.plus (Vec3Ops.times old alongRatio)
            (Vec3Ops.times location (1 - alongRatio)) in
        OK (line,
            hop.addLine
              (hop.addLine noted
                 (hop.getMovementLineWithHop noted closeLocation))
              (hop.getMovementLineWithHop noted farLocation))
      else OK (line, noted).
Proof.
  unfold hop.getHopLine. rewrite noteFeedrate_returns.
  cbv zeta. cbn [bind]. rewrite !isNextTravel_scan. reflexivity.
Qed.

Lemma split_on_first (line : string) :
  exists word rest, split_on " " line = word :: rest.
Proof.
  pose proof (fields_nonempty (Ascii.eqb " ") line) as H. unfold split_on.
  destruct (fields (Ascii.eqb " ") line) as [|word rest]; [contradiction |].
  now exists word, rest.
Qed.

Lemma parseCommand_keeps (self self' : hop.HopSkein) (firstWord : string) :
  hop.parseCommand self firstWord = OK self' ->
  hop.output self' = hop.output self
  /\ hop.feedrateString self' = hop.feedrateString self.
Proof.
  unfold hop.parseCommand.
  destruct (firstWord =? "M101")%string, (firstWord =? "M103")%string;
    try (intros H; injection H as <-; split; reflexivity);
    (destruct (firstWord =? "(<layerStart>")%string;
     [| destruct (firstWord =? "(<bridgeLayer>")%string]);
    cbn [hop.minimumSlope hop.set_extruderActive];
    try (intros H; injection H as <-; split; reflexivity);
    (destruct (hop.minimumSlope self) as [slope|]; cbn [bind hop.attr];
     [| discriminate]);
    match goal with
    | |- context [fdiv ?a ?b] => destruct (fdiv a b); cbn [bind]
    end;
    try discriminate; intros H; injection H as <-; split; reflexivity.
Qed.

(** [parseLine] on a line that is not empty. *)
Lemma hop_parseLine_unfold (self : hop.HopSkein) (line firstWord : string)
    (rest : list string) :
  (len line <? 1) = false ->
  split_on " " line = firstWord :: rest ->
  hop.parseLine self line
  = (hopped <- (if (firstWord =? "G1")%string
                then hop.parseMove self line (firstWord :: rest)
                else OK (line, self)) ;;
     self <- hop.parseCommand (snd hopped) firstWord ;;
     OK (hop.addLine self (fst hopped))).
Proof.
  intros Hlen Hsplit. unfold hop.parseLine.
  now rewrite Hsplit, at_least_one_word, Hlen.
Qed.

Lemma hop_parseLine_empty (self : hop.HopSkein) :
  hop.parseLine self "" = OK self.
Proof. reflexivity. Qed.

Lemma len_nonempty (line : string) :
  (len line <? 1) = negb (nonempty line).
Proof.
  destruct line as [|c line]; [reflexivity |]. unfold len.
  cbn [String.length nonempty negb]. apply Z.ltb_ge. lia.
Qed.

(** C6.  While the extruder is active [getHopLine] returns the line it
    was given, writes nothing and touches only the kept feedrate token;
    whatever [parseLine] then writes for the line is the line itself (an
    empty line is skipped), a linear move whose location parses is
    written as it came, its Z not raised, and a line that is neither a
    linear move nor a layer mark is always read through. *)
Theorem hop_active_line_unchanged (self : hop.HopSkein) (line : string) :
  hop.extruderActive self = true ->
  hop.getHopLine self line
  = OK (line,
        hop.set_feedrateString (feedrateAfter self (split_on " " line)) self)
  /\ (forall self', hop.parseLine self line = OK self' ->
      hop.output self'
      = hop.output self ++ (if len line <? 1 then "" else line ++ newline))
  /\ (forall rest location,
      split_on " " line = "G1" :: rest ->
      getLocationFromSplitLine (hop.oldLocation self) ("G1" :: rest)
      = OK location ->
      hop.parseLine self line
      = OK (hop.addLine
              (hop.set_justDeactivated false
                 (hop.set_oldLocation (Some location)
                    (hop.set_feedrateString
                       (feedrateAfter self ("G1" :: rest)) self)))
              line))
  /\ (forall firstWord rest,
      split_on " " line = firstWord :: rest ->
      firstWord <> "G1" -> firstWord <> "(<layerStart>" ->
      firstWord <> "(<bridgeLayer>" ->
      exists self', hop.parseLine self line = OK self').
Proof.
  intros Hactive.
  assert (Hhop : hop.getHopLine self line
                 = OK (line,
                       hop.set_feedrateString
                         (feedrateAfter self (split_on " " line)) self)).
  { rewrite getHopLine_unfold. cbv zeta. now rewrite Hactive. }
  split; [exact Hhop |]. split; [| split].
  3: {
    intros firstWord rest Hsplit Hmove Hlayer Hbridge.
    destruct (len line <? 1) eqn:Hlen.
    - rewrite len_nonempty in Hlen. destruct line; [| discriminate].
      exists self. apply hop_parseLine_empty.
    - rewrite (hop_parseLine_unfold _ _ _ _ Hlen Hsplit).
      apply String.eqb_neq in Hmove, Hlayer, Hbridge.
      rewrite Hmove. cbn [bind snd fst]. unfold hop.parseCommand.
      rewrite Hlayer, Hbridge.
      destruct (firstWord =? "M103")%string; cbn [bind]; eexists; reflexivity.
  }
  - intros self'. destruct (len line <? 1) eqn:Hlen.
    + rewrite len_nonempty in Hlen. destruct line; [| discriminate].
      rewrite hop_parseLine_empty. intros H. injection H as <-.
      now rewrite append_empty_r.
    + destruct (split_on_first line) as (firstWord & rest & Hsplit).
      rewrite (hop_parseLine_unfold _ _ _ _ Hlen Hsplit).
      destruct (firstWord =? "G1")%string.
      * unfold hop.parseMove. rewrite Hhop. cbn [bind snd fst].
        destruct (getLocationFromSplitLine _ _) as [location|];
          cbn [bind snd fst]; [| discriminate].
        destruct (hop.parseCommand _ firstWord) as [s|] eqn:Hcommand;
          cbn [bind]; [| discriminate].
        intros H. injection H as <-.
        apply parseCommand_keeps in Hcommand as [Hout _].
        unfold hop.addLine. cbn [hop.output hop.set_output]. now rewrite Hout.
      * cbn [bind snd fst].
        destruct (hop.parseCommand self firstWord) as [s|] eqn:Hcommand;
          cbn [bind]; [| discriminate].
        intros H. injection H as <-.
        apply parseCommand_keeps in Hcommand as [Hout _].
        unfold hop.addLine. cbn [hop.output hop.set_output]. now rewrite Hout.
  - intros rest location Hsplit Hlocation.
    assert (Hlen : (len line <? 1) = false).
    { rewrite len_nonempty. destruct line; [discriminate | reflexivity]. }
    rewrite (hop_parseLine_unfold _ _ _ _ Hlen Hsplit).
    cbn [String.eqb Ascii.eqb Bool.eqb]. unfold hop.parseMove.
    rewrite Hhop, Hsplit. cbn [bind snd fst hop.oldLocation
                               hop.set_feedrateString].
    rewrite Hlocation. reflexivity.
Qed.

Lemma getMovementLineWithHop_text (self : hop.HopSkein) (location : Vec3) :
  hop.getMovementLineWithHop self location
  = elevatedMove (hop.decimalPlacesCarried self) location
      (hop.layerHopHeight self) (hop.feedrateString self).
Proof.
  unfold hop.getMovementLineWithHop, elevatedMove, hop.getRounded.
  destruct (hop.feedrateString self =? "")%string; cbn [negb];
    [now rewrite append_empty_r | reflexivity].
Qed.

Lemma getHopLine_feedrate (self : hop.HopSkein) (line : string)
    (hopped : string * hop.HopSkein) :
  hop.getHopLine self line = OK hopped ->
  hop.feedrateString (snd hopped) = feedrateAfter self (split_on " " line).
Proof.
  rewrite getHopLine_unfold. cbv zeta.
  destruct (hop.extruderActive self);
    [intros H; injection H as <-; reflexivity |].
  destruct (getLocationFromSplitLine _ _) as [location|]; cbn [bind];
    [| discriminate].
  destruct (hop.isNextTravel self);
    [intros H; injection H as <-; reflexivity |].
  destruct (hop.justDeactivated self);
    [| intros H; injection H as <-; reflexivity].
  destruct (hop.oldLocation self) as [old|]; cbn [bind hop.attr];
    [| discriminate].
  destruct (fdiv _ _) as [ratio|]; cbn [bind]; [| discriminate].
  intros H. injection H as <-. reflexivity.
Qed.

(** What [parseLine] leaves in [feedrateString]: the token of a linear
    move that has one, and otherwise the token kept so far. *)
Lemma hop_parseLine_feedrate (self self' : hop.HopSkein) (line : string) :
  hop.parseLine self line = OK self' ->
  hop.feedrateString self'
  = if (hop.firstWordOf (split_on " " line) =? "G1")%string
    then feedrateAfter self (split_on " " line)
    else hop.feedrateString self.
Proof.
  destruct (len line <? 1) eqn:Hlen.
  - rewrite len_nonempty in Hlen. destruct line; [| discriminate].
    rewrite hop_parseLine_empty. intros H. injection H as <-. reflexivity.
  - destruct (split_on_first line) as (firstWord & rest & Hsplit).
    rewrite (hop_parseLine_unfold _ _ _ _ Hlen Hsplit), Hsplit.
    cbn [hop.firstWordOf].
    destruct (firstWord =? "G1")%string.
    + unfold hop.parseMove.
      destruct (hop.getHopLine self line) as [hopped|] eqn:Hhop;
        cbn [bind]; [| discriminate].
      apply getHopLine_feedrate in Hhop. rewrite Hsplit in Hhop.
      destruct (getLocationFromSplitLine _ _) as [location|];
        cbn [bind snd fst]; [| discriminate].
      destruct (hop.parseCommand _ firstWord) as [s|] eqn:Hcommand;
        cbn [bind]; [| discriminate].
      intros H. injection H as <-.
      apply parseCommand_keeps in Hcommand as [_ Hfeed].
      cbn [hop.feedrateString hop.addLine hop.set_output]. rewrite Hfeed.
      exact Hhop.
    + cbn [bind snd fst].
      destruct (hop.parseCommand self firstWord) as [s|] eqn:Hcommand;
        cbn [bind]; [| discriminate].
      intros H. injection H as <-.
      apply parseCommand_keeps in Hcommand as [_ Hfeed].
      cbn [hop.feedrateString hop.addLine hop.set_output]. exact Hfeed.
Qed.

(** C3 (amended).  The lookahead is a scan of the lines after the
    current one.  When no linear move stands in them before the next
    [M101] or the end of the lines, [isNextTravel] answers no, and
    [getHopLine], for an inactive extruder, returns the line as it came:
    the line itself is never raised.  Whether a hop is written for it
    depends on [justDeactivated].  With the flag down nothing else is
    written, and [parseLine] writes the move exactly as it was given.
    With the flag up (the first move after [M103]), a prior location
    known and the move of non-zero length, two raised lines are written
    in front of the line. *)
Theorem hop_no_travel_ahead_no_hop (self : hop.HopSkein) (line : string)
    (pre tail : list string) :
  hop.extruderActive self = false ->
  skipn (hop.lineIndex self + 1) (hop.lines self) = (pre ++ tail)%list ->
  Forall notTravel pre -> endsOrActivates tail ->
  hop.isNextTravel self = false
  /\ (forall hopped, hop.getHopLine self line = OK hopped ->
      fst hopped = line)
  /\ (hop.justDeactivated self = false ->
      forall rest location,
        split_on " " line = "G1" :: rest ->
        getLocationFromSplitLine (hop.oldLocation self) ("G1" :: rest)
        = OK location ->
        hop.getHopLine self line
        = OK (line,
              hop.set_feedrateString (feedrateAfter self ("G1" :: rest))
                self)
        /\ exists self',
            hop.parseLine self line = OK self'
            /\ hop.output self' = hop.output self ++ line ++ newline)
  /\ (hop.justDeactivated self = true ->
      forall rest old location,
        split_on " " line = "G1" :: rest ->
        hop.oldLocation self = Some old ->
        getLocationFromSplitLine (Some old) ("G1" :: rest) = OK location ->
        PrimFloat.eqb (Vec3Ops.distance location old) 0 = false ->
        let alongRatio :=
          fmin hop.alongCap
            (hop.layerHopDistance self / Vec3Ops.distance location old) in
        let feed := feedrateAfter self ("G1" :: rest) in
        let close :=
          elevatedMove (hop.decimalPlacesCarried self)
            (Vec3Ops.plus (Vec3Ops.times old (1 - alongRatio))
               (Vec3Ops.times location alongRatio))
            (hop.layerHopHeight self) feed in
        let far :=
          elevatedMove (hop.decimalPlacesCarried self)
            (Vec3Ops.plus (Vec3Ops.times old alongRatio)
               (Vec3Ops.times location (1 - alongRatio)))
            (hop.layerHopHeight self) feed in
        hop.getHopLine self line
        = OK (line,
              hop.addLine
                (hop.addLine (hop.set_feedrateString feed self) close) far)
        /\ exists self',
            hop.parseLine self line = OK self'
            /\ hop.output self'
               = hop.output self ++ close ++ newline ++ far ++ newline
                 ++ line ++ newline).
Proof.
  intros Hinactive Hrest Hpre Htail.
  assert (Hscan : hop.isNextTravel self = false).
  { rewrite isNextTravel_scan, Hrest. now apply travelAhead_none. }
  split; [exact Hscan |]. split; [| split].
  - intros hopped. rewrite getHopLine_unfold. cbv zeta.
    rewrite Hinactive, Hscan.
    destruct (getLocationFromSplitLine _ _) as [location|]; cbn [bind];
      [| discriminate].
    destruct (hop.justDeactivated self);
      [| intros H; injection H as <-; reflexivity].
    destruct (hop.oldLocation self) as [old|]; cbn [bind hop.attr];
      [| discriminate].
    destruct (fdiv _ _) as [ratio|]; cbn [bind]; [| discriminate].
    intros H. injection H as <-. reflexivity.
  - intros Hjust rest location Hsplit Hlocation.
    assert (Hhop : hop.getHopLine self line
                   = OK (line,
                         hop.set_feedrateString
                           (feedrateAfter self ("G1" :: rest)) self)).
    { rewrite getHopLine_unfold. cbv zeta.
      now rewrite Hinactive, Hscan, Hjust, Hsplit, Hlocation. }
    split; [exact Hhop |].
    assert (Hlen : (len line <? 1) = false).
    { rewrite len_nonempty. destruct line; [discriminate | reflexivity]. }
    rewrite (hop_parseLine_unfold _ _ _ _ Hlen Hsplit).
    cbn [String.eqb Ascii.eqb Bool.eqb]. unfold hop.parseMove.
    rewrite Hhop. cbn [bind snd fst hop.oldLocation hop.set_feedrateString].
    rewrite Hlocation. cbn [bind snd fst].
    eexists. split; [reflexivity | reflexivity].
  - intros Hjust rest old location Hsplit Hold Hlocation Hdistance
      alongRatio feed close far.
    assert (Hhop :
      hop.getHopLine self line
      = OK (line,
            hop.addLine
              (hop.addLine (hop.set_feedrateString feed self) close) far)).
    { rewrite getHopLine_unfold. cbv zeta.
      rewrite Hinactive, Hscan, Hjust, Hsplit, Hold, Hlocation.
      cbn [bind hop.attr]. unfold fdiv. rewrite Hdistance. cbn [bind].
      rewrite !getMovementLineWithHop_text. reflexivity. }
    split; [exact Hhop |].
    assert (Hlen : (len line <? 1) = false).
    { rewrite len_nonempty. destruct line; [discriminate | reflexivity]. }
    rewrite (hop_parseLine_unfold _ _ _ _ Hlen Hsplit).
    cbn [String.eqb Ascii.eqb Bool.eqb]. unfold hop.parseMove.
    rewrite Hhop.
    cbn [bind snd fst hop.oldLocation hop.set_feedrateString hop.addLine
         hop.set_output].
    rewrite Hold, Hlocation. cbn [bind snd fst].
    eexists. split; [reflexivity |].
    cbn [hop.output hop.addLine hop.set_output hop.set_justDeactivated
         hop.set_oldLocation hop.set_feedrateString hop.parseCommand
         String.eqb Ascii.eqb Bool.eqb].
    now rewrite !append_assoc.
Qed.

(** C4 (amended).  A linear move read while the extruder is inactive is
    raised when another linear move follows before the next [M101] or
    the end of the lines ([isNextTravel]), whether or not the extruder
    was just switched off: the line written has the X and Y of the
    parsed location and the Z of the parsed location plus
    [layerHopHeight], each rounded to the carried places, then the
    feedrate token, if one is kept.  The kept token is the one on this
    line, or, when the line has none, the one kept so far; lines that are
    not linear moves leave it as it is. *)
Theorem hop_travel_line_elevated (self : hop.HopSkein) (line : string)
    (rest : list string) (location : Vec3) :
  hop.extruderActive self = false ->
  hop.isNextTravel self = true ->
  split_on " " line = "G1" :: rest ->
  getLocationFromSplitLine (hop.oldLocation self) ("G1" :: rest)
  = OK location ->
  let feed := feedrateAfter self ("G1" :: rest) in
  let hopped :=
    elevatedMove (hop.decimalPlacesCarried self) location
      (hop.layerHopHeight self) feed in
  hop.getHopLine self line = OK (hopped, hop.set_feedrateString feed self)
  /\ (exists self',
         hop.parseLine self line = OK self'
         /\ hop.output self' = hop.output self ++ hopped ++ newline
         /\ hop.feedrateString self' = feed)
  /\ (indexOfStartingWithSecond "F" ("G1" :: rest) <= 0 ->
      feed = hop.feedrateString self)
  /\ (forall other self',
         notTravel other -> hop.parseLine self other = OK self' ->
         hop.feedrateString self' = hop.feedrateString self).
Proof.
  intros Hinactive Hnext Hsplit Hlocation feed hopped.
  assert (Hhop : hop.getHopLine self line
                 = OK (hopped, hop.set_feedrateString feed self)).
  { rewrite getHopLine_unfold. cbv zeta.
    rewrite Hinactive, Hnext, Hsplit, Hlocation. cbn [bind].
    now rewrite getMovementLineWithHop_text. }
  split; [exact Hhop |]. split; [| split].
  - assert (Hlen : (len line <? 1) = false).
    { rewrite len_nonempty. destruct line; [discriminate | reflexivity]. }
    rewrite (hop_parseLine_unfold _ _ _ _ Hlen Hsplit).
    cbn [String.eqb Ascii.eqb Bool.eqb]. unfold hop.parseMove.
    rewrite Hhop. cbn [bind snd fst hop.oldLocation hop.set_feedrateString].
    rewrite Hlocation. cbn [bind snd fst].
    eexists. repeat split; reflexivity.
  - intros Hno. unfold feed, feedrateAfter.
    destruct (Z.gtb_spec (indexOfStartingWithSecond "F" ("G1" :: rest)) 0);
      [lia | reflexivity].
  - intros other self' Hother Hrun.
    rewrite (hop_parseLine_feedrate _ _ _ Hrun). unfold notTravel in Hother.
    now destruct (String.eqb_spec (hop.firstWordOf (split_on " " other)) "G1").
Qed.

(** C5 (amended).  The two-line ramp is written for a linear move read
    right after a deactivation only when no further linear move precedes
    the next [M101] ([isNextTravel] answers no), a prior location [old]
    is known and the move has a non-zero length.  With
    [alongRatio = min( 0.41666666, layerHopDistance / distance )], the
    stage then writes the raised blend of [old] and the target at
    [alongRatio], the raised point with the two weights exchanged (the
    blend at [1 - alongRatio] wherever [1 - (1 - alongRatio)] is
    [alongRatio] again), and the line itself as it came; the flag
    [justDeactivated] is cleared.  At distance 2.0 with layerHopDistance
    0.5 the two ratios are 0.25 and 0.75. *)
Theorem hop_ramp_after_deactivation (self : hop.HopSkein) (line : string)
    (rest : list string) (old location : Vec3) :
  hop.extruderActive self = false ->
  hop.justDeactivated self = true ->
  hop.isNextTravel self = false ->
  split_on " " line = "G1" :: rest ->
  hop.oldLocation self = Some old ->
  getLocationFromSplitLine (Some old) ("G1" :: rest) = OK location ->
  PrimFloat.eqb (Vec3Ops.distance location old) 0 = false ->
  let alongRatio :=
    fmin hop.alongCap
      (hop.layerHopDistance self / Vec3Ops.distance location old) in
  let farLocation :=
    Vec3Ops.plus (Vec3Ops.times old alongRatio)
      (Vec3Ops.times location (1 - alongRatio)) in
  let feed := feedrateAfter self ("G1" :: rest) in
  let close :=
    elevatedMove (hop.decimalPlacesCarried self)
      (Vec3Ops.blend old location alongRatio) (hop.layerHopHeight self)
      feed in
  let far :=
    elevatedMove (hop.decimalPlacesCarried self) farLocation
      (hop.layerHopHeight self) feed in
  (exists self',
      hop.parseLine self line = OK self'
      /\ hop.output self'
         = hop.output self ++ close ++ newline ++ far ++ newline
           ++ line ++ newline
      /\ hop.justDeactivated self' = false
      /\ hop.oldLocation self' = Some location)
  /\ ((1 - (1 - alongRatio))%float = alongRatio ->
      farLocation = Vec3Ops.blend old location (1 - alongRatio))
  /\ (hop.layerHopDistance self = 0.5%float ->
      Vec3Ops.distance location old = 2%float ->
      alongRatio = 0.25%float /\ (1 - alongRatio)%float = 0.75%float
      /\ farLocation = Vec3Ops.blend old location 0.75).
Proof.
  intros Hinactive Hjust Hnext Hsplit Hold Hlocation Hdistance
    alongRatio farLocation feed close far.
  assert (Hhop :
    hop.getHopLine self line
    = OK (line,
          hop.addLine
            (hop.addLine (hop.set_feedrateString feed self) close) far)).
  { rewrite getHopLine_unfold. cbv zeta.
    rewrite Hinactive, Hnext, Hjust, Hsplit, Hold, Hlocation.
    cbn [bind hop.attr]. unfold fdiv. rewrite Hdistance. cbn [bind].
    rewrite !getMovementLineWithHop_text. reflexivity. }
  split; [| split].
  - assert (Hlen : (len line <? 1) = false).
    { rewrite len_nonempty. destruct line; [discriminate | reflexivity]. }
    rewrite (hop_parseLine_unfold _ _ _ _ Hlen Hsplit).
    cbn [String.eqb Ascii.eqb Bool.eqb]. unfold hop.parseMove.
    rewrite Hhop.
    cbn [bind snd fst hop.oldLocation hop.set_feedrateString hop.addLine
         hop.set_output].
    rewrite Hold, Hlocation. cbn [bind snd fst].
    eexists. split; [reflexivity |]. split; [| split; reflexivity].
    cbn [hop.output hop.addLine hop.set_output hop.set_justDeactivated
         hop.set_oldLocation hop.set_feedrateString hop.parseCommand
         String.eqb Ascii.eqb Bool.eqb].
    now rewrite !append_assoc.
  - intros Hexact. unfold farLocation, Vec3Ops.blend. now rewrite Hexact.
  - intros Hhopdistance Htwo. unfold farLocation, alongRatio.
    rewrite Hhopdistance, Htwo.
    assert (Hratio : fmin hop.alongCap (0.5 / 2) = 0.25%float)
      by (vm_compute; reflexivity).
    rewrite Hratio.
    assert (Hrest : (1 - 0.25)%float = 0.75%float)
      by (vm_compute; reflexivity).
    rewrite Hrest.
    assert (Hback : (1 - 0.75)%float = 0.25%float)
      by (vm_compute; reflexivity).
    split; [reflexivity | split; [reflexivity |]].
    unfold Vec3Ops.blend. now rewrite Hback.
Qed.

Lemma sameControl_trans (a b c : hop.HopSkein) :
  sameControl a b -> sameControl b c -> sameControl a c.
Proof.
  unfold sameControl. intros (H1 & H2 & H3 & H4 & H5) (K1 & K2 & K3 & K4 & K5).
  repeat split; congruence.
Qed.

Lemma parseInitializationLine_plain (prefs : hop.HopPreferences)
    (self : hop.HopSkein) (line : string) :
  notExtrusionStart line -> metadataParses line = true ->
  exists s,
    hop.parseInitializationLine prefs self line = OK (false, s)
    /\ hop.output s = hop.output self ++ line ++ newline
    /\ hop.lineIndex s = hop.lineIndex self
    /\ sameControl self s.
Proof.
  unfold notExtrusionStart, metadataParses, hop.parseInitializationLine.
  cbv zeta. intros Hstart Hparses.
  destruct (hop.firstWordOf (split_on " " line) =? "(<extrusionHeight>")%string.
  - cbn [orb] in Hparses.
    destruct (item (split_on " " line) 1) as [word|]; cbn [bind] in *;
      [| discriminate].
    destruct (py_float word) as [height|]; cbn [bind] in *; [| discriminate].
    eexists. repeat split.
  - destruct (hop.firstWordOf (split_on " " line)
              =? "(<bridgeExtrusionWidthOverSolid>")%string.
    + cbn [orb] in Hparses.
      destruct (item (split_on " " line) 1) as [word|]; cbn [bind] in *;
        [| discriminate].
      destruct (py_float word) as [width|]; cbn [bind] in *; [| discriminate].
      eexists. repeat split.
    + cbn [orb] in Hparses.
      destruct (hop.firstWordOf (split_on " " line)
                =? "(<decimalPlacesCarried>")%string.
      * destruct (item (split_on " " line) 1) as [word|]; cbn [bind] in *;
          [| discriminate].
        destruct (py_int word) as [places|]; cbn [bind] in *; [| discriminate].
        eexists. repeat split.
      * destruct (String.eqb_spec (hop.firstWordOf (split_on " " line))
                    "(<extrusionStart>"); [contradiction |].
        eexists. repeat split.
Qed.

(** An initialization pass that meets no [(<extrusionStart>] copies the
    lines it is given and stops with [lineIndex] on the last of them. *)
Lemma parseInitializationLoop_all (prefs : hop.HopPreferences) (n : nat) :
  forall (a : nat) (self : hop.HopSkein),
    (a + n = List.length (hop.lines self))%nat ->
    Forall notExtrusionStart (skipn a (hop.lines self)) ->
    Forall (fun line => metadataParses line = true)
      (skipn a (hop.lines self)) ->
    exists s,
      hop.parseInitializationLoop prefs self (seq a n) = OK s
      /\ hop.output s
         = hop.output self ++ unlines (skipn a (hop.lines self))
      /\ hop.lineIndex s
         = (if (n =? 0)%nat then hop.lineIndex self else a + n - 1)%nat
      /\ sameControl self s.
Proof.
  induction n as [|n IH]; intros a self Hlen Hstart Hparses.
  - exists self. rewrite skipn_all2 by lia. cbn [seq unlines].
    rewrite append_empty_r. repeat split.
  - rewrite (skipn_nth "" (hop.lines self) a) in * by lia.
    inversion Hstart as [| l ls Hstart1 Hstart2]; subst.
    inversion Hparses as [| l ls Hparses1 Hparses2]; subst.
    cbn [seq hop.parseInitializationLoop hop.lines hop.set_lineIndex].
    unfold item. rewrite (nth_error_nth' (hop.lines self) "") by lia.
    cbn [bind].
    destruct (parseInitializationLine_plain prefs
                (hop.set_lineIndex a self) _ Hstart1 Hparses1)
      as (s1 & Hrun & Hout & Hindex & Hsame).
    rewrite Hrun. cbn [bind fst snd].
    assert (Hlines : hop.lines s1 = hop.lines self) by apply Hsame.
    destruct (IH (S a) s1) as (s & Hloop & Hout' & Hindex' & Hsame').
    + rewrite Hlines. lia.
    + now rewrite Hlines.
    + now rewrite Hlines.
    + exists s. split; [exact Hloop |]. split; [| split].
      * rewrite Hout', Hout, Hlines. cbn [unlines hop.output hop.set_lineIndex].
        now rewrite !append_assoc.
      * rewrite Hindex', Hindex. cbn [hop.lineIndex hop.set_lineIndex].
        destruct n; cbn [Nat.eqb]; lia.
      * eapply sameControl_trans; [| exact Hsame'].
        destruct Hsame as (H1 & H2 & H3 & H4 & H5). repeat split; assumption.
Qed.

Lemma parseCommand_returns (self : hop.HopSkein) (firstWord : string)
    (slope : float) :
  hop.minimumSlope self = Some slope ->
  ((firstWord =? "(<layerStart>")%string
   || (firstWord =? "(<bridgeLayer>")%string = true ->
   PrimFloat.eqb slope 0 = false) ->
  exists s, hop.parseCommand self firstWord = OK s.
Proof.
  intros Hslope Hzero. unfold hop.parseCommand.
  destruct (firstWord =? "M103")%string; [eexists; reflexivity |].
  destruct (firstWord =? "(<layerStart>")%string.
  - destruct (firstWord =? "M101")%string;
      cbn [hop.minimumSlope hop.set_extruderActive]; rewrite Hslope;
      cbn [bind hop.attr]; unfold fdiv; rewrite (Hzero eq_refl);
      eexists; reflexivity.
  - destruct (firstWord =? "(<bridgeLayer>")%string; [| eexists; reflexivity].
    destruct (firstWord =? "M101")%string;
      cbn [hop.minimumSlope hop.set_extruderActive]; rewrite Hslope;
      cbn [bind hop.attr]; unfold fdiv; rewrite (Hzero eq_refl);
      eexists; reflexivity.
Qed.

(** The main pass on the last line, from the state the initialization
    pass leaves: the line is written once more unless it is empty. *)
Lemma hop_parseLine_last (prefs : hop.HopPreferences) (self : hop.HopSkein)
    (line : string) :
  hop.extruderActive self = false ->
  hop.justDeactivated self = false ->
  hop.oldLocation self = None ->
  hop.minimumSlope self = Some (tan_radians (hop.minimumHopAngle prefs)) ->
  skipn (hop.lineIndex self + 1) (hop.lines self) = [] ->
  finalLineParses prefs line = true ->
  exists s,
    hop.parseLine self line = OK s
    /\ hop.output s
       = hop.output self
         ++ (if (line =? "")%string then "" else line ++ newline).
Proof.
  intros Hinactive Hjust Hold Hslope Hrest Hparses.
  destruct (String.eqb_spec line "") as [-> | Hne].
  - exists self. rewrite hop_parseLine_empty, append_empty_r. now split.
  - assert (Hlen : (len line <? 1) = false).
    { rewrite len_nonempty. destruct line; [contradiction | reflexivity]. }
    destruct (split_on_first line) as (firstWord & rest & Hsplit).
    rewrite (hop_parseLine_unfold _ _ _ _ Hlen Hsplit).
    unfold finalLineParses in Hparses. rewrite Hsplit in Hparses.
    cbn [hop.firstWordOf] in Hparses.
    destruct (String.eqb_spec firstWord "G1") as [-> | Hword].
    + unfold hop.parseMove. rewrite getHopLine_unfold. cbv zeta.
      rewrite Hinactive, Hsplit, Hold, Hjust, isNextTravel_scan, Hrest.
      destruct (getLocationFromSplitLine None ("G1" :: rest))
        as [location|] eqn:Hlocation; [| discriminate].
      cbn [bind travelAhead snd fst hop.oldLocation hop.set_feedrateString].
      rewrite Hold, Hlocation. cbn [bind snd fst].
      eexists; split; reflexivity.
    + cbn [bind snd fst].
      destruct (parseCommand_returns self firstWord _ Hslope) as (s & Hrun).
      { intros Hlayer. rewrite Hlayer in Hparses.
        now apply negb_true_iff in Hparses. }
      rewrite Hrun. cbn [bind]. eexists. split; [reflexivity |].
      apply parseCommand_keeps in Hrun as [Hout _].
      cbn [hop.output hop.addLine hop.set_output]. now rewrite Hout.
Qed.

(** C9 (amended).  On a text none of whose lines starts with
    [(<extrusionStart>] (and whose metadata lines and last line parse),
    the initialization pass consumes every line, copying each to the
    output, and stops with [lineIndex] on the last one; the main pass
    then reads that last line again.  The output is every line of the
    input once, followed by the last line a second time when that line
    is not empty; an empty last line is skipped by [parseLine] and so
    stands once.  No [(<procedureDone> hop )] line is written. *)
Theorem hop_without_extrusionStart (prefs : hop.HopPreferences)
    (text : string) (body : list string) (final : string) :
  getTextLines text = (body ++ [final])%list ->
  Forall notExtrusionStart (body ++ [final])%list ->
  Forall (fun line => metadataParses line = true) (body ++ [final])%list ->
  finalLineParses prefs final = true ->
  exists initialized self',
    hop.parseInitialization prefs
      (hop.set_minimumSlope
         (Some (tan_radians (hop.minimumHopAngle prefs)))
         (hop.set_lines (getTextLines text) hop.init))
    = OK initialized
    /\ hop.lineIndex initialized = List.length body
    /\ hop.output initialized = unlines (body ++ [final])%list
    /\ hop.parseGcode hop.init text prefs = OK self'
    /\ hop.output self'
       = unlines (body ++ [final])%list
         ++ (if (final =? "")%string then "" else final ++ newline).
Proof.
  intros Hlines Hstart Hparses Hfinal.
  set (start := hop.set_minimumSlope
                  (Some (tan_radians (hop.minimumHopAngle prefs)))
                  (hop.set_lines (getTextLines text) hop.init)).
  assert (Hstartlines : hop.lines start = (body ++ [final])%list)
    by (now rewrite <- Hlines).
  assert (Hcount : List.length (hop.lines start) = S (List.length body)).
  { rewrite Hstartlines, length_app. cbn [List.length]. lia. }
  destruct (parseInitializationLoop_all prefs (S (List.length body)) 0 start)
    as (s1 & Hinit & Hout & Hindex & Hsame).
  { lia. }
  { cbn [skipn]. now rewrite Hstartlines. }
  { cbn [skipn]. now rewrite Hstartlines. }
  cbn [skipn Nat.eqb] in Hout, Hindex.
  rewrite Hstartlines in Hout. cbn [hop.output start] in Hout.
  destruct Hsame as (Hl & Hold & Hactive & Hjust & Hslope).
  assert (Hinitialized : hop.parseInitialization prefs start = OK s1).
  { unfold hop.parseInitialization, hop.range. rewrite Hcount.
    now rewrite Nat.sub_0_r. }
  assert (Hat : hop.lineIndex s1 = List.length body) by lia.
  destruct (hop_parseLine_last prefs
              (hop.set_lineIndex (List.length body) s1) final)
    as (s2 & Hlast & Hout2).
  { cbn [hop.extruderActive hop.set_lineIndex]. now rewrite Hactive. }
  { cbn [hop.justDeactivated hop.set_lineIndex]. now rewrite Hjust. }
  { cbn [hop.oldLocation hop.set_lineIndex]. now rewrite Hold. }
  { cbn [hop.minimumSlope hop.set_lineIndex]. now rewrite Hslope. }
  { cbn [hop.lineIndex hop.lines hop.set_lineIndex].
    apply skipn_all2. rewrite Hl. lia. }
  { exact Hfinal. }
  exists s1, s2. repeat split; try assumption.
  - unfold hop.parseGcode. fold start. rewrite Hinitialized. cbn [bind].
    unfold hop.range. rewrite Hat, Hl, Hcount.
    replace (S (List.length body) - List.length body)%nat with 1%nat by lia.
    cbn [seq hop.parseGcodeLoop hop.lines hop.set_lineIndex].
    rewrite Hl, Hstartlines. unfold item.
    rewrite nth_error_app2, Nat.sub_diag by lia. cbn [nth_error bind].
    now rewrite Hlast.
  - rewrite Hout2. cbn [hop.output hop.set_lineIndex]. now rewrite Hout.
Qed.

End HopProperties.

(** ** The reference imports meet what the properties assume *)

Module referenceFacts.

Import PyFacts.

Lemma indexFrom_bound (letter : string) (words : list string) :
  forall index, 0 <= index ->
    reference.indexFrom letter words index
    < index + Z.of_nat (List.length words).
Proof.
  induction words as [|word words IH]; intros index Hindex;
    cbn [reference.indexFrom List.length].
  - lia.
  - destruct (take 1 word =? letter)%string; [lia |].
    specialize (IH (index + 1) ltac:(lia)). lia.
Qed.

Lemma index_in_line (letter : string) (splitLine : list string) :
  @indexOfStartingWithSecond reference.imports letter splitLine
  < Z.of_nat (List.length splitLine).
Proof.
  cbn [indexOfStartingWithSecond reference.imports].
  unfold reference.indexOfStartingWithSecond.
  destruct splitLine as [|word rest]; [cbn; lia |].
  pose proof (indexFrom_bound letter rest 1 ltac:(lia)) as H.
  cbn [tl List.length]. lia.
Qed.

Lemma digit_not_blank (n : Z) :
  isspace (ascii_of_nat (48 + Z.to_nat (n mod 10))) = false.
Proof.
  pose proof (Z.mod_pos_bound n 10 ltac:(lia)) as Hrange.
  assert (Hcases : (Z.to_nat (n mod 10) < 10)%nat) by lia.
  destruct (Z.to_nat (n mod 10)) as [|[|[|[|[|[|[|[|[|[|d]]]]]]]]]];
    try reflexivity.
  lia.
Qed.

Lemma numeral_blank_free (fuel : nat) :
  forall n acc, blankFree acc = true ->
    blankFree (reference.numeral fuel n acc) = true.
Proof.
  unfold blankFree.
  induction fuel as [|fuel IH]; intros n acc Hacc; cbn [reference.numeral].
  - cbn [all_chars]. now rewrite digit_not_blank, Hacc.
  - destruct (n / 10 =? 0).
    + cbn [all_chars]. now rewrite digit_not_blank, Hacc.
    + apply IH. cbn [all_chars]. now rewrite digit_not_blank, Hacc.
Qed.

Lemma padded_blank_free (places : nat) :
  forall n acc, blankFree acc = true ->
    blankFree (reference.padded places n acc) = true.
Proof.
  unfold blankFree.
  induction places as [|places IH]; intros n acc Hacc;
    cbn [reference.padded]; [assumption |].
  apply IH. cbn [all_chars]. now rewrite digit_not_blank, Hacc.
Qed.

Lemma stripped_blank_free (s : string) :
  blankFree s = true -> blankFree (reference.stripped s) = true.
Proof.
  unfold blankFree. induction s as [|c s IH]; cbn [reference.stripped];
    [reflexivity |].
  cbn [all_chars]. intros H. apply andb_prop in H as [Hc Hs].
  specialize (IH Hs).
  destruct (reference.stripped s) as [|d rest]; cbn [all_chars];
    [now rewrite Hc |].
  destruct (Ascii.eqb_spec d "0"%char) as [-> | Hd].
  - destruct rest; cbn [all_chars] in *; rewrite Hc; [reflexivity |].
    exact IH.
  - assert (Hkeep : all_chars (fun c0 => negb (isspace c0))
                      (String c (String d rest)) = true).
    { cbn [all_chars] in *. now rewrite Hc. }
    destruct d as [[] [] [] [] [] [] [] []]; try exact Hkeep.
    contradiction Hd. reflexivity.
Qed.

Lemma rounded_blank_free (places : Z) (number : float) :
  blankFree (@getRoundedToDecimalPlacesString reference.imports places number)
  = true.
Proof.
  cbn [getRoundedToDecimalPlacesString reference.imports].
  unfold reference.getRoundedToDecimalPlacesString.
  assert (Htext : forall negative n,
    blankFree
      ((if negative : bool then "-" else "")
       ++ reference.natural (n / 10 ^ Z.max 1 places) ++ "."
       ++ reference.stripped
            (reference.padded (Z.to_nat (Z.max 1 places))
               (n mod 10 ^ Z.max 1 places) "")) = true).
  { intros negative n. unfold blankFree. rewrite !all_chars_append.
    apply andb_true_intro. split; [now destruct negative |].
    apply andb_true_intro. split.
    - apply numeral_blank_free. reflexivity.
    - cbn [append all_chars isspace]. cbn.
      apply stripped_blank_free, padded_blank_free. reflexivity. }
  destruct (Prim2SF number) as [negative | negative | | negative m e].
  - apply Htext.
  - now destruct negative.
  - reflexivity.
  - apply Htext.
Qed.

Lemma digit_not_letter (n : Z) :
  existsb (Ascii.eqb (ascii_of_nat (48 + Z.to_nat (n mod 10))))
    parameterLetters = false.
Proof.
  pose proof (Z.mod_pos_bound n 10 ltac:(lia)) as Hrange.
  assert (Hcases : (Z.to_nat (n mod 10) < 10)%nat) by lia.
  destruct (Z.to_nat (n mod 10)) as [|[|[|[|[|[|[|[|[|[|d]]]]]]]]]];
    try reflexivity.
  lia.
Qed.

Lemma numeral_letter_free (fuel : nat) :
  forall n acc, letterFree acc = true ->
    letterFree (reference.numeral fuel n acc) = true.
Proof.
  unfold letterFree.
  induction fuel as [|fuel IH]; intros n acc Hacc; cbn [reference.numeral].
  - cbn [all_chars]. now rewrite digit_not_letter, Hacc.
  - destruct (n / 10 =? 0).
    + cbn [all_chars]. now rewrite digit_not_letter, Hacc.
    + apply IH. cbn [all_chars]. now rewrite digit_not_letter, Hacc.
Qed.

Lemma padded_letter_free (places : nat) :
  forall n acc, letterFree acc = true ->
    letterFree (reference.padded places n acc) = true.
Proof.
  unfold letterFree.
  induction places as [|places IH]; intros n acc Hacc;
    cbn [reference.padded]; [assumption |].
  apply IH. cbn [all_chars]. now rewrite digit_not_letter, Hacc.
Qed.

Lemma stripped_letter_free (s : string) :
  letterFree s = true -> letterFree (reference.stripped s) = true.
Proof.
  unfold letterFree. induction s as [|c s IH]; cbn [reference.stripped];
    [reflexivity |].
  cbn [all_chars]. intros H. apply andb_prop in H as [Hc Hs].
  specialize (IH Hs).
  destruct (reference.stripped s) as [|d rest]; cbn [all_chars];
    [now rewrite Hc |].
  destruct (Ascii.eqb_spec d "0"%char) as [-> | Hd].
  - destruct rest; cbn [all_chars] in *; rewrite Hc; [reflexivity |].
    exact IH.
  - assert (Hkeep :
      all_chars (fun c0 => negb (existsb (Ascii.eqb c0) parameterLetters))
        (String c (String d rest)) = true).
    { cbn [all_chars] in *. now rewrite Hc. }
    destruct d as [[] [] [] [] [] [] [] []]; try exact Hkeep.
    contradiction Hd. reflexivity.
Qed.

Lemma rounded_letter_free (places : Z) (number : float) :
  letterFree (@getRoundedToDecimalPlacesString reference.imports places number)
  = true.
Proof.
  cbn [getRoundedToDecimalPlacesString reference.imports].
  unfold reference.getRoundedToDecimalPlacesString.
  assert (Htext : forall negative n,
    letterFree
      ((if negative : bool then "-" else "")
       ++ reference.natural (n / 10 ^ Z.max 1 places) ++ "."
       ++ reference.stripped
            (reference.padded (Z.to_nat (Z.max 1 places))
               (n mod 10 ^ Z.max 1 places) "")) = true).
  { intros negative n. unfold letterFree. rewrite !all_chars_append.
    apply andb_true_intro. split; [now destruct negative |].
    apply andb_true_intro. split.
    - apply numeral_letter_free. reflexivity.
    - cbn [append all_chars]. apply andb_true_intro. split; [reflexivity |].
      apply stripped_letter_free, padded_letter_free. reflexivity. }
  destruct (Prim2SF number) as [negative | negative | | negative m e].
  - apply Htext.
  - now destruct negative.
  - reflexivity.
  - apply Htext.
Qed.

End referenceFacts.

(** ** Properties of both stages *)

(** C1.  A text that already holds a stage's procedure-done marker comes
    back from that stage as it is: [getHopGcode] when the [hop] marker is
    found, [getGcode] when the [export] marker is found.  The marker is
    looked for before the text is split into lines or any number parsed:
    the result does not depend on what the line splitter and the parsers
    do with the text, nor on the preferences. *)
Theorem marked_text_returned_unchanged (imports : Imports)
    (storedHop : hop.HopPreferences) (storedExport : export.ExportPreferences)
    (text : string) (hopPreferences : option hop.HopPreferences)
    (exportPreferences : option export.ExportPreferences) :
  (isProcedureDone text "hop" = true ->
   hop.getHopGcode storedHop text hopPreferences = OK text)
  /\ (isProcedureDone text "export" = true ->
      export.getGcode storedExport text exportPreferences = OK text).
Proof.
  split; intros Hdone.
  - unfold hop.getHopGcode.
    destruct (String.eqb_spec text "") as [-> | _]; [reflexivity |].
    now rewrite Hdone.
  - unfold export.getGcode.
    destruct (String.eqb_spec text "") as [-> | _]; [reflexivity |].
    now rewrite Hdone.
Qed.

(** C10 (amended).  The export stage writes nothing for a line that is
    empty or all blanks, whatever deleteComments says, and the main pass
    of the hop stage ([parseLine]) writes nothing for an empty line.  The
    initialization pass of the hop stage is different: it copies an empty
    line to the output like any other line that comes before
    [(<extrusionStart>]. *)
Theorem blank_lines_dropped (imports : Imports) :
  (forall prefs self line,
      all_chars isspace line = true ->
      export.parseLine prefs self line = OK self)
  /\ (forall self, hop.parseLine self "" = OK self)
  /\ (forall prefs self,
      hop.parseInitializationLine prefs self ""
      = OK (false, hop.addLine self "")
      /\ hop.output (hop.addLine self "") = hop.output self ++ newline).
Proof.
  repeat split.
  intros prefs self line Hblank.
  apply export_parseLine_no_word. now apply split_blank.
Qed.

(** C8 (amended).  Truncation keeps the tokens of a motion line, the
    tokens being the fields between single spaces: when the six
    truncations return [line'], [parseLine] writes [line'], which has as
    many tokens as the line, in the same order, and a token differs from
    the one it replaces only where that one holds one of the letters X,
    Y, Z, I, J, R (the rounding helper being assumed to write numbers
    without blanks).  On a line whose only blanks are spaces the tokens
    are the words of [line.split()] as well; a tab between a letter and
    its number is dropped with the number's blanks and joins two words.
    On a well-formed line, each token free of parameter letters after its
    first character and no two tokens headed by the same letter, the
    result is exact: every token headed by X, Y, Z, I, J or R has the
    text after the letter replaced by its value rounded to
    [decimalPlacesExported] digits, every other token is left as it is
    (the rounding helper being assumed to write none of the six letters
    either).  Of two tokens headed by the same letter only the first is
    rounded.  With the reference rounding and two places, the line
    [G1 X1.23456 Y-0.00001 Z0.4 F600] is written as
    [G1 X1.23 Y-0.0 Z0.4 F600]. *)
Theorem export_truncation_keeps_tokens :
  (forall (imports : Imports),
      (forall places number,
          blankFree (getRoundedToDecimalPlacesString places number) = true) ->
      forall prefs self line firstWord rest line',
        split line = firstWord :: rest ->
        export.isMotion firstWord = true ->
        export.truncateAll self line = OK line' ->
        export.parseLine prefs self line = OK (export.addLine self line')
        /\ Forall2 retouched (split_on " " line) (split_on " " line')
        /\ List.length (split_on " " line') = List.length (split_on " " line)
        /\ (onlySpaces line = true ->
            Forall2 retouched (split line) (split line')
            /\ List.length (split line') = List.length (split line)))
  /\ (forall (imports : Imports) self c pre number post value,
      In c parameterLetters -> position c pre = None ->
      position " "%char number = None ->
      post = "" \/ (exists rest, post = String " " rest) ->
      number <> "" -> py_float number = OK value ->
      export.getLineWithTruncatedNumber self c
        (pre ++ String c (number ++ post))
      = OK (pre ++ String c
              (getRoundedToDecimalPlacesString
                 (export.decimalPlacesExported self) value ++ post)))
  /\ (forall prefs,
      @export.parseLine reference.imports prefs (export.mkExportSkein 2 "")
        "G1 X1.23456 Y-0.00001 Z0.4 F600"
      = OK (export.mkExportSkein 2
              ("G1 X1.23 Y-0.0 Z0.4 F600" ++ newline)))
  /\ (forall (imports : Imports),
      (forall places number,
          blankFree (getRoundedToDecimalPlacesString places number) = true) ->
      (forall places number,
          letterFree (getRoundedToDecimalPlacesString places number) = true) ->
      forall prefs self line firstWord rest tokens',
        split line = firstWord :: rest ->
        export.isMotion firstWord = true ->
        tidy (split_on " " line) = true ->
        truncatedTokens self (split_on " " line) = OK tokens' ->
        export.truncateAll self line = OK (spaced tokens')
        /\ export.parseLine prefs self line
           = OK (export.addLine self (spaced tokens'))
        /\ split_on " " (spaced tokens') = tokens'
        /\ List.length tokens' = List.length (split_on " " line))
  /\ (forall prefs,
      @export.parseLine reference.imports prefs (export.mkExportSkein 2 "")
        "G2 X1.23456 Y-0.00001 Z0.4 I0.12345 J-2.71828 R3.14159 F600"
      = OK (export.mkExportSkein 2
              ("G2 X1.23 Y-0.0 Z0.4 I0.12 J-2.72 R3.14 F600" ++ newline)))
  /\ @export.truncateAll reference.imports (export.mkExportSkein 2 "")
       "G1 X1.23456 X2.34567"
     = OK "G1 X1.23 X2.34567".
Proof.
  split; [| split; [| split; [| split; [| split]]]].
  - intros imports Hrounded prefs self line firstWord rest line'
      Hsplit Hmotion Hrun.
    split.
    + rewrite (export_parseLine_motion _ _ _ _ _ Hsplit Hmotion).
      now rewrite Hrun.
    + exact (truncateAll_keeps_tokens Hrounded self line line' Hrun).
  - intros imports self c pre number post value Hc Hpre Hnumber Hpost
      Hne Hvalue.
    assert (Hspace : c <> " "%char).
    { intros ->. destruct (parameterLetter_not_blank " "%char Hc).
      discriminate. }
    rewrite truncated_number_at by assumption.
    destruct (String.eqb_spec number ""); [contradiction |].
    now rewrite Hvalue.
  - intros [activate delete]. destruct delete; vm_compute; reflexivity.
  - intros imports Hblank Hletter prefs self line firstWord rest tokens'
      Hsplit Hmotion Htidy Hrun.
    destruct (truncateAll_tokens Hblank Hletter self (split_on " " line)
                tokens' Htidy Hrun) as (Hall & Htidy' & Hlen).
    rewrite spaced_fields in Hall.
    split; [exact Hall |]. split; [| split; [| exact Hlen]].
    + rewrite (export_parseLine_motion _ _ _ _ _ Hsplit Hmotion).
      now rewrite Hall.
    + apply fields_spaced.
      * intros ->. cbn [List.length] in Hlen.
        pose proof (PyFacts.fields_nonempty (Ascii.eqb " ") line) as Hne.
        unfold split_on in Hlen.
        destruct (fields (Ascii.eqb " ") line); [contradiction | discriminate].
      * eapply Forall_impl; [| exact Htidy'].
        intros token. apply tidyToken_space_free.
  - intros [activate delete]. destruct delete; vm_compute; reflexivity.
  - vm_compute. reflexivity.
Qed.

(** ** Concrete runs: witnesses and counterexamples *)

Lemma marked_text_returned_unchanged_witness :
  (@isProcedureDone reference.imports runs.marked "hop" = true
   /\ runs.hopped runs.marked = OK runs.marked)
  /\ (@isProcedureDone reference.imports runs.marked "export" = true
      /\ runs.exported runs.deleting runs.marked = OK runs.marked)
  /\ returns (@export.parseGcode reference.imports runs.deleting export.init
                runs.marked) = false.
Proof.
  pose proof (marked_text_returned_unchanged reference.imports
                runs.hopPreferences runs.deleting runs.marked None None)
    as [Hhop Hexport].
  split; [split; [vm_compute; reflexivity |] |].
  - apply Hhop. vm_compute. reflexivity.
  - split; [split; [vm_compute; reflexivity |] | vm_compute; reflexivity].
    apply Hexport. vm_compute. reflexivity.
Defined.

Lemma export_comment_line_witness :
  split "(<layer> 0.4 )" = ["(<layer>"; "0.4"; ")"]
  /\ @export.parseLine reference.imports runs.deleting export.init
       "(<layer> 0.4 )" = OK export.init.
Proof.
  split; [vm_compute; reflexivity |].
  apply (proj1 (proj1 (@export_comment_line reference.imports runs.deleting
                         export.init "(<layer> 0.4 )" "<layer>"
                         ["0.4"; ")"] eq_refl) eq_refl)).
  discriminate.
Defined.

(** With deleteComments on, the line [(</extruderInitialization>)] leaves
    the output empty: no procedure-done marker is written. *)
Lemma export_comment_marker_counterexample :
  export.deleteComments runs.deleting = true
  /\ @export.parseLine reference.imports runs.deleting export.init
       "(</extruderInitialization>)" = OK export.init
  /\ export.output export.init = ""
  /\ export.output export.init <> export.procedureDoneLine ++ newline.
Proof. repeat split. discriminate. Qed.

Lemma export_unparseable_number_raises_witness :
  @py_float reference.imports "abc" = Raise ValueError
  /\ @export.getLineWithTruncatedNumber reference.imports export.init "X"
       ("G1 " ++ String "X" ("abc" ++ " Y1"))
     = Raise ValueError
  /\ copiedByExport runs.keeping "G92 Xabc" = true
  /\ @export.parseLine reference.imports runs.keeping export.init "G92 Xabc"
     = OK (export.mkExportSkein 2 ("G92 Xabc" ++ newline)).
Proof.
  split; [reflexivity |]. split.
  - apply (proj1 (@export_unparseable_number_raises reference.imports)).
    + discriminate.
    + reflexivity.
    + reflexivity.
    + right. now exists "Y1".
    + discriminate.
    + reflexivity.
  - split; [reflexivity |].
    apply (@export_unparseable_number_raises reference.imports).
    reflexivity.
Defined.

(** A number [float] cannot parse aborts the export stage: no text is
    returned, the line is not passed through. *)
Lemma export_unparseable_number_counterexample :
  runs.exported runs.keeping "G1 Xabc Y1" = Raise ValueError
  /\ runs.exported runs.keeping "G1 Xabc Y1" <> OK ("G1 Xabc Y1" ++ newline)
  /\ @export.parseLine reference.imports runs.keeping export.init
       "G1 Xabc Y1" = Raise ValueError.
Proof. repeat split. discriminate. Qed.

Lemma export_truncation_keeps_tokens_witness :
  split "G1 X1.23456 Y-0.00001 Z0.4 F600"
  = ["G1"; "X1.23456"; "Y-0.00001"; "Z0.4"; "F600"]
  /\ @export.truncateAll reference.imports export.init
       "G1 X1.23456 Y-0.00001 Z0.4 F600"
     = OK "G1 X1.23 Y-0.0 Z0.4 F600"
  /\ List.length (split "G1 X1.23 Y-0.0 Z0.4 F600")
     = List.length (split "G1 X1.23456 Y-0.00001 Z0.4 F600")
  /\ tidy (split_on " "
             "G2 X1.23456 Y-0.00001 Z0.4 I0.12345 J-2.71828 R3.14159 F600")
     = true
  /\ @export.truncateAll reference.imports export.init
       "G2 X1.23456 Y-0.00001 Z0.4 I0.12345 J-2.71828 R3.14159 F600"
     = OK (spaced ["G2"; "X1.23"; "Y-0.0"; "Z0.4"; "I0.12"; "J-2.72";
                   "R3.14"; "F600"]).
Proof.
  split; [vm_compute; reflexivity |]. split; [vm_compute; reflexivity |].
  split.
  - apply (proj1 export_truncation_keeps_tokens reference.imports
             referenceFacts.rounded_blank_free runs.keeping export.init
             "G1 X1.23456 Y-0.00001 Z0.4 F600" "G1"
             ["X1.23456"; "Y-0.00001"; "Z0.4"; "F600"]
             "G1 X1.23 Y-0.0 Z0.4 F600");
      vm_compute; reflexivity.
  - split; [vm_compute; reflexivity |].
    apply (proj1 (proj2 (proj2 (proj2 export_truncation_keeps_tokens)))
             reference.imports referenceFacts.rounded_blank_free
             referenceFacts.rounded_letter_free runs.keeping export.init
             "G2 X1.23456 Y-0.00001 Z0.4 I0.12345 J-2.71828 R3.14159 F600"
             "G2"
             ["X1.23456"; "Y-0.00001"; "Z0.4"; "I0.12345"; "J-2.71828";
              "R3.14159"; "F600"]);
      vm_compute; reflexivity.
Defined.

(** A tab between the letter and its number: [line.split()] reads three
    words, [float] drops the tab with the number's blanks, and the line
    written has two words. *)
Lemma export_truncation_counterexample :
  split ("G1 X" ++ String "009" "1.5") = ["G1"; "X"; "1.5"]
  /\ List.length (split ("G1 X" ++ String "009" "1.5")) = 3%nat
  /\ @export.truncateAll reference.imports export.init
       ("G1 X" ++ String "009" "1.5")
     = OK "G1 X1.5"
  /\ @export.parseLine reference.imports runs.keeping export.init
       ("G1 X" ++ String "009" "1.5")
     = OK (export.mkExportSkein 2 ("G1 X1.5" ++ newline))
  /\ split "G1 X1.5" = ["G1"; "X1.5"]
  /\ List.length (split "G1 X1.5") = 2%nat.
Proof. repeat split. Qed.

Lemma hop_active_line_unchanged_witness :
  hop.extruderActive hopRuns.extruding = true
  /\ @hop.getHopLine reference.imports hopRuns.extruding "G1 X1 Y2 Z3 F600"
     = OK ("G1 X1 Y2 Z3 F600",
           hop.set_feedrateString "F600" hopRuns.extruding).
Proof.
  split; [reflexivity |].
  exact (proj1 (@hop_active_line_unchanged reference.imports
                  referenceFacts.index_in_line hopRuns.extruding
                  "G1 X1 Y2 Z3 F600" eq_refl)).
Defined.

Lemma hop_no_travel_ahead_no_hop_witness :
  hop.extruderActive hopRuns.beforeActivation = false
  /\ skipn 1 (hop.lines hopRuns.beforeActivation) = ([] ++ ["M101"])%list
  /\ endsOrActivates ["M101"]
  /\ hop.isNextTravel hopRuns.beforeActivation = false
  /\ exists self',
      @hop.parseLine reference.imports hopRuns.beforeActivation
        "G1 X10 Y0 Z0" = OK self'
      /\ hop.output self' = "G1 X10 Y0 Z0" ++ newline.
Proof.
  assert (Hends : endsOrActivates ["M101"]) by reflexivity.
  destruct (@hop_no_travel_ahead_no_hop reference.imports
              referenceFacts.index_in_line hopRuns.beforeActivation
              "G1 X10 Y0 Z0" [] ["M101"] eq_refl eq_refl
              (Forall_nil _) Hends) as (Hscan & _ & Hplain & _).
  repeat split; try assumption.
  exact (proj2 (Hplain eq_refl ["X10"; "Y0"; "Z0"] (mkVec3 10 0 0)
                  eq_refl eq_refl)).
Defined.

(** The only move before the end, read right after [M103] with the
    extruder off: no linear move follows, and yet two lines raised by 0.4
    are written in front of the move. *)
Lemma hop_no_travel_ahead_counterexample :
  hop.extruderActive hopRuns.rampStart = false
  /\ skipn (hop.lineIndex hopRuns.rampStart + 1)
       (hop.lines hopRuns.rampStart) = []
  /\ hop.isNextTravel hopRuns.rampStart = false
  /\ exists self',
      @hop.parseLine reference.imports hopRuns.rampStart "G1 X10 Y0 Z0"
      = OK self'
      /\ hop.output self'
         = runs.joined ["G1 X8.5 Y0.0 Z0.4 F600"; "G1 X9.5 Y0.0 Z0.4 F600";
                        "G1 X10 Y0 Z0"] ++ newline.
Proof.
  do 3 (split; [vm_compute; reflexivity |]).
  eexists. split; vm_compute; reflexivity.
Qed.

Lemma hop_travel_line_elevated_witness :
  hop.extruderActive hopRuns.travelling = false
  /\ hop.isNextTravel hopRuns.travelling = true
  /\ @getLocationFromSplitLine reference.imports None
       ["G1"; "X10"; "Y0"; "Z0"; "F600"] = OK (mkVec3 10 0 0)
  /\ @hop.getHopLine reference.imports hopRuns.travelling
       "G1 X10 Y0 Z0 F600"
     = OK ("G1 X10.0 Y0.0 Z0.4 F600",
           hop.set_feedrateString "F600" hopRuns.travelling).
Proof.
  do 3 (split; [vm_compute; reflexivity |]).
  pose proof (proj1 (@hop_travel_line_elevated reference.imports
                       referenceFacts.index_in_line hopRuns.travelling
                       "G1 X10 Y0 Z0 F600" ["X10"; "Y0"; "Z0"; "F600"]
                       (mkVec3 10 0 0) eq_refl
                       ltac:(vm_compute; reflexivity) eq_refl
                       ltac:(vm_compute; reflexivity))) as H.
  vm_compute in H. vm_compute. exact H.
Defined.

(** A move read while inactive and not just deactivated, the last one
    before [M101]: it is written with its own Z, not raised. *)
Lemma hop_travel_line_counterexample :
  hop.extruderActive hopRuns.beforeActivation = false
  /\ hop.justDeactivated hopRuns.beforeActivation = false
  /\ @getLocationFromSplitLine reference.imports None
       ["G1"; "X10"; "Y0"; "Z0"] = OK (mkVec3 10 0 0)
  /\ @hop.getHopLine reference.imports hopRuns.beforeActivation
       "G1 X10 Y0 Z0" = OK ("G1 X10 Y0 Z0", hopRuns.beforeActivation)
  /\ "G1 X10 Y0 Z0"
     <> @elevatedMove reference.imports 3 (mkVec3 10 0 0)
          (hop.layerHopHeight hopRuns.beforeActivation) ""
  /\ runs.hopped (runs.joined ["(<extrusionStart>"; "G1 X10 Y0 Z0"; "M101"])
     = OK (runs.joined ["(<procedureDone> hop )"; "(<extrusionStart>";
                        "G1 X10 Y0 Z0"; "M101"] ++ newline).
Proof.
  repeat split; try (vm_compute; reflexivity).
  vm_compute. discriminate.
Qed.

Lemma hop_ramp_after_deactivation_witness :
  hop.justDeactivated hopRuns.rampStart = true
  /\ hop.isNextTravel hopRuns.rampStart = false
  /\ Vec3Ops.distance (mkVec3 10 0 0) (mkVec3 8 0 0) = 2%float
  /\ hop.layerHopDistance hopRuns.rampStart = 0.5%float
  /\ exists self',
      @hop.parseLine reference.imports hopRuns.rampStart "G1 X10 Y0 Z0"
      = OK self'
      /\ hop.output self'
         = runs.joined ["G1 X8.5 Y0.0 Z0.4 F600"; "G1 X9.5 Y0.0 Z0.4 F600";
                        "G1 X10 Y0 Z0"] ++ newline.
Proof.
  do 4 (split; [vm_compute; reflexivity |]).
  destruct (proj1 (@hop_ramp_after_deactivation reference.imports
                     referenceFacts.index_in_line hopRuns.rampStart
                     "G1 X10 Y0 Z0" ["X10"; "Y0"; "Z0"] (mkVec3 8 0 0)
                     (mkVec3 10 0 0) eq_refl eq_refl
                     ltac:(vm_compute; reflexivity) eq_refl eq_refl
                     ltac:(vm_compute; reflexivity)
                     ltac:(vm_compute; reflexivity)))
    as (self' & Hrun & Hout & _).
  exists self'. split; [exact Hrun |]. rewrite Hout. vm_compute. reflexivity.
Defined.

(** A move read right after [M103] that another move follows: one raised
    line is written for it, not the two ramp lines and the line. *)
Lemma hop_ramp_counterexample :
  hop.extruderActive hopRuns.justOff = false
  /\ hop.justDeactivated hopRuns.justOff = true
  /\ hop.oldLocation hopRuns.justOff = Some (mkVec3 8 0 0)
  /\ @getLocationFromSplitLine reference.imports (Some (mkVec3 8 0 0))
       ["G1"; "X10"; "Y0"; "Z0"] = OK (mkVec3 10 0 0)
  /\ (exists self',
         @hop.parseLine reference.imports hopRuns.justOff "G1 X10 Y0 Z0"
         = OK self'
         /\ hop.output self' = "G1 X10.0 Y0.0 Z0.4" ++ newline
         /\ hop.justDeactivated self' = false)
  /\ runs.hopped
       (runs.joined ["(<extrusionStart>"; "M101"; "G1 X8 Y0 Z0"; "M103";
                     "G1 X10 Y0 Z0"; "G1 X12 Y0 Z0"; "M101"])
     = OK (runs.joined ["(<procedureDone> hop )"; "(<extrusionStart>";
                        "M101"; "G1 X8 Y0 Z0"; "M103"; "G1 X10.0 Y0.0 Z0.4";
                        "G1 X12 Y0 Z0"; "M101"] ++ newline).
Proof.
  repeat split; try (vm_compute; reflexivity).
  eexists. repeat split; vm_compute; reflexivity.
Qed.

Lemma hop_without_extrusionStart_witness :
  @getTextLines reference.imports (runs.joined ["M101"; "G1 X1 Y2 Z3 F600"])
  = (["M101"] ++ ["G1 X1 Y2 Z3 F600"])%list
  /\ exists self',
      @hop.parseGcode reference.imports hop.init
        (runs.joined ["M101"; "G1 X1 Y2 Z3 F600"]) runs.hopPreferences
      = OK self'
      /\ hop.output self'
         = runs.joined ["M101"; "G1 X1 Y2 Z3 F600"; "G1 X1 Y2 Z3 F600"]
           ++ newline.
Proof.
  split; [vm_compute; reflexivity |].
  destruct (@hop_without_extrusionStart reference.imports
              referenceFacts.index_in_line runs.hopPreferences
              (runs.joined ["M101"; "G1 X1 Y2 Z3 F600"]) ["M101"]
              "G1 X1 Y2 Z3 F600")
    as (initialized & self' & _ & _ & _ & Hrun & Hout).
  - vm_compute. reflexivity.
  - repeat constructor; unfold notExtrusionStart; vm_compute; discriminate.
  - repeat constructor.
  - vm_compute. reflexivity.
  - exists self'. split; [exact Hrun |]. rewrite Hout. vm_compute.
    reflexivity.
Defined.

(** A text without [(<extrusionStart>] whose last line is empty: that
    line stands once in the output, not twice. *)
Lemma hop_without_extrusionStart_counterexample :
  @getTextLines reference.imports (runs.joined ["M103"; ""]) = ["M103"; ""]
  /\ runs.hopped (runs.joined ["M103"; ""])
     = OK (unlines ["M103"; ""])
  /\ runs.hopped (runs.joined ["M103"; ""])
     <> OK (unlines ["M103"; ""] ++ "" ++ newline).
Proof.
  repeat split; try (vm_compute; reflexivity).
  vm_compute. discriminate.
Qed.

Lemma blank_lines_dropped_witness :
  all_chars isspace "  " = true
  /\ @export.parseLine reference.imports runs.keeping export.init "  "
     = OK export.init
  /\ @hop.parseLine reference.imports hopRuns.extruding "" 
     = OK hopRuns.extruding.
Proof.
  pose proof (blank_lines_dropped reference.imports) as (Hexport & Hhop & _).
  split; [reflexivity |]. split; [now apply Hexport | apply Hhop].
Defined.

(** An empty line before [(<extrusionStart>] is copied to the output by
    the hop stage; only the empty line after it is dropped. *)
Lemma hop_blank_line_counterexample :
  @getTextLines reference.imports
    (runs.joined [""; "(<extrusionStart>"; ""; "M103"])
  = [""; "(<extrusionStart>"; ""; "M103"]
  /\ runs.hopped (runs.joined [""; "(<extrusionStart>"; ""; "M103"])
     = OK (unlines [""; "(<procedureDone> hop )"; "(<extrusionStart>";
                    "M103"])
  /\ runs.hopped (runs.joined [""; "(<extrusionStart>"; ""; "M103"])
     <> OK (unlines ["(<procedureDone> hop )"; "(<extrusionStart>";
                     "M103"]).
Proof.
  repeat split; try (vm_compute; reflexivity).
  vm_compute. discriminate.
Qed.

(** * Further properties *)

(** ** The export skein *)

Section MoreExport.

Context {imports : Imports}.

Import PyFacts.

(** Closes a goal about the lines written when there are none. *)
Ltac nothing_written :=
  exists []; cbn [unlines List.length]; rewrite append_empty_r;
  repeat split; [constructor | lia].

Lemma export_addLine_places (self : export.ExportSkein) (line : string) :
  export.decimalPlacesExported (export.addLine self line)
  = export.decimalPlacesExported self.
Proof. unfold export.addLine. now destruct (line =? "")%string. Qed.

Lemma export_addLine_output (self : export.ExportSkein) (line : string) :
  export.output (export.addLine self line)
  = export.output self
    ++ (if (line =? "")%string then "" else line ++ newline).
Proof.
  unfold export.addLine. destruct (line =? "")%string; cbn [export.output];
    [now rewrite append_empty_r | reflexivity].
Qed.

Lemma motion_first_visible (line firstWord : string) (rest : list string) :
  split line = firstWord :: rest -> export.isMotion firstWord = true ->
  firstVisible line = Some "G"%char.
Proof.
  intros Hsplit Hmotion.
  destruct (first_char_visible _ _ _ Hsplit) as (c & Hc & Hvisible).
  destruct (isMotion_cases _ Hmotion) as [-> | [-> | ->]];
    injection Hc as <-; exact Hvisible.
Qed.

(** A line keeps its first visible character when what follows a later,
    visible character is exchanged. *)
Lemma firstVisible_kept (c g : ascii) (pre tail tail' : string) :
  isspace c = false -> g <> c ->
  firstVisible (pre ++ String c tail) = Some g ->
  firstVisible (pre ++ String c tail') = Some g.
Proof.
  intros Hc Hg. induction pre as [|d pre IH]; cbn [append firstVisible].
  - rewrite Hc. intros H. injection H as ->. contradiction.
  - destruct (isspace d); [exact IH | trivial].
Qed.

Lemma truncation_keeps_first_visible (self : export.ExportSkein)
    (c g : ascii) (line line' : string) :
  In c parameterLetters -> g <> c ->
  export.getLineWithTruncatedNumber self c line = OK line' ->
  firstVisible line = Some g -> firstVisible line' = Some g.
Proof.
  intros Hc Hg Hrun Hvisible.
  destruct (parameterLetter_not_blank c Hc) as [Hblank Hsep].
  assert (Hne : c <> " "%char) by (intros ->; discriminate).
  destruct (position c line) as [k|] eqn:Hk.
  - destruct (position_split _ _ _ Hk) as (pre & tail & -> & Hpre & _).
    destruct (space_split tail) as (number & post & -> & Hnumber & Hpost).
    rewrite (truncated_number_at self c pre number post Hne Hpre Hnumber Hpost)
      in Hrun.
    destruct (number =? "")%string; [now injection Hrun as <- |].
    destruct (py_float number) as [value|]; [| discriminate].
    cbn [bind] in Hrun. injection Hrun as <-.
    eapply firstVisible_kept; eassumption.
  - unfold export.getLineWithTruncatedNumber in Hrun.
    rewrite (find_absent _ _ Hk) in Hrun. now injection Hrun as <-.
Qed.

Lemma truncateAll_keeps_command (self : export.ExportSkein)
    (line line' : string) :
  export.truncateAll self line = OK line' ->
  firstVisible line = Some "G"%char -> firstVisible line' = Some "G"%char.
Proof.
  unfold export.truncateAll. intros H Hvisible.
  repeat match type of H with
         | bind (export.getLineWithTruncatedNumber ?s ?c ?l) _ = OK _ =>
             let l1 := fresh "l" in
             let E := fresh "E" in
             destruct (export.getLineWithTruncatedNumber s c l) as [l1|] eqn:E;
             [| discriminate]; cbn [bind] in H;
             apply truncation_keeps_first_visible with (g := "G"%char) in E;
             [| cbn; tauto | discriminate | assumption]
         end.
  eapply truncation_keeps_first_visible with (g := "G"%char) in H;
    [exact H | cbn; tauto | discriminate | assumption].
Qed.

(** What one line adds to the output when comments are deleted: nothing,
    or one line that is no comment. *)
Lemma export_parseLine_written (prefs : export.ExportPreferences)
    (self self' : export.ExportSkein) (line : string) :
  export.deleteComments prefs = true ->
  export.parseLine prefs self line = OK self' ->
  exists written,
    export.output self' = export.output self ++ unlines written
    /\ Forall (fun l => isComment l = false) written
    /\ (List.length written <= 1)%nat.
Proof.
  intros Hdelete Hrun.
  destruct (split line) as [|firstWord rest] eqn:Hsplit.
  - rewrite (export_parseLine_no_word _ _ _ Hsplit) in Hrun.
    injection Hrun as <-. nothing_written.
  - unfold export.parseLine in Hrun.
    rewrite Hsplit, at_least_one_word in Hrun.
    cbn [item nth_error bind] in Hrun.
    destruct (first_char_visible _ _ _ Hsplit) as (c & Hc & Hvisible).
    set (carried := if (firstWord =? "(<decimalPlacesCarried>")%string
                    then _ else _) in Hrun.
    assert (Hcarried : forall s, carried = OK s ->
                                 export.output s = export.output self).
    { intros s. unfold carried.
      destruct (firstWord =? "(<decimalPlacesCarried>")%string.
      - destruct (item (firstWord :: rest) 1) as [word|]; cbn [bind];
          [| discriminate].
        destruct (py_int word); cbn [bind]; [| discriminate].
        intros H. now injection H as <-.
      - intros H. now injection H as <-. }
    destruct carried as [self1|]; [| discriminate]. cbn [bind] in Hrun.
    specialize (Hcarried self1 eq_refl).
    rewrite Hc, Hdelete in Hrun. cbn [bind] in Hrun.
    destruct (Ascii.eqb c "(") eqn:Hparen; cbn [andb] in Hrun.
    + injection Hrun as <-. rewrite Hcarried. nothing_written.
    + assert (Hnomark : (firstWord =? "(</extruderInitialization>)")%string
                        = false).
      { apply String.eqb_neq. intros ->. injection Hc as <-. discriminate. }
      rewrite Hnomark in Hrun.
      assert (Hplain : isComment line = false).
      { unfold isComment. now rewrite Hvisible. }
      destruct (export.isMotion firstWord) eqn:Hmotion; cbn [negb] in Hrun.
      * destruct (export.truncateAll self1 line) as [line'|] eqn:Htruncate;
          [| discriminate].
        cbn [bind] in Hrun. injection Hrun as <-.
        pose proof (truncateAll_keeps_command _ _ _ Htruncate
                      (motion_first_visible _ _ _ Hsplit Hmotion)) as Hkept.
        exists [line']. rewrite export_addLine_output, Hcarried.
        destruct line' as [|d line']; [discriminate |].
        cbn [String.eqb unlines]. split; [reflexivity |]. split; [| cbn; lia].
        constructor; [| constructor]. unfold isComment. now rewrite Hkept.
      * injection Hrun as <-. exists [line].
        rewrite export_addLine_output, Hcarried,
          (split_empty_line _ _ _ Hsplit).
        cbn [unlines]. split; [reflexivity |]. split; [| cbn; lia].
        constructor; [exact Hplain | constructor].
Qed.

Lemma unlines_app (a b : list string) :
  unlines (a ++ b)%list = unlines a ++ unlines b.
Proof.
  induction a as [|l a IH]; cbn [List.app unlines]; [reflexivity |].
  now rewrite IH, !append_assoc.
Qed.

(** X1.  With deleteComments on, the export skein never writes a comment
    line: whatever the lines, the text it adds to the output is made of
    at most one line per input line, and none of them starts, after
    blanks, with an opening parenthesis (its own procedure-done marker
    included). *)
Theorem export_output_without_comments (prefs : export.ExportPreferences)
    (lines : list string) :
  forall (self self' : export.ExportSkein),
    export.deleteComments prefs = true ->
    export.parseLines prefs self lines = OK self' ->
    exists written,
      export.output self' = export.output self ++ unlines written
      /\ Forall (fun l => isComment l = false) written
      /\ (List.length written <= List.length lines)%nat.
Proof.
  induction lines as [|line lines IH]; intros self self' Hdelete Hrun.
  - injection Hrun as <-. nothing_written.
  - cbn [export.parseLines] in Hrun.
    destruct (export.parseLine prefs self line) as [self1|] eqn:Hline;
      [| discriminate].
    cbn [bind] in Hrun.
    destruct (export_parseLine_written _ _ _ _ Hdelete Hline)
      as (w1 & Hout1 & Hplain1 & Hlen1).
    destruct (IH _ _ Hdelete Hrun) as (w2 & Hout2 & Hplain2 & Hlen2).
    exists (w1 ++ w2)%list. split; [| split].
    + now rewrite Hout2, Hout1, unlines_app, append_assoc.
    + apply Forall_app. now split.
    + rewrite length_app. cbn [List.length]. lia.
Qed.

Lemma export_parseLine_places (prefs : export.ExportPreferences)
    (self self' : export.ExportSkein) (line : string) :
  export.parseLine prefs self line = OK self' ->
  1 <= export.decimalPlacesExported self ->
  1 <= export.decimalPlacesExported self'.
Proof.
  intros Hrun Hplaces.
  destruct (split line) as [|firstWord rest] eqn:Hsplit.
  - rewrite (export_parseLine_no_word _ _ _ Hsplit) in Hrun.
    now injection Hrun as <-.
  - unfold export.parseLine in Hrun.
    rewrite Hsplit, at_least_one_word in Hrun.
    cbn [item nth_error bind] in Hrun.
    set (carried := if (firstWord =? "(<decimalPlacesCarried>")%string
                    then _ else _) in Hrun.
    assert (Hcarried : forall s, carried = OK s ->
                                 1 <= export.decimalPlacesExported s).
    { intros s. unfold carried.
      destruct (firstWord =? "(<decimalPlacesCarried>")%string.
      - destruct (item (firstWord :: rest) 1) as [word|]; cbn [bind];
          [| discriminate].
        destruct (py_int word); cbn [bind]; [| discriminate].
        intros H. injection H as <-. cbn. lia.
      - intros H. now injection H as <-. }
    destruct carried as [self1|]; [| discriminate]. cbn [bind] in Hrun.
    specialize (Hcarried self1 eq_refl).
    destruct (first_char firstWord) as [c|]; [| discriminate].
    cbn [bind] in Hrun.
    destruct (Ascii.eqb c "(" && export.deleteComments prefs);
      [now injection Hrun as <- |].
    destruct (negb (export.isMotion firstWord)).
    + injection Hrun as <-. rewrite !export_addLine_places.
      now destruct (firstWord =? "(</extruderInitialization>)")%string;
        rewrite ?export_addLine_places.
    + destruct (export.truncateAll _ line); [| discriminate].
      cbn [bind] in Hrun. injection Hrun as <-.
      rewrite !export_addLine_places.
      now destruct (firstWord =? "(</extruderInitialization>)")%string;
        rewrite ?export_addLine_places.
Qed.

(** X2.  The number of decimal places the export skein rounds to is
    never below one: whatever count a [(<decimalPlacesCarried>] line
    carries (zero or negative ones included), a run that starts from
    [ExportSkein()] and returns ends with [decimalPlacesExported >= 1]. *)
Theorem export_places_at_least_one (prefs : export.ExportPreferences)
    (text : string) (self' : export.ExportSkein) :
  export.parseGcode prefs export.init text = OK self' ->
  1 <= export.decimalPlacesExported self'.
Proof.
  unfold export.parseGcode.
  assert (Hloop : forall lines self s,
             export.parseLines prefs self lines = OK s ->
             1 <= export.decimalPlacesExported self ->
             1 <= export.decimalPlacesExported s).
  { induction lines as [|line lines IH]; intros self s Hrun Hplaces.
    - now injection Hrun as <-.
    - cbn [export.parseLines] in Hrun.
      destruct (export.parseLine prefs self line) as [self1|] eqn:Hline;
        [| discriminate].
      cbn [bind] in Hrun. eapply IH; [exact Hrun |].
      eapply export_parseLine_places; eassumption. }
  intros Hrun. eapply Hloop; [exact Hrun | cbn; lia].
Qed.

(** X3.  Lines that are neither blank nor motion commands (and, with
    comments kept, comments other than the two the stage acts on) go
    through the export skein byte for byte, the blanks inside and around
    them included: for a list of such lines the skein only appends each
    line and a newline to the output, and leaves the decimal places
    alone. *)
Theorem export_copies_other_lines (prefs : export.ExportPreferences)
    (lines : list string) :
  forall self,
    Forall (fun line => copiedByExport prefs line = true) lines ->
    export.parseLines prefs self lines
    = OK (export.mkExportSkein (export.decimalPlacesExported self)
            (export.output self ++ unlines lines)).
Proof.
  induction lines as [|line lines IH]; intros self Hcopied.
  - cbn. rewrite append_empty_r. now destruct self.
  - inversion Hcopied as [|l ls Hline Hrest]; subst.
    cbn [export.parseLines]. rewrite (export_parseLine_copied _ _ _ Hline).
    cbn [bind]. rewrite (IH _ Hrest).
    cbn [export.decimalPlacesExported export.output unlines].
    now rewrite !append_assoc.
Qed.

End MoreExport.

(** ** The replacement table and the distances *)

Section MoreExportText.

Context {imports : Imports} {outside : Outside}.

Import PyFacts.

Lemma replace_absent (s old new : string) :
  contains old s = false -> replace s old new = s.
Proof.
  unfold replace. destruct old as [|a old].
  - now destruct s.
  - cbn [String.eqb]. induction s as [|c s IH]; [reflexivity |].
    cbn [contains replace_from]. intros H.
    apply orb_false_iff in H as [Hstart Hrest].
    rewrite Hstart. now rewrite (IH Hrest).
Qed.

Lemma getReplacedLoop_idle (lines : list string) (text : string) :
  Forall (fun line => rowIdle text line = true) lines ->
  export.getReplacedLoop lines text = text.
Proof.
  induction lines as [|line lines IH]; intros Hidle; [reflexivity |].
  inversion Hidle as [|l ls Hline Hrest]; subst.
  cbn [export.getReplacedLoop]. fold (rowWords line).
  unfold rowIdle in Hline.
  destruct (1 <? Z.of_nat (List.length (rowWords line))).
  - cbn [negb orb] in Hline. apply negb_true_iff in Hline.
    rewrite (replace_absent _ _ _ Hline). now apply IH.
  - now apply IH.
Qed.

(** X4.  The replacement pass leaves alone a text that none of its rows
    speaks of: when every row of the table has fewer than two words or a
    first word that does not occur in the text, [getReplaced] returns
    the text as it is (an empty table file included). *)
Theorem export_getReplaced_idle (text : string) :
  Forall (fun line => rowIdle text line = true) (getTextLines replaceText) ->
  export.getReplaced text = text.
Proof.
  intros Hidle. unfold export.getReplaced.
  destruct (replaceText =? "")%string; [reflexivity |].
  now apply getReplacedLoop_idle.
Qed.

Lemma replace_char_again (s : string) (a b : ascii) :
  replace_char (replace_char s a b) a b = replace_char s a b.
Proof.
  induction s as [|c s IH]; cbn [replace_char]; [reflexivity |].
  rewrite IH. f_equal.
  destruct (Ascii.eqb c a) eqn:Hc; [| now rewrite Hc].
  now destruct (Ascii.eqb b a).
Qed.

Lemma replace_char_swap (s : string) (a b target : ascii) :
  a <> target -> b <> target ->
  replace_char (replace_char s a target) b target
  = replace_char (replace_char s b target) a target.
Proof.
  intros Ha Hb. induction s as [|c s IH]; cbn [replace_char];
    [reflexivity |].
  rewrite IH. f_equal.
  destruct (Ascii.eqb_spec c a) as [Hca | Hca];
    destruct (Ascii.eqb_spec c b) as [Hcb | Hcb];
    repeat match goal with
           | |- context [Ascii.eqb ?u ?v] =>
               destruct (Ascii.eqb_spec u v); try congruence
           end.
Qed.

Lemma rowWords_comma (line : string) :
  rowWords (replace_char line "," " ") = rowWords line.
Proof. unfold rowWords. now rewrite replace_char_again. Qed.

Lemma rowWords_tab (line : string) :
  rowWords (replace_char line "009" " ") = rowWords line.
Proof.
  unfold rowWords.
  rewrite (replace_char_swap line "009" "," " ") by discriminate.
  now rewrite replace_char_again.
Qed.

Lemma firstn_two_words (words words' : list string) :
  firstn 2 words = firstn 2 words' ->
  (1 <? Z.of_nat (List.length words)) = (1 <? Z.of_nat (List.length words'))
  /\ ((1 <? Z.of_nat (List.length words)) = true ->
      nth 0 words "" = nth 0 words' "" /\ nth 1 words "" = nth 1 words' "").
Proof.
  destruct words as [|a [|b ws]], words' as [|a' [|b' ws']];
    cbn [firstn]; intros H; try discriminate; split;
    try reflexivity; try discriminate.
  - transitivity true; [| symmetry]; apply Z.ltb_lt; cbn [List.length]; lia.
  - intros _. injection H as -> ->. now split.
Qed.

(** X5.  The replacement table is read through the first two words of
    each row, a comma and a tab separating like a blank: rows that agree
    on their first two words act alike, whatever columns follow, and
    writing a comma or a tab of a row as a space changes nothing. *)
Theorem export_table_rows_by_words :
  (forall lines lines' text,
      Forall2 (fun line line' =>
                 firstn 2 (rowWords line) = firstn 2 (rowWords line'))
        lines lines' ->
      export.getReplacedLoop lines text = export.getReplacedLoop lines' text)
  /\ (forall line,
      rowWords (replace_char line "," " ") = rowWords line
      /\ rowWords (replace_char line "009" " ") = rowWords line).
Proof.
  split.
  - intros lines lines' text Hrows. revert text.
    induction Hrows as [|line line' lines lines' Hrow _ IH]; intros text;
      [reflexivity |].
    cbn [export.getReplacedLoop]. fold (rowWords line) (rowWords line').
    destruct (firstn_two_words _ _ Hrow) as [Hcount Hwords].
    rewrite <- Hcount.
    destruct (1 <? Z.of_nat (List.length (rowWords line))); [| apply IH].
    destruct (Hwords eq_refl) as [-> ->]. apply IH.
  - intros line. split; [apply rowWords_comma | apply rowWords_tab].
Qed.

Lemma then_ret {A B : Type} (a : A) (k : A -> io B) :
  Effects.then_ (ret a) k = k a.
Proof. unfold Effects.then_, ret. cbn. now destruct (k a). Qed.

Lemma then_raise {A B : Type} (e : exn) (k : A -> io B) :
  Effects.then_ (lift (Raise e)) k = ([], Raise e).
Proof. reflexivity. Qed.

Lemma then_ok {A B : Type} (a : A) (k : A -> io B) :
  Effects.then_ (lift (OK a)) k = k a.
Proof. apply then_ret. Qed.

Lemma then_emit {B : Type} (e : event) (k : unit -> io B) :
  Effects.then_ (emit e) k = (e :: fst (k tt), snd (k tt)).
Proof. reflexivity. Qed.

(** The line is a linear move as [getDistanceGcode] reads it. *)
Lemma distance_move_test (line : string) :
  match (if 0 <? Z.of_nat (List.length (split line))
         then Some (nth 0 (split line) "") else None) with
  | Some word => (word =? "G1")%string
  | None => false
  end
  = (nth 0 (split line) "" =? "G1")%string.
Proof.
  destruct (split line) as [|word rest]; [reflexivity |].
  destruct (Z.ltb_spec 0 (Z.of_nat (List.length (word :: rest))));
    [reflexivity | cbn [List.length] in *; lia].
Qed.

Lemma getDistanceLoop_ok (lines : list string) :
  forall oldLocation log,
    export.getDistanceLoop oldLocation lines = (log, OK tt) ->
    List.length log
    = (countMoves lines
       - match oldLocation with Some _ => 0 | None => 1 end)%nat
    /\ Forall (fun e => exists d, e = PrintFloat d) log.
Proof.
  induction lines as [|line lines IH]; intros oldLocation log Hrun.
  - injection Hrun as <-. cbn. split; [now destruct oldLocation | constructor].
  - cbn [export.getDistanceLoop countMoves] in *.
    rewrite distance_move_test in Hrun.
    destruct (nth 0 (split line) "" =? "G1")%string.
    + destruct (getLocationFromSplitLine oldLocation (split line))
        as [location|]; [| discriminate].
      rewrite then_ok in Hrun.
      destruct oldLocation as [old|].
      * rewrite then_emit in Hrun.
        destruct (export.getDistanceLoop (Some location) lines)
          as [log' [[]|]] eqn:Hrest; cbn [fst snd] in Hrun;
          [| discriminate].
        injection Hrun as <-. destruct (IH _ _ Hrest) as [Hcount Hall].
        cbn [List.length]. split; [lia |].
        constructor; [now eexists | assumption].
      * rewrite then_ret in Hrun. destruct (IH _ _ Hrun) as [Hcount Hall].
        split; [| assumption]. lia.
    + destruct (IH _ _ Hrun) as [Hcount Hall]. split; [| assumption]. lia.
Qed.

Lemma getDistanceLoop_returns (lines : list string) :
  (forall line oldLocation,
      In line lines -> nth 0 (split line) "" = "G1" ->
      returns (getLocationFromSplitLine oldLocation (split line)) = true) ->
  forall oldLocation,
    snd (export.getDistanceLoop oldLocation lines) = OK tt.
Proof.
  induction lines as [|line lines IH]; intros Hparse oldLocation;
    [reflexivity |].
  cbn [export.getDistanceLoop]. rewrite distance_move_test.
  assert (Hrest : forall l o, In l lines -> nth 0 (split l) "" = "G1" ->
                    returns (getLocationFromSplitLine o (split l)) = true).
  { intros l o Hin. apply Hparse. now right. }
  destruct (String.eqb_spec (nth 0 (split line) "") "G1") as [Hmove | _];
    [| now apply IH].
  specialize (Hparse line oldLocation (or_introl eq_refl) Hmove).
  destruct (getLocationFromSplitLine oldLocation (split line))
    as [location|]; [| discriminate].
  rewrite then_ok. destruct oldLocation as [old|].
  - rewrite then_emit. cbn [snd]. now apply IH.
  - rewrite then_ret. now apply IH.
Qed.

(** X6.  [getDistanceGcode] never changes the text: when every linear
    move of the text parses it returns the text it was given, having
    printed one distance per linear move after the first (none for a
    text with a single move or none) and nothing else; and whenever it
    returns at all, it returns that text. *)
Theorem export_getDistanceGcode_prints (exportText : string) :
  (forall line oldLocation,
      In line (getTextLines exportText) -> nth 0 (split line) "" = "G1" ->
      returns (getLocationFromSplitLine oldLocation (split line)) = true) ->
  snd (export.getDistanceGcode exportText) = OK exportText
  /\ List.length (fst (export.getDistanceGcode exportText))
     = (countMoves (getTextLines exportText) - 1)%nat
  /\ Forall (fun e => exists d, e = PrintFloat d)
       (fst (export.getDistanceGcode exportText)).
Proof.
  intros Hparse. unfold export.getDistanceGcode.
  pose proof (getDistanceLoop_returns _ Hparse None) as Hreturns.
  destruct (export.getDistanceLoop None (getTextLines exportText))
    as [log outcome] eqn:Hloop.
  cbn [snd] in Hreturns. subst outcome.
  destruct (getDistanceLoop_ok _ _ _ Hloop) as [Hcount Hall].
  unfold Effects.then_. cbn [fst snd ret]. rewrite app_nil_r.
  repeat split; assumption.
Qed.

End MoreExportText.

(** ** Writing the files *)

Section MoreFiles.

Context {imports : Imports} {outside : Outside}.

Import PyFacts.

Lemma last_position_absent (c : ascii) (s : string) :
  position c s = None -> last_position c s = None.
Proof.
  induction s as [|d s IH]; cbn [position last_position]; [reflexivity |].
  destruct (Ascii.eqb d c); [discriminate |].
  destruct (position c s); [discriminate |]. intros _. now rewrite IH.
Qed.

Lemma last_position_after (c : ascii) (stem ext : string) :
  position c ext = None ->
  last_position c (stem ++ String c ext) = Some (String.length stem).
Proof.
  intros Hext. induction stem as [|d stem IH]; cbn [append last_position].
  - now rewrite (last_position_absent _ _ Hext), Ascii.eqb_refl.
  - now rewrite IH.
Qed.

(** The name up to its last dot. *)
Lemma name_before_last_dot (stem ext : string) :
  position "."%char ext = None ->
  slice_to (stem ++ String "." ext) (rfind (stem ++ String "." ext) ".")
  = stem.
Proof.
  intros Hext. unfold rfind, slice_to.
  rewrite (last_position_after _ _ _ Hext), bound_inside.
  - apply take_length_append.
  - rewrite length_append. lia.
Qed.

(** A name without a dot, cut one character short. *)
Lemma name_without_dot (name : string) :
  position "."%char name = None ->
  slice_to name (rfind name ".") = take (String.length name - 1) name.
Proof.
  intros Hname. unfold rfind, slice_to.
  rewrite (last_position_absent _ _ Hname). f_equal.
  unfold bound, len. cbn [Z.ltb Z.compare]. lia.
Qed.

Lemma dotted_name_not_empty (stem ext : string) :
  (stem ++ String "." ext =? "")%string = false.
Proof. now destruct stem. Qed.

Section HopFiles.

Variable stored : hop.HopPreferences.

Lemma hop_writeNamed_written (filename hopGcode : string) :
  (getFileText filename =? "")%string = false ->
  hop.getHopChainGcode stored (getFileText filename) (Some stored)
  = OK hopGcode ->
  hop.writeNamed stored filename
  = ([Print ("File " ++ getSummarizedFilename filename
             ++ " is being chain hopped.");
      WriteFile (slice_to filename (rfind filename ".") ++ "_hop.gcode")
        hopGcode;
      Print ("The hopped file is saved as "
             ++ getSummarizedFilename
                  (slice_to filename (rfind filename ".") ++ "_hop.gcode"));
      Analyze (slice_to filename (rfind filename ".") ++ "_hop.gcode")
        hopGcode;
      Print ("It took " ++ elapsedSeconds ++ " seconds to hop the file.")],
     OK tt).
Proof.
  intros Htext Hchain. unfold hop.writeNamed. rewrite Htext, Hchain.
  reflexivity.
Qed.

(** X7.  For a file whose name has an extension, [writeOutput] of the
    hop stage, when the chain returns a text, writes that text once, to
    the name with everything from its last dot on replaced by
    [_hop.gcode], then hands the same name and text to the analysis; it
    prints before, between and after, and does nothing else. *)
Theorem hop_writeOutput_writes (stem ext hopGcode : string) :
  position "."%char ext = None ->
  (getFileText (stem ++ String "." ext) =? "")%string = false ->
  hop.getHopChainGcode stored (getFileText (stem ++ String "." ext))
    (Some stored) = OK hopGcode ->
  hop.writeOutput stored (stem ++ String "." ext)
  = ([Print ("File " ++ getSummarizedFilename (stem ++ String "." ext)
             ++ " is being chain hopped.");
      WriteFile (stem ++ "_hop.gcode") hopGcode;
      Print ("The hopped file is saved as "
             ++ getSummarizedFilename (stem ++ "_hop.gcode"));
      Analyze (stem ++ "_hop.gcode") hopGcode;
      Print ("It took " ++ elapsedSeconds ++ " seconds to hop the file.")],
     OK tt).
Proof.
  intros Hext Htext Hchain. unfold hop.writeOutput.
  rewrite dotted_name_not_empty.
  rewrite (hop_writeNamed_written _ _ Htext Hchain).
  now rewrite (name_before_last_dot _ _ Hext).
Qed.

(** X8.  A file name without a dot loses its last character: the hop
    stage then writes to the name cut one character short, followed by
    [_hop.gcode] ([rfind] answers [-1], which the slice reads from the
    end). *)
Theorem hop_writeOutput_name_without_dot (filename hopGcode : string) :
  position "."%char filename = None ->
  filename <> "" ->
  (getFileText filename =? "")%string = false ->
  hop.getHopChainGcode stored (getFileText filename) (Some stored)
  = OK hopGcode ->
  map writtenFile (fst (hop.writeOutput stored filename))
  = [None;
     Some (take (String.length filename - 1) filename ++ "_hop.gcode");
     None; None; None].
Proof.
  intros Hname Hne Htext Hchain. unfold hop.writeOutput.
  destruct (String.eqb_spec filename ""); [contradiction |].
  rewrite (hop_writeNamed_written _ _ Htext Hchain).
  now rewrite (name_without_dot _ Hname).
Qed.

(** X9.  When there is nothing to hop, the hop stage writes no file: a
    call without a name in a folder without gcode files prints one
    message; a file with no text gets the announcement and no more; and
    when the chain raises, the announcement is all that was printed and
    the exception goes on to the caller. *)
Theorem hop_writeOutput_nothing_written :
  (getGNUGcode = [] ->
   hop.writeOutput stored ""
   = ([Print "There are no unmodified gcode files in this folder."], OK tt))
  /\ (forall filename,
      filename <> "" -> getFileText filename = "" ->
      hop.writeOutput stored filename
      = ([Print ("File " ++ getSummarizedFilename filename
                 ++ " is being chain hopped.")], OK tt))
  /\ (forall filename e,
      filename <> "" -> getFileText filename <> "" ->
      hop.getHopChainGcode stored (getFileText filename) (Some stored)
      = Raise e ->
      hop.writeOutput stored filename
      = ([Print ("File " ++ getSummarizedFilename filename
                 ++ " is being chain hopped.")], Raise e)).
Proof.
  split; [| split].
  - intros Hfolder. unfold hop.writeOutput. now rewrite Hfolder.
  - intros filename Hne Htext. unfold hop.writeOutput, hop.writeNamed.
    destruct (String.eqb_spec filename ""); [contradiction |].
    now rewrite Htext.
  - intros filename e Hne Htext Hchain. unfold hop.writeOutput, hop.writeNamed.
    destruct (String.eqb_spec filename ""); [contradiction |].
    destruct (String.eqb_spec (getFileText filename) ""); [contradiction |].
    now rewrite Hchain.
Qed.

(** X10.  The chain in front of the hop stage: a text without the
    stretch marker is stretched first, and what stretch returns is what
    gets hopped: the chain answers as [getHopGcode] does on the stretched
    text.  So an empty text comes back empty, an exception of stretch is
    passed on, a text that already holds the hop marker is returned as
    stretch gave it, and any other text goes through the hop skein when
    hop is activated: the result is the output of [parseGcode] on the
    stretched text.  A text that holds the stretch marker is hopped
    without stretch being asked. *)
Theorem hop_chain_upstream (gcodeText : string)
    (hopPreferences : option hop.HopPreferences) :
  (isProcedureDone gcodeText "stretch" = false ->
   (getStretchChainGcode gcodeText = OK "" ->
    hop.getHopChainGcode stored gcodeText hopPreferences = OK "")
   /\ (forall e, getStretchChainGcode gcodeText = Raise e ->
       hop.getHopChainGcode stored gcodeText hopPreferences = Raise e)
   /\ (forall stretched,
       getStretchChainGcode gcodeText = OK stretched ->
       isProcedureDone stretched "hop" = true ->
       hop.getHopChainGcode stored gcodeText hopPreferences = OK stretched)
   /\ (forall stretched,
       getStretchChainGcode gcodeText = OK stretched ->
       hop.getHopChainGcode stored gcodeText hopPreferences
       = hop.getHopGcode stored stretched hopPreferences)
   /\ (forall stretched,
       getStretchChainGcode gcodeText = OK stretched ->
       stretched <> "" ->
       isProcedureDone stretched "hop" = false ->
       let chosen :=
         match hopPreferences with
         | None => stored
         | Some given => given
         end in
       (hop.activateHop chosen = true ->
        hop.getHopChainGcode stored gcodeText hopPreferences
        = (skein <- hop.parseGcode hop.init stretched chosen ;;
           OK (hop.output skein)))
       /\ (hop.activateHop chosen = false ->
           hop.getHopChainGcode stored gcodeText hopPreferences
           = OK stretched)))
  /\ (isProcedureDone gcodeText "stretch" = true ->
      hop.getHopChainGcode stored gcodeText hopPreferences
      = hop.getHopGcode stored gcodeText hopPreferences).
Proof.
  unfold hop.getHopChainGcode. split.
  - intros Hmarker. rewrite Hmarker. cbn [negb].
    split; [| split; [| split; [| split]]].
    + intros ->. reflexivity.
    + intros e ->. reflexivity.
    + intros stretched -> Hdone. cbn [bind]. unfold hop.getHopGcode.
      destruct (String.eqb_spec stretched "") as [-> | _]; [reflexivity |].
      now rewrite Hdone.
    + intros stretched ->. reflexivity.
    + intros stretched -> Hne Hdone. cbn [bind]. unfold hop.getHopGcode.
      destruct (String.eqb_spec stretched "") as [| _]; [contradiction |].
      rewrite Hdone. split; intros ->; reflexivity.
  - intros Hmarker. now rewrite Hmarker.
Qed.

End HopFiles.

Section ExportFiles.

Variable stored : export.ExportDialog.

Lemma export_getSelectedPlugin_first (before after : list (string * bool))
    (name : string) :
  Forall (fun plugin => snd plugin = false) before ->
  export.getSelectedPluginLoop (before ++ (name, true) :: after)%list
  = getModule name.
Proof.
  induction 1 as [|plugin before Hplugin _ IH]; [reflexivity |].
  cbn [List.app export.getSelectedPluginLoop]. now rewrite Hplugin.
Qed.

(** X11.  [getSelectedPlugin] answers with the module of the first
    selected radio button and looks no further: later buttons are never
    tried, not even when that module cannot be loaded; with no button
    selected there is no plugin. *)
Theorem export_getSelectedPlugin_first_selected :
  (forall dialog before after name,
      export.exportPlugins dialog = (before ++ (name, true) :: after)%list ->
      Forall (fun plugin => snd plugin = false) before ->
      export.getSelectedPlugin dialog = getModule name)
  /\ (forall dialog,
      Forall (fun plugin => snd plugin = false) (export.exportPlugins dialog) ->
      export.getSelectedPlugin dialog = None).
Proof.
  split.
  - intros dialog before after name Hplugins Hbefore.
    unfold export.getSelectedPlugin. rewrite Hplugins.
    now apply export_getSelectedPlugin_first.
  - intros dialog. unfold export.getSelectedPlugin.
    induction 1 as [|plugin plugins Hplugin _ IH]; [reflexivity |].
    cbn [export.getSelectedPluginLoop]. now rewrite Hplugin.
Qed.

(** One step of a run: an event, a returned value or an exception in
    front of the rest. *)
Ltac io_step :=
  first [rewrite then_emit | rewrite then_ok | rewrite then_ret
        | rewrite then_raise];
  cbv beta; cbn [fst snd].



(** X14.  When there is nothing to export the export stage writes no
    export file: without a file name it does nothing (the version file
    apart); with an empty text after unpause it only announces the file;
    and when the export raises, the text was announced and analysed
    under the new name, nothing was written, and the exception goes on
    to the caller. *)
Theorem export_writeOutput_nothing_written :
  (forall fileName,
      getFirstTranslatorFileNameUnmodified fileName = "" ->
      export.writeOutput stored fileName = (versionEvents, OK tt))
  /\ (forall fileName stem ext,
      getFirstTranslatorFileNameUnmodified fileName = stem ++ String "." ext ->
      unpausedText (stem ++ String "." ext) = OK "" ->
      export.writeOutput stored fileName
      = ((versionEvents
          ++ [Print ("File "
                     ++ getSummarizedFilename (stem ++ String "." ext)
                     ++ " is being chain exported.")])%list,
         OK tt))
  /\ (forall fileName stem ext gcodeText e,
      getFirstTranslatorFileNameUnmodified fileName = stem ++ String "." ext ->
      position "."%char ext = None ->
      unpausedText (stem ++ String "." ext) = OK gcodeText ->
      (gcodeText =? "")%string = false ->
      export.getGcode (export.preferences stored) gcodeText
        (Some (export.preferences stored)) = Raise e ->
      export.writeOutput stored fileName
      = ((versionEvents
          ++ [Print ("File "
                     ++ getSummarizedFilename (stem ++ String "." ext)
                     ++ " is being chain exported.");
              Analyze (stem ++ "_export." ++ export.fileExtension stored)
                gcodeText])%list,
         Raise e)).
Proof.
  split; [| split].
  - intros fileName Hname. unfold export.writeOutput, versionEvents.
    rewrite Hname. destruct onAuthorsComputer; repeat io_step; reflexivity.
  - intros fileName stem ext Hname Hunpaused.
    unfold export.writeOutput, versionEvents.
    rewrite Hname, dotted_name_not_empty.
    unfold unpausedText in Hunpaused. rewrite Hunpaused.
    destruct onAuthorsComputer; repeat io_step; reflexivity.
  - intros fileName stem ext gcodeText e Hname Hext Hunpaused Htext Hraise.
    unfold export.writeOutput, versionEvents.
    rewrite Hname, dotted_name_not_empty, (name_before_last_dot _ _ Hext).
    unfold unpausedText in Hunpaused. rewrite Hunpaused.
    destruct onAuthorsComputer; repeat io_step; rewrite Htext;
      repeat io_step; rewrite Hraise; repeat io_step; reflexivity.
Qed.

End ExportFiles.

End MoreFiles.

(** ** The hop skein *)

Section MoreHop.

Context {imports : Imports}.

Import PyFacts.

Lemma skipn_head {A : Type} (l : list A) :
  forall a x r, skipn a l = x :: r ->
    nth_error l a = Some x /\ skipn (S a) l = r /\ (a < List.length l)%nat.
Proof.
  induction l as [|h l IH]; intros a x r H.
  - destruct a; discriminate.
  - destruct a as [|a].
    + injection H as -> ->. cbn. repeat split. lia.
    + cbn [skipn] in H. destruct (IH _ _ _ H) as (Hnth & Hrest & Hlen).
      cbn [nth_error List.length]. repeat split; [assumption .. | lia].
Qed.

Lemma parseInitializationLine_frame (prefs : hop.HopPreferences)
    (self s : hop.HopSkein) (line : string) (returned : bool) :
  hop.parseInitializationLine prefs self line = OK (returned, s) ->
  sameHop self s /\ sameControl self s
  /\ hop.lineIndex s = hop.lineIndex self.
Proof.
  unfold hop.parseInitializationLine. cbv zeta.
  repeat match goal with
         | |- context [if (?a =? ?b)%string then _ else _] =>
             destruct (a =? b)%string
         | |- context [item ?l ?i] => destruct (item l i); cbn [bind]
         | |- context [py_float ?w] => destruct (py_float w); cbn [bind]
         | |- context [py_int ?w] => destruct (py_int w); cbn [bind]
         end;
    try discriminate; intros H; injection H as <- <-;
    unfold sameHop, sameControl; repeat split.
Qed.

Lemma sameHop_trans (a b c : hop.HopSkein) :
  sameHop a b -> sameHop b c -> sameHop a c.
Proof.
  unfold sameHop. intros (H1 & H2 & H3) (K1 & K2 & K3).
  repeat split; congruence.
Qed.

Lemma parseInitializationLoop_frame (prefs : hop.HopPreferences)
    (indices : list nat) :
  forall self s,
    hop.parseInitializationLoop prefs self indices = OK s ->
    sameHop self s /\ sameControl self s.
Proof.
  induction indices as [|index indices IH]; intros self s Hrun.
  - injection Hrun as <-. unfold sameHop, sameControl. repeat split.
  - cbn [hop.parseInitializationLoop] in Hrun.
    destruct (item _ index) as [line|]; [| discriminate].
    cbn [bind] in Hrun.
    destruct (hop.parseInitializationLine prefs _ line) as [[returned s1]|]
      eqn:Hline; [| discriminate].
    cbn [bind fst snd] in Hrun.
    destruct (parseInitializationLine_frame _ _ _ _ _ Hline)
      as (Hhop & Hcontrol & _).
    destruct returned.
    + injection Hrun as <-. split.
      * destruct Hhop as (H1 & H2 & H3). repeat split; assumption.
      * destruct Hcontrol as (H1 & H2 & H3 & H4 & H5). repeat split; assumption.
    + destruct (IH _ _ Hrun) as [Hhop' Hcontrol']. split.
      * eapply sameHop_trans; [| exact Hhop'].
        destruct Hhop as (H1 & H2 & H3). repeat split; assumption.
      * eapply sameControl_trans; [| exact Hcontrol'].
        destruct Hcontrol as (H1 & H2 & H3 & H4 & H5).
        repeat split; assumption.
Qed.

(** X15.  The initialization pass stores the hop height but never the
    height and distance the hops are made with: whatever the lines, the
    skein it returns has [layerHopHeight] and [layerHopDistance] as they
    were (0.4 for a fresh skein), so an extrusion height read from the
    text only takes effect at the first layer mark of the main pass; the
    extruder flags and the prior location are untouched as well. *)
Theorem hop_initialization_keeps_layer_hop (prefs : hop.HopPreferences)
    (text : string) (s : hop.HopSkein) :
  hop.parseInitialization prefs
    (hop.set_minimumSlope (Some (tan_radians (hop.minimumHopAngle prefs)))
       (hop.set_lines (getTextLines text) hop.init))
  = OK s ->
  hop.layerHopHeight s = 0.4%float
  /\ hop.layerHopDistance s = 0.4%float
  /\ hop.extruderActive s = false
  /\ hop.justDeactivated s = false
  /\ hop.oldLocation s = None.
Proof.
  unfold hop.parseInitialization. intros Hrun.
  destruct (parseInitializationLoop_frame _ _ _ _ Hrun)
    as [(H1 & H2 & _) (_ & K2 & K3 & K4 & _)].
  repeat split; assumption.
Qed.

Lemma parseInitializationLine_start (prefs : hop.HopPreferences)
    (self : hop.HopSkein) (line : string) :
  hop.firstWordOf (split_on " " line) = "(<extrusionStart>" ->
  hop.parseInitializationLine prefs self line
  = OK (true, hop.addLine self hop.procedureDoneLine).
Proof.
  intros Hword. unfold hop.parseInitializationLine. cbv zeta.
  now rewrite Hword.
Qed.

Lemma parseInitializationLoop_start (prefs : hop.HopPreferences)
    (start : string) (post : list string) (more : nat)
    (pre : list string) :
  hop.firstWordOf (split_on " " start) = "(<extrusionStart>" ->
  Forall notExtrusionStart pre ->
  Forall (fun line => metadataParses line = true) pre ->
  forall (a : nat) (self : hop.HopSkein),
    skipn a (hop.lines self) = (pre ++ start :: post)%list ->
    exists s,
      hop.parseInitializationLoop prefs self
        (seq a (List.length pre + S more))
      = OK s
      /\ hop.output s
         = hop.output self ++ unlines pre ++ hop.procedureDoneLine ++ newline
      /\ hop.lineIndex s = (a + List.length pre)%nat
      /\ sameControl self s.
Proof.
  intros Hstart Hplain Hparses.
  induction pre as [|line pre IH]; intros a self Hlines.
  - cbn [List.app List.length Nat.add seq hop.parseInitializationLoop
         hop.lines hop.set_lineIndex] in *.
    destruct (skipn_head _ _ _ _ Hlines) as (Hnth & _ & _).
    unfold item. rewrite Hnth. cbn [bind].
    rewrite (parseInitializationLine_start _ _ _ Hstart). cbn [bind fst snd].
    eexists. split; [reflexivity |]. repeat split.
    cbn [hop.lineIndex hop.addLine hop.set_output hop.set_lineIndex]. lia.
  - inversion Hplain as [|l ls Hplain1 Hplain2]; subst.
    inversion Hparses as [|l ls Hparses1 Hparses2]; subst.
    cbn [List.app List.length Nat.add seq hop.parseInitializationLoop
         hop.lines hop.set_lineIndex] in *.
    destruct (skipn_head _ _ _ _ Hlines) as (Hnth & Hrest & _).
    unfold item. rewrite Hnth. cbn [bind].
    destruct (parseInitializationLine_plain prefs
                (hop.set_lineIndex a self) line Hplain1 Hparses1)
      as (s1 & Hrun & Hout & Hindex & Hsame).
    rewrite Hrun. cbn [bind fst snd].
    assert (Hl : hop.lines s1 = hop.lines self) by apply Hsame.
    destruct (IH Hplain2 Hparses2 (S a) s1) as (s & Hloop & Hout' & Hindex' & Hsame').
    { now rewrite Hl. }
    exists s. split; [exact Hloop |]. split; [| split].
    + rewrite Hout', Hout. cbn [unlines hop.output hop.set_lineIndex].
      now rewrite !append_assoc.
    + rewrite Hindex'. lia.
    + eapply sameControl_trans; [| exact Hsame'].
      destruct Hsame as (H1 & H2 & H3 & H4 & H5). repeat split; assumption.
Qed.

(** X16.  On a text with an [(<extrusionStart>] line the initialization
    pass copies the lines before the first such line (their metadata
    parsing), writes [(<procedureDone> hop )] once, right after them, and
    stops with [lineIndex] on that line, which it has not copied: the
    main pass starts with it. *)
Theorem hop_initialization_marks (prefs : hop.HopPreferences)
    (self : hop.HopSkein) (pre post : list string) (start : string) :
  hop.lines self = (pre ++ start :: post)%list ->
  Forall notExtrusionStart pre ->
  Forall (fun line => metadataParses line = true) pre ->
  hop.firstWordOf (split_on " " start) = "(<extrusionStart>" ->
  exists s,
    hop.parseInitialization prefs self = OK s
    /\ hop.output s
       = hop.output self ++ unlines pre ++ hop.procedureDoneLine ++ newline
    /\ hop.lineIndex s = List.length pre
    /\ nth_error (hop.lines s) (hop.lineIndex s) = Some start.
Proof.
  intros Hlines Hplain Hparses Hstart.
  destruct (parseInitializationLoop_start prefs start post (List.length post)
              pre Hstart Hplain Hparses 0 self Hlines)
    as (s & Hloop & Hout & Hindex & Hsame).
  exists s. unfold hop.parseInitialization, hop.range.
  rewrite Hlines, length_app, Nat.sub_0_r. cbn [List.length].
  split; [exact Hloop |]. split; [exact Hout |]. split; [exact Hindex |].
  destruct Hsame as (Hl & _). rewrite Hl, Hlines, Hindex.
  rewrite nth_error_app2, Nat.sub_diag by lia. reflexivity.
Qed.

Lemma noteFeedrate_frame (self s : hop.HopSkein) (splitLine : list string) :
  hop.noteFeedrate self splitLine = OK s ->
  exists feed, s = hop.set_feedrateString feed self.
Proof.
  unfold hop.noteFeedrate.
  destruct (indexOfStartingWithSecond "F" splitLine >? 0).
  - destruct (item splitLine _) as [word|]; cbn [bind]; [| discriminate].
    intros H. injection H as <-. now eexists.
  - intros H. injection H as <-. exists (hop.feedrateString self).
    symmetry. apply set_feedrateString_same.
Qed.

(** What [getHopLine] leaves alone, whether or not it hops. *)
Lemma getHopLine_frame (self : hop.HopSkein) (line : string)
    (hopped : string * hop.HopSkein) :
  hop.getHopLine self line = OK hopped ->
  hop.extruderActive (snd hopped) = hop.extruderActive self
  /\ hop.justDeactivated (snd hopped) = hop.justDeactivated self
  /\ hop.oldLocation (snd hopped) = hop.oldLocation self
  /\ hop.lines (snd hopped) = hop.lines self
  /\ hop.minimumSlope (snd hopped) = hop.minimumSlope self.
Proof.
  unfold hop.getHopLine. cbv zeta.
  destruct (hop.noteFeedrate self (split_on " " line)) as [s1|] eqn:Hnote;
    [| discriminate].
  destruct (noteFeedrate_frame _ _ _ Hnote) as (feed & ->). cbn [bind].
  cbn [hop.extruderActive hop.justDeactivated hop.oldLocation
       hop.layerHopDistance hop.set_feedrateString].
  destruct (hop.extruderActive self) eqn:Hactive;
    [intros H; injection H as <-; cbn; repeat split; assumption |].
  destruct (getLocationFromSplitLine (hop.oldLocation self) _)
    as [location|]; cbn [bind]; [| discriminate].
  destruct (hop.isNextTravel _);
    [intros H; injection H as <-; cbn; repeat split; assumption |].
  destruct (hop.justDeactivated self) eqn:Hjust;
    [| intros H; injection H as <-; cbn; repeat split; assumption].
  destruct (hop.oldLocation self) as [old|] eqn:Hold; cbn [bind hop.attr];
    [| discriminate].
  destruct (fdiv _ _) as [ratio|]; cbn [bind]; [| discriminate].
  intros H. injection H as <-. cbn. repeat split; assumption.
Qed.

Lemma parseCommand_flags (self s : hop.HopSkein) (firstWord : string) :
  hop.parseCommand self firstWord = OK s ->
  hop.extruderActive s
  = (if (firstWord =? "M103")%string then false
     else if (firstWord =? "M101")%string then true
     else hop.extruderActive self)
  /\ hop.justDeactivated s
     = (if (firstWord =? "M103")%string then true
        else hop.justDeactivated self)
  /\ hop.lines s = hop.lines self
  /\ hop.minimumSlope s = hop.minimumSlope self.
Proof.
  unfold hop.parseCommand.
  destruct (firstWord =? "M101")%string, (firstWord =? "M103")%string;
    try (intros H; injection H as <-; repeat split; reflexivity);
    (destruct (firstWord =? "(<layerStart>")%string;
     [| destruct (firstWord =? "(<bridgeLayer>")%string]);
    cbn [hop.minimumSlope hop.set_extruderActive];
    try (intros H; injection H as <-; repeat split; reflexivity);
    (destruct (hop.minimumSlope self) as [slope|] eqn:Hslope;
     cbn [bind hop.attr]; [| discriminate]);
    match goal with
    | |- context [fdiv ?a ?b] => destruct (fdiv a b); cbn [bind]
    end;
    try discriminate; intros H; injection H as <-; cbn;
    repeat split; assumption.
Qed.

(** X17.  How the main pass moves its two flags, line by line: [M101]
    sets [extruderActive] and [M103] clears it, nothing else touches it;
    [M103] sets [justDeactivated] and only a linear move clears it, so
    the flag stays up over any other lines in between, [M101] included. *)
Theorem hop_parseLine_flags (self self' : hop.HopSkein) (line : string) :
  hop.parseLine self line = OK self' ->
  let firstWord := hop.firstWordOf (split_on " " line) in
  hop.extruderActive self'
  = (if (firstWord =? "M103")%string then false
     else if (firstWord =? "M101")%string then true
     else hop.extruderActive self)
  /\ hop.justDeactivated self'
     = (if (firstWord =? "G1")%string then false
        else if (firstWord =? "M103")%string then true
        else hop.justDeactivated self).
Proof.
  intros Hrun firstWord. subst firstWord.
  destruct (len line <? 1) eqn:Hlen.
  - rewrite len_nonempty in Hlen. destruct line; [| discriminate].
    rewrite hop_parseLine_empty in Hrun. injection Hrun as <-. now split.
  - destruct (split_on_first line) as (firstWord & rest & Hsplit).
    rewrite (hop_parseLine_unfold _ _ _ _ Hlen Hsplit) in Hrun.
    rewrite Hsplit. cbn [hop.firstWordOf].
    destruct (String.eqb_spec firstWord "G1") as [-> | Hword].
    + unfold hop.parseMove in Hrun.
      destruct (hop.getHopLine self line) as [hopped|] eqn:Hhop;
        [| discriminate].
      cbn [bind] in Hrun.
      destruct (getLocationFromSplitLine _ _) as [location|];
        [| discriminate].
      cbn [bind snd fst hop.parseCommand String.eqb Ascii.eqb Bool.eqb]
        in Hrun.
      injection Hrun as <-.
      destruct (getHopLine_frame _ _ _ Hhop) as (Hactive & _).
      cbn. now split.
    + cbn [bind snd fst] in Hrun.
      destruct (hop.parseCommand self firstWord) as [s|] eqn:Hcommand;
        [| discriminate].
      cbn [bind] in Hrun. injection Hrun as <-.
      destruct (parseCommand_flags _ _ _ Hcommand) as (Hactive & Hjust & _).
      cbn [hop.extruderActive hop.justDeactivated hop.addLine hop.set_output].
      now split.
Qed.

(** X18.  A zero slope is not caught when the preferences are read: it
    makes the first layer mark of the main pass raise.  With
    [minimumSlope] zero (the tangent of a zero hop angle), [parseLine]
    on a [(<layerStart>] or [(<bridgeLayer>] line raises
    [ZeroDivisionError], and so does the loop of the main pass that
    reaches such a line. *)
Theorem hop_zero_slope_raises (self : hop.HopSkein) (line : string)
    (slope : float) :
  hop.minimumSlope self = Some slope ->
  PrimFloat.eqb slope 0 = true ->
  hop.firstWordOf (split_on " " line) = "(<layerStart>"
  \/ hop.firstWordOf (split_on " " line) = "(<bridgeLayer>" ->
  hop.parseLine self line = Raise ZeroDivisionError
  /\ (forall index rest,
      nth_error (hop.lines self) index = Some line ->
      hop.parseGcodeLoop self (index :: rest) = Raise ZeroDivisionError).
Proof.
  intros Hslope Hzero Hword.
  assert (Hline : forall s, hop.minimumSlope s = Some slope ->
                            hop.parseLine s line = Raise ZeroDivisionError).
  { intros s Hs.
    destruct (split_on_first line) as (firstWord & rest & Hsplit).
    rewrite Hsplit in Hword. cbn [hop.firstWordOf] in Hword.
    assert (Hlen : (len line <? 1) = false).
    { rewrite len_nonempty. destruct line; [| reflexivity].
      cbn in Hsplit. injection Hsplit as <- <-.
      destruct Hword; discriminate. }
    rewrite (hop_parseLine_unfold _ _ _ _ Hlen Hsplit).
    destruct Hword as [-> | ->]; cbn [String.eqb Ascii.eqb Bool.eqb bind
                                      snd fst hop.parseCommand];
      rewrite Hs; cbn [bind hop.attr]; unfold fdiv; rewrite Hzero;
      reflexivity. }
  split; [now apply Hline |].
  intros index rest Hnth. cbn [hop.parseGcodeLoop hop.lines hop.set_lineIndex].
  unfold item. rewrite Hnth. cbn [bind]. now rewrite Hline.
Qed.

Lemma skipn_past {A : Type} (pre rest : list A) :
  skipn (List.length pre) (pre ++ rest)%list = rest.
Proof. induction pre as [|h pre IH]; [reflexivity | exact IH]. Qed.

Lemma hop_parseLine_copied (self : hop.HopSkein) (line : string)
    (slope : float) :
  hop.minimumSlope self = Some slope ->
  PrimFloat.eqb slope 0 = false ->
  notTravel line ->
  exists s,
    hop.parseLine self line = OK s
    /\ hop.output s = hop.output self ++ copiedLine line
    /\ hop.lines s = hop.lines self
    /\ hop.minimumSlope s = hop.minimumSlope self.
Proof.
  intros Hslope Hzero Hline. destruct line as [|c line].
  - exists self. rewrite hop_parseLine_empty. cbn [copiedLine String.eqb].
    now rewrite append_empty_r.
  - destruct (split_on_first (String c line)) as (firstWord & rest & Hsplit).
    unfold notTravel in Hline. rewrite Hsplit in Hline.
    cbn [hop.firstWordOf] in Hline.
    assert (Hlen : (len (String c line) <? 1) = false)
      by now rewrite len_nonempty.
    rewrite (hop_parseLine_unfold _ _ _ _ Hlen Hsplit).
    destruct (String.eqb_spec firstWord "G1") as [| _]; [contradiction |].
    cbn [bind snd fst].
    destruct (parseCommand_returns self firstWord slope Hslope
                (fun _ => Hzero)) as (s & Hcommand).
    rewrite Hcommand. cbn [bind].
    destruct (parseCommand_keeps _ _ _ Hcommand) as (Hout & _).
    destruct (parseCommand_flags _ _ _ Hcommand) as (_ & _ & Hl & Hs).
    eexists. split; [reflexivity |].
    cbn [hop.output hop.lines hop.minimumSlope hop.addLine hop.set_output
         copiedLine String.eqb].
    rewrite Hout. now repeat split.
Qed.

Lemma parseGcodeLoop_copied (slope : float) (rows : list string) :
  PrimFloat.eqb slope 0 = false ->
  Forall notTravel rows ->
  forall (a : nat) (self : hop.HopSkein),
    skipn a (hop.lines self) = rows ->
    hop.minimumSlope self = Some slope ->
    exists s,
      hop.parseGcodeLoop self (seq a (List.length rows)) = OK s
      /\ hop.output s = hop.output self ++ copiedLines rows.
Proof.
  intros Hzero Hrows.
  induction Hrows as [|line rows Hline _ IH]; intros a self Hlines Hslope.
  - exists self. cbn. now rewrite append_empty_r.
  - cbn [List.length seq hop.parseGcodeLoop hop.lines hop.set_lineIndex].
    destruct (skipn_head _ _ _ _ Hlines) as (Hnth & Hrest & _).
    unfold item. rewrite Hnth. cbn [bind].
    destruct (hop_parseLine_copied (hop.set_lineIndex a self) line slope
                Hslope Hzero Hline) as (s1 & Hrun & Hout & Hl & Hs).
    rewrite Hrun. cbn [bind].
    destruct (IH (S a) s1) as (s & Hloop & Hout').
    { now rewrite Hl. }
    { now rewrite Hs. }
    exists s. split; [exact Hloop |].
    rewrite Hout', Hout. cbn [copiedLines hop.output hop.set_lineIndex].
    now rewrite append_assoc.
Qed.

(** X19.  A text without linear moves passes the hop stage as it is but
    for the marker and the empty lines of the main pass: when the lines
    are [pre], a first [(<extrusionStart>] line and [post], no line of
    [post] is a linear move and the slope is not zero, [parseGcode]
    returns and its output is the lines of [pre], the marker
    [(<procedureDone> hop )], the start line and the non-empty lines of
    [post], each with its newline. *)
Theorem hop_text_without_moves (prefs : hop.HopPreferences) (text : string)
    (pre post : list string) (start : string) :
  getTextLines text = (pre ++ start :: post)%list ->
  Forall notExtrusionStart pre ->
  Forall (fun line => metadataParses line = true) pre ->
  hop.firstWordOf (split_on " " start) = "(<extrusionStart>" ->
  Forall notTravel post ->
  PrimFloat.eqb (tan_radians (hop.minimumHopAngle prefs)) 0 = false ->
  exists s,
    hop.parseGcode hop.init text prefs = OK s
    /\ hop.output s
       = unlines pre ++ hop.procedureDoneLine ++ newline
         ++ copiedLines (start :: post).
Proof.
  intros Hlines Hplain Hparses Hstart Hpost Hzero.
  unfold hop.parseGcode, hop.parseInitialization, hop.range. cbv zeta.
  set (self :=
         hop.set_minimumSlope
           (Some (tan_radians (hop.minimumHopAngle prefs)))
           (hop.set_lines (getTextLines text) hop.init)).
  assert (Hself : hop.lines self = (pre ++ start :: post)%list)
    by exact Hlines.
  destruct (parseInitializationLoop_start prefs start post (List.length post)
              pre Hstart Hplain Hparses 0%nat self Hself)
    as (s1 & Hloop & Hout & Hindex & Hsame).
  rewrite Hself, length_app, Nat.sub_0_r. cbn [List.length].
  rewrite Hloop. cbn [bind].
  destruct Hsame as (Hl & _ & _ & _ & Hs).
  rewrite Hl, Hself, Hindex, length_app. cbn [List.length Nat.add].
  replace (List.length pre + S (List.length post) - List.length pre)%nat
    with (List.length (start :: post)) by (cbn [List.length]; lia).
  destruct (parseGcodeLoop_copied _ (start :: post) Hzero) with
    (a := List.length pre) (self := s1) as (s & Hmain & Hout').
  - constructor; [| exact Hpost]. unfold notTravel. rewrite Hstart.
    discriminate.
  - rewrite Hl, Hself. apply skipn_past.
  - rewrite Hs. reflexivity.
  - exists s. split; [exact Hmain |]. rewrite Hout', Hout.
    cbn [hop.output hop.init hop.set_minimumSlope hop.set_lines self].
    cbn [append]. now rewrite !append_assoc.
Qed.

(** X20.  What [isNextTravel] answers yes to: exactly the states in which
    the lines after the current one are some lines that are neither a
    linear move nor [M101], then a linear move.  Lines of any other kind
    in between, [M103] and the layer marks included, do not stop the
    search. *)
Theorem hop_isNextTravel_true (self : hop.HopSkein) :
  hop.isNextTravel self = true
  <-> exists pre move post,
      skipn (hop.lineIndex self + 1) (hop.lines self)
      = (pre ++ move :: post)%list
      /\ Forall passedOver pre
      /\ hop.firstWordOf (split_on " " move) = "G1".
Proof.
  rewrite isNextTravel_scan.
  generalize (skipn (hop.lineIndex self + 1) (hop.lines self)) as rest.
  induction rest as [|line rest IH]; cbn [travelAhead].
  - split; [discriminate |]. intros (pre & move & post & H & _).
    destruct pre; discriminate.
  - destruct (String.eqb_spec (hop.firstWordOf (split_on " " line)) "G1")
      as [Hmove | Hmove].
    + split; [| reflexivity]. intros _. exists [], line, rest.
      repeat split; [constructor | exact Hmove].
    + destruct (String.eqb_spec (hop.firstWordOf (split_on " " line)) "M101")
        as [Hon | Hon].
      * split; [discriminate |]. intros (pre & move & post & H & Hpre & Hg).
        destruct pre as [|l pre]; cbn [List.app] in H; injection H as -> ->.
        -- contradiction.
        -- inversion Hpre as [|? ? [_ Hno] _]. contradiction.
      * rewrite IH. split.
        -- intros (pre & move & post & -> & Hpre & Hg).
           exists (line :: pre), move, post. repeat split; [| exact Hg].
           constructor; [now split | exact Hpre].
        -- intros (pre & move & post & H & Hpre & Hg).
           destruct pre as [|l pre]; cbn [List.app] in H;
             injection H as -> ->; [contradiction |].
           inversion Hpre; subst. now exists pre, move, post.
Qed.

End MoreHop.

Section MoreHopMoves.

Context {imports : Imports}.

Import PyFacts.

Hypothesis index_in_line :
  forall letter splitLine,
    indexOfStartingWithSecond letter splitLine
    < Z.of_nat (List.length splitLine).

(** X22.  The ramp has no guard of its own.  For a linear move read with
    the extruder off, [justDeactivated] set and no further move ahead,
    whose location parses: when the move ends where the prior location
    is, the distance is zero and [parseLine] raises [ZeroDivisionError];
    when no prior location is known, [parseLine] raises as well.  In both
    cases nothing is written for the line. *)
Theorem hop_ramp_raises (self : hop.HopSkein) (line : string)
    (location : Vec3) :
  hop.firstWordOf (split_on " " line) = "G1" ->
  hop.extruderActive self = false ->
  hop.justDeactivated self = true ->
  hop.isNextTravel self = false ->
  getLocationFromSplitLine (hop.oldLocation self) (split_on " " line)
  = OK location ->
  match hop.oldLocation self with
  | None => exists e, hop.parseLine self line = Raise e
  | Some old =>
      PrimFloat.eqb (Vec3Ops.distance location old) 0 = true ->
      hop.parseLine self line = Raise ZeroDivisionError
  end.
Proof.
  intros Hword Hactive Hjust Htravel Hloc.
  destruct (split_on_first line) as (firstWord & rest & Hsplit).
  assert (Hlen : (len line <? 1) = false).
  { rewrite len_nonempty. destruct line; [| reflexivity].
    rewrite Hsplit in Hword. cbn in Hsplit. injection Hsplit as <- <-.
    discriminate. }
  rewrite (hop_parseLine_unfold _ _ _ _ Hlen Hsplit).
  assert (Hfirst : firstWord = "G1").
  { rewrite Hsplit in Hword. exact Hword. }
  subst firstWord. cbn [String.eqb Ascii.eqb Bool.eqb].
  unfold hop.parseMove. rewrite (getHopLine_unfold index_in_line).
  cbv zeta. rewrite Hactive, Hloc. cbn [bind]. rewrite Htravel, Hjust.
  destruct (hop.oldLocation self) as [old|]; cbn [bind hop.attr].
  - intros Hzero. unfold fdiv. now rewrite Hzero.
  - now eexists.
Qed.

(** X21.  The ramp stays within its cap.  For a linear move read with
    the extruder off, [justDeactivated] set, no further move ahead, a
    prior location and a non-zero length, the two raised lines
    [getHopLine] writes are at the ratios [along] and [1 - along] of the
    way, where [along] is at most 0.41666666: it is the quotient of hop
    distance and move length when that is strictly below the cap, and
    the cap itself otherwise, for an infinite quotient and for one that
    is not a number as well. *)
Theorem hop_along_ratio_capped (self : hop.HopSkein) (line : string)
    (rest : list string) (old location : Vec3) :
  hop.extruderActive self = false ->
  hop.justDeactivated self = true ->
  hop.isNextTravel self = false ->
  split_on " " line = "G1" :: rest ->
  hop.oldLocation self = Some old ->
  getLocationFromSplitLine (Some old) ("G1" :: rest) = OK location ->
  PrimFloat.eqb (Vec3Ops.distance location old) 0 = false ->
  let quotient :=
    (hop.layerHopDistance self / Vec3Ops.distance location old)%float in
  let feed := feedrateAfter self ("G1" :: rest) in
  let raised (point : Vec3) :=
    elevatedMove (hop.decimalPlacesCarried self) point
      (hop.layerHopHeight self) feed in
  exists along,
    PrimFloat.leb along hop.alongCap = true
    /\ (PrimFloat.ltb quotient hop.alongCap = true -> along = quotient)
    /\ (PrimFloat.ltb quotient hop.alongCap = false -> along = hop.alongCap)
    /\ hop.getHopLine self line
       = OK (line,
             hop.addLine
               (hop.addLine (hop.set_feedrateString feed self)
                  (raised
                     (Vec3Ops.plus (Vec3Ops.times old (1 - along))
                        (Vec3Ops.times location along))))
               (raised
                  (Vec3Ops.plus (Vec3Ops.times old along)
                     (Vec3Ops.times location (1 - along))))).
Proof.
  intros Hinactive Hjust Hnext Hsplit Hold Hlocation Hdistance
    quotient feed raised.
  exists (fmin hop.alongCap quotient). repeat apply conj.
  - unfold fmin. destruct (PrimFloat.ltb quotient hop.alongCap) eqn:Hless;
      [| reflexivity].
    rewrite FloatAxioms.leb_spec. rewrite FloatAxioms.ltb_spec in Hless.
    unfold SFleb. unfold SFltb in Hless.
    now destruct (SFcompare _ _) as [[| |]|].
  - unfold fmin. now intros ->.
  - unfold fmin. now intros ->.
  - rewrite (getHopLine_unfold index_in_line). cbv zeta.
    rewrite Hinactive, Hnext, Hjust, Hsplit, Hold, Hlocation.
    cbn [bind hop.attr]. unfold fdiv. rewrite Hdistance. cbn [bind].
    rewrite !getMovementLineWithHop_text. reflexivity.
Qed.

End MoreHopMoves.

(** ** The further properties at work *)

Ltac each_line tac := repeat (apply Forall_cons; [tac |]); apply Forall_nil.

(** A comment, a move, an empty line and a command with deleteComments
    on: two lines are written, none a comment. *)
Lemma export_output_without_comments_witness :
  exists self',
    @export.parseLines reference.imports runs.deleting export.init
      ["(comment)"; "G1 X1.23456 Y2"; ""; "M103"] = OK self'
    /\ exists written,
        export.output self'
        = export.output export.init ++ unlines written
        /\ Forall (fun l => isComment l = false) written
        /\ (List.length written <= 4)%nat.
Proof.
  eexists. split; [vm_compute; reflexivity |].
  apply (@export_output_without_comments reference.imports runs.deleting
           ["(comment)"; "G1 X1.23456 Y2"; ""; "M103"] export.init);
    vm_compute; reflexivity.
Defined.

(** Zero carried places: the export rounds to one place. *)
Lemma export_places_at_least_one_witness :
  exists self',
    @export.parseGcode reference.imports runs.keeping export.init
      (runs.joined ["(<decimalPlacesCarried> 0 )"; "G1 X1.5"]) = OK self'
    /\ 1 <= export.decimalPlacesExported self'.
Proof.
  eexists. split; [vm_compute; reflexivity |].
  apply (@export_places_at_least_one reference.imports runs.keeping
           (runs.joined ["(<decimalPlacesCarried> 0 )"; "G1 X1.5"])).
  vm_compute. reflexivity.
Defined.

(** Two commands and a comment with deleteComments off. *)
Lemma export_copies_other_lines_witness :
  Forall (fun line => copiedByExport runs.keeping line = true)
    ["M103"; "(<layer> 1 )"; "M101"]
  /\ @export.parseLines reference.imports runs.keeping export.init
       ["M103"; "(<layer> 1 )"; "M101"]
     = OK (export.mkExportSkein 2
             (runs.joined ["M103"; "(<layer> 1 )"; "M101"] ++ newline)).
Proof.
  split; [each_line ltac:(vm_compute; reflexivity) |].
  apply (@export_copies_other_lines reference.imports runs.keeping
           ["M103"; "(<layer> 1 )"; "M101"] export.init).
  each_line ltac:(vm_compute; reflexivity).
Defined.

(** The table replaces [M103]; the text has none. *)
Lemma export_getReplaced_idle_witness :
  Forall (fun line => rowIdle (runs.joined ["G1 X1"; "M101"]) line = true)
    (@getTextLines reference.imports (@replaceText world.outside))
  /\ @export.getReplaced reference.imports world.outside
       (runs.joined ["G1 X1"; "M101"])
     = runs.joined ["G1 X1"; "M101"].
Proof.
  split; [each_line ltac:(vm_compute; reflexivity) |].
  apply (@export_getReplaced_idle reference.imports world.outside).
  each_line ltac:(vm_compute; reflexivity).
Defined.

(** Two moves, five apart, around a command: one distance is printed. *)
Lemma export_getDistanceGcode_prints_witness :
  snd (@export.getDistanceGcode reference.imports
         (runs.joined ["G1 X1 Y0 Z0"; "M101"; "G1 X4 Y4 Z0"]))
  = OK (runs.joined ["G1 X1 Y0 Z0"; "M101"; "G1 X4 Y4 Z0"])
  /\ List.length
       (fst (@export.getDistanceGcode reference.imports
               (runs.joined ["G1 X1 Y0 Z0"; "M101"; "G1 X4 Y4 Z0"])))
     = 1%nat
  /\ Forall (fun e => exists d, e = PrintFloat d)
       (fst (@export.getDistanceGcode reference.imports
               (runs.joined ["G1 X1 Y0 Z0"; "M101"; "G1 X4 Y4 Z0"]))).
Proof.
  apply (@export_getDistanceGcode_prints reference.imports
           (runs.joined ["G1 X1 Y0 Z0"; "M101"; "G1 X4 Y4 Z0"])).
  intros line old Hin Hmove. vm_compute in Hin.
  destruct Hin as [<- | [<- | [<- | []]]].
  - destruct old; vm_compute; reflexivity.
  - vm_compute in Hmove. discriminate.
  - destruct old; vm_compute; reflexivity.
Defined.

(** [part.gcode] is hopped into [part_hop.gcode]. *)
Lemma hop_writeOutput_writes_witness :
  @hop.writeOutput reference.imports world.outside runs.hopPreferences
    "part.gcode"
  = ([Print "File part.gcode is being chain hopped.";
      WriteFile "part_hop.gcode"
        (runs.joined ["(<procedureDone> stretch )"; "(<procedureDone> hop )";
                      "(<extrusionStart>"; "M103"] ++ newline);
      Print "The hopped file is saved as part_hop.gcode";
      Analyze "part_hop.gcode"
        (runs.joined ["(<procedureDone> stretch )"; "(<procedureDone> hop )";
                      "(<extrusionStart>"; "M103"] ++ newline);
      Print "It took 0 seconds to hop the file."],
     OK tt).
Proof.
  apply (@hop_writeOutput_writes reference.imports world.outside
           runs.hopPreferences "part" "gcode"
           (runs.joined ["(<procedureDone> stretch )";
                         "(<procedureDone> hop )";
                         "(<extrusionStart>"; "M103"] ++ newline));
    vm_compute; reflexivity.
Defined.

(** A file called [part] is hopped into [par_hop.gcode]. *)
Lemma hop_writeOutput_name_without_dot_witness :
  map writtenFile
    (fst (@hop.writeOutput reference.imports world.anywhere
            runs.hopPreferences "part"))
  = [None; Some "par_hop.gcode"; None; None; None].
Proof.
  apply (@hop_writeOutput_name_without_dot reference.imports world.anywhere
           runs.hopPreferences "part"
           (runs.joined ["(<procedureDone> stretch )";
                         "(<procedureDone> hop )";
                         "(<extrusionStart>"; "M103"] ++ newline));
    try (vm_compute; reflexivity).
  discriminate.
Defined.



(** An extrusion height of 0.8 is read before the start: the hop height
    becomes 0.8, the height the hops are made with stays 0.4. *)
Lemma hop_initialization_keeps_layer_hop_witness :
  exists s,
    @hop.parseInitialization reference.imports runs.hopPreferences
      (hop.set_minimumSlope
         (Some (reference.tan_radians
                  (hop.minimumHopAngle runs.hopPreferences)))
         (hop.set_lines
            (reference.getTextLines
               (runs.joined ["(<extrusionHeight> 0.8 )"; "";
                             "(<extrusionStart> )"; "G1 X1"]))
            hop.init))
    = OK s
    /\ hop.hopHeight s = 0.8%float
    /\ hop.layerHopHeight s = 0.4%float
    /\ hop.layerHopDistance s = 0.4%float
    /\ hop.extruderActive s = false
    /\ hop.justDeactivated s = false
    /\ hop.oldLocation s = None.
Proof.
  eexists. split; [vm_compute; reflexivity |].
  split; [vm_compute; reflexivity |].
  apply (@hop_initialization_keeps_layer_hop reference.imports
           runs.hopPreferences
           (runs.joined ["(<extrusionHeight> 0.8 )"; "";
                         "(<extrusionStart> )"; "G1 X1"])).
  vm_compute. reflexivity.
Defined.

(** Two lines, one of them empty, before the start line. *)
Lemma hop_initialization_marks_witness :
  exists s,
    @hop.parseInitialization reference.imports runs.hopPreferences
      (hop.set_lines ["(<extrusionHeight> 0.8 )"; ""; "(<extrusionStart> )";
                      "G1 X1"] hop.init)
    = OK s
    /\ hop.output s
       = "" ++ unlines ["(<extrusionHeight> 0.8 )"; ""]
         ++ hop.procedureDoneLine ++ newline
    /\ hop.lineIndex s = 2%nat
    /\ nth_error (hop.lines s) (hop.lineIndex s)
       = Some "(<extrusionStart> )".
Proof.
  apply (@hop_initialization_marks reference.imports runs.hopPreferences
           (hop.set_lines ["(<extrusionHeight> 0.8 )"; "";
                           "(<extrusionStart> )"; "G1 X1"] hop.init)
           ["(<extrusionHeight> 0.8 )"; ""] ["G1 X1"] "(<extrusionStart> )").
  - reflexivity.
  - each_line ltac:(vm_compute; discriminate).
  - each_line ltac:(vm_compute; reflexivity).
  - vm_compute. reflexivity.
Defined.

(** [M101] read with [justDeactivated] up: the extruder is on and the
    flag is still up. *)
Lemma hop_parseLine_flags_witness :
  exists self',
    @hop.parseLine reference.imports
      (runs.standing ["M101"] 0 false true None "" 0.4) "M101"
    = OK self'
    /\ hop.extruderActive self' = true
    /\ hop.justDeactivated self' = true.
Proof.
  eexists. split; [vm_compute; reflexivity |].
  apply (@hop_parseLine_flags reference.imports
           (runs.standing ["M101"] 0 false true None "" 0.4) _ "M101").
  vm_compute. reflexivity.
Defined.

(** A layer mark read with a slope of zero. *)
Lemma hop_zero_slope_raises_witness :
  @hop.parseLine reference.imports
    (hop.set_minimumSlope (Some 0%float)
       (hop.set_lines ["(<layerStart> 0.4 )"] hop.init))
    "(<layerStart> 0.4 )"
  = Raise ZeroDivisionError
  /\ (forall index rest,
      nth_error
        (hop.lines (hop.set_minimumSlope (Some 0%float)
                      (hop.set_lines ["(<layerStart> 0.4 )"] hop.init)))
        index
      = Some "(<layerStart> 0.4 )" ->
      @hop.parseGcodeLoop reference.imports
        (hop.set_minimumSlope (Some 0%float)
           (hop.set_lines ["(<layerStart> 0.4 )"] hop.init))
        (index :: rest)
      = Raise ZeroDivisionError).
Proof.
  apply (@hop_zero_slope_raises reference.imports
           (hop.set_minimumSlope (Some 0%float)
              (hop.set_lines ["(<layerStart> 0.4 )"] hop.init))
           "(<layerStart> 0.4 )" 0%float).
  - reflexivity.
  - vm_compute. reflexivity.
  - left. vm_compute. reflexivity.
Defined.

(** A text of commands and marks: the marker comes in before the start
    line, the empty line after it goes. *)
Lemma hop_text_without_moves_witness :
  exists s,
    @hop.parseGcode reference.imports hop.init
      (runs.joined ["(<extrusionHeight> 0.8 )"; "(<extrusionStart> )";
                    "M103"; ""; "(<layerStart> 0.2 )"; "M101"])
      runs.hopPreferences
    = OK s
    /\ hop.output s
       = runs.joined ["(<extrusionHeight> 0.8 )"; "(<procedureDone> hop )";
                      "(<extrusionStart> )"; "M103"; "(<layerStart> 0.2 )";
                      "M101"] ++ newline.
Proof.
  apply (@hop_text_without_moves reference.imports runs.hopPreferences
           (runs.joined ["(<extrusionHeight> 0.8 )"; "(<extrusionStart> )";
                         "M103"; ""; "(<layerStart> 0.2 )"; "M101"])
           ["(<extrusionHeight> 0.8 )"]
           ["M103"; ""; "(<layerStart> 0.2 )"; "M101"]
           "(<extrusionStart> )").
  - vm_compute. reflexivity.
  - each_line ltac:(vm_compute; discriminate).
  - each_line ltac:(vm_compute; reflexivity).
  - vm_compute. reflexivity.
  - each_line ltac:(vm_compute; discriminate).
  - vm_compute. reflexivity.
Defined.

(** A move to where the nozzle already is, right after [M103] and with
    no move ahead. *)
Lemma hop_ramp_raises_witness :
  @hop.parseLine reference.imports
    (runs.standing ["G1 X8 Y0 Z0"] 0 false true (Some (mkVec3 8 0 0)) "" 0.4)
    "G1 X8 Y0 Z0"
  = Raise ZeroDivisionError.
Proof.
  apply (@hop_ramp_raises reference.imports referenceFacts.index_in_line
           (runs.standing ["G1 X8 Y0 Z0"] 0 false true (Some (mkVec3 8 0 0))
              "" 0.4)
           "G1 X8 Y0 Z0" (mkVec3 8 0 0));
    vm_compute; reflexivity.
Defined.

(** A row with a third column and commas acts like its first two words. *)
Lemma export_table_rows_by_words_witness :
  export.getReplacedLoop ["M103,M5,off"] "M103"
  = export.getReplacedLoop ["M103 M5"] "M103".
Proof.
  apply (proj1 export_table_rows_by_words ["M103,M5,off"] ["M103 M5"]).
  constructor; [vm_compute; reflexivity | constructor].
Defined.

(** A file without text: announced, nothing written. *)
Lemma hop_writeOutput_nothing_written_witness :
  @hop.writeOutput reference.imports world.outside runs.hopPreferences
    "other.gcode"
  = ([Print "File other.gcode is being chain hopped."], OK tt).
Proof.
  apply (proj1 (proj2 (@hop_writeOutput_nothing_written reference.imports
                         world.outside runs.hopPreferences))
           "other.gcode").
  - discriminate.
  - reflexivity.
Defined.

(** A hopped text that was not stretched: stretch is asked, and what it
    returns is returned.  A text that was neither stretched nor hopped:
    what stretch returns goes through the hop skein. *)
Lemma hop_chain_upstream_witness :
  @hop.getHopChainGcode reference.imports world.outside runs.hopPreferences
    "(<procedureDone> hop )" None
  = OK (runs.joined ["(<procedureDone> stretch )"; "(<procedureDone> hop )"])
  /\ @hop.getHopChainGcode reference.imports world.outside
       runs.hopPreferences (runs.joined ["(<extrusionStart>"; "M103"]) None
     = OK (runs.joined ["(<procedureDone> stretch )";
                        "(<procedureDone> hop )"; "(<extrusionStart>";
                        "M103"] ++ newline).
Proof.
  split.
  - apply (proj1 (proj2 (proj2
             (proj1 (@hop_chain_upstream reference.imports world.outside
                       runs.hopPreferences "(<procedureDone> hop )" None)
                ltac:(vm_compute; reflexivity))))
             (runs.joined ["(<procedureDone> stretch )";
                           "(<procedureDone> hop )"]));
      vm_compute; reflexivity.
  - destruct (proj2 (proj2 (proj2 (proj2
                (proj1 (@hop_chain_upstream reference.imports
                          world.outside runs.hopPreferences
                          (runs.joined ["(<extrusionStart>"; "M103"])
                          None)
                   ltac:(vm_compute; reflexivity)))))
                (runs.joined ["(<procedureDone> stretch )";
                              "(<extrusionStart>"; "M103"])
                ltac:(vm_compute; reflexivity)
                ltac:(discriminate)
                ltac:(vm_compute; reflexivity)) as [Hhopped _].
    cbv zeta in Hhopped. rewrite (Hhopped eq_refl).
    vm_compute. reflexivity.
Defined.

(** Two buttons selected: the first one's module is the plugin. *)
Lemma export_getSelectedPlugin_first_selected_witness :
  @export.getSelectedPlugin world.outside
    (world.dialog [("raw", false); ("binary", true); ("other", true)] "")
  = Some world.binary.
Proof.
  apply (proj1 (@export_getSelectedPlugin_first_selected world.outside)
           (world.dialog [("raw", false); ("binary", true); ("other", true)]
              "")
           [("raw", false)] [("other", true)] "binary").
  - reflexivity.
  - each_line reflexivity.
Defined.

(** No file name and no file found: nothing happens. *)
Lemma export_writeOutput_nothing_written_witness :
  @export.writeOutput reference.imports world.outside (world.dialog [] "") ""
  = ([], OK tt).
Proof.
  apply (proj1 (@export_writeOutput_nothing_written reference.imports
                  world.outside (world.dialog [] ""))).
  reflexivity.
Defined.

(** A deactivation and a layer mark stand between the current line and
    the next move. *)
Lemma hop_isNextTravel_true_witness :
  hop.isNextTravel
    (runs.standing ["G1 X1"; "M103"; "(<layerStart> 0.4 )"; "G1 X2"; "M101"]
       0 true false None "" 0.4)
  = true.
Proof.
  apply (proj2 (hop_isNextTravel_true _)).
  exists ["M103"; "(<layerStart> 0.4 )"], "G1 X2", ["M101"].
  split; [reflexivity |].
  split; [| vm_compute; reflexivity].
  each_line ltac:(split; vm_compute; discriminate).
Defined.

(** A move of half a unit with a hop distance of half a unit: the
    quotient is one, the ramp is cut at the cap. *)
Lemma hop_along_ratio_capped_witness :
  exists along,
    along = hop.alongCap
    /\ @hop.getHopLine reference.imports
         (runs.standing ["G1 X8.5 Y0 Z0"] 0 false true (Some (mkVec3 8 0 0))
            "F600" 0.5)
         "G1 X8.5 Y0 Z0"
       = OK ("G1 X8.5 Y0 Z0",
             hop.addLine
               (hop.addLine
                  (runs.standing ["G1 X8.5 Y0 Z0"] 0 false true
                     (Some (mkVec3 8 0 0)) "F600" 0.5)
                  (@elevatedMove reference.imports 3
                     (Vec3Ops.plus (Vec3Ops.times (mkVec3 8 0 0) (1 - along))
                        (Vec3Ops.times (mkVec3 8.5 0 0) along))
                     0.4 "F600"))
               (@elevatedMove reference.imports 3
                  (Vec3Ops.plus (Vec3Ops.times (mkVec3 8 0 0) along)
                     (Vec3Ops.times (mkVec3 8.5 0 0) (1 - along)))
                  0.4 "F600")).
Proof.
  destruct (@hop_along_ratio_capped reference.imports
              referenceFacts.index_in_line
              (runs.standing ["G1 X8.5 Y0 Z0"] 0 false true
                 (Some (mkVec3 8 0 0)) "F600" 0.5)
              "G1 X8.5 Y0 Z0" ["X8.5"; "Y0"; "Z0"] (mkVec3 8 0 0)
              (mkVec3 8.5 0 0) eq_refl eq_refl
              ltac:(vm_compute; reflexivity) eq_refl eq_refl
              ltac:(vm_compute; reflexivity)
              ltac:(vm_compute; reflexivity))
    as (along & _ & _ & Hcap & Hrun).
  exists along. split.
  - apply Hcap. vm_compute. reflexivity.
  - exact Hrun.
Defined.
